(** * Gateway lifecycle orchestration and cleanup sweep

    A shallow embedding of [sdk-deploy/gateway_manager.py] and
    [sdk-deploy/cleanup.py].  The Python code talks to a remote control
    plane through boto3 clients, reads the wall clock and sleeps between
    polls.  All three are modelled explicitly:

    - the control plane is a deterministic transition system
      [respond : St -> forall c, reply c * St * N] that answers every
      client call with a response or an exception and says how long the
      call took (in milliseconds); the theorems hold for every such
      system, the examples run against a few small ones;
    - the wall clock is an integer number of milliseconds kept in the
      [world]; a client call advances it by the call's latency,
      [time.sleep(s)] advances it by exactly [s] seconds;
    - every computation also emits the list of calls and sleeps it
      performed, in order, so that call sequences can be inspected.

    A string is the UTF-8 encoding of a Python [str].
    A response is a record: a key the code reads with [resp['k']] is a
    field, a key it reads with [resp.get('k')] is an optional field.
    An exception is its class name and its text.  What a client call
    raises is an instance of [Exception]; what [input()] raises is a
    built-in exception, which can be a [KeyboardInterrupt], and that
    one is no instance of [Exception].  The [while] loops of the waits are
    written with fuel; the methods pass enough of it, and the facts
    show that it never runs out.  Logging is not modelled. *)

From Stdlib Require Import ZArith NArith List String Ascii Bool Lia DecimalString.
Import ListNotations.

Local Open Scope string_scope.
Local Open Scope Z_scope.
Local Open Scope list_scope.

Infix "+++" := String.append (right associativity, at level 60).

(** ** Python strings

    A Python [str] is kept as the bytes of its UTF-8 encoding. *)

Module PyStr.

(** [needle in hay] on strings. *)
Fixpoint contains (needle hay : string) : bool :=
  String.prefix needle hay ||
  match hay with
  | EmptyString => false
  | String _ hay' => contains needle hay'
  end.

(** Whether [c] is the byte [n]. *)
Definition is_byte (n : N) (c : ascii) : bool := (N_of_ascii c =? n)%N.

Definition lower_ascii (c : ascii) : ascii :=
  let n := N_of_ascii c in
  if ((65 <=? n) && (n <=? 90))%N then ascii_of_N (n + 32) else c.

(** [s.lower()], as far as ASCII goes.  The letters [A] to [Z] are
    lower-cased, and so are the two other code points whose lower case
    holds an ASCII character: U+0130, bytes C4 B0, becomes [i] and
    U+0307, bytes CC 87; the Kelvin sign U+212A, bytes E2 84 AA,
    becomes [k].  The lower case of any other code point holds no ASCII
    character, and such a code point is left as it is.  So the result
    can differ from [s.lower()] in characters that are not ASCII, and
    in those only: an ASCII text occurs in the one exactly when it
    occurs in the other, and the one is an ASCII text exactly when the
    other is the same text. *)
Fixpoint lower (s : string) : string :=
  match s with
  | EmptyString => EmptyString
  | String a s1 =>
      match s1 with
      | EmptyString => String (lower_ascii a) EmptyString
      | String b s2 =>
          if is_byte 196 a && is_byte 176 b then
            String "i" (String (ascii_of_N 204) (String (ascii_of_N 135)
                                                   (lower s2)))
          else
            match s2 with
            | EmptyString => String (lower_ascii a) (lower s1)
            | String c s3 =>
                if is_byte 226 a && is_byte 132 b && is_byte 170 c then
                  String "k" (lower s3)
                else String (lower_ascii a) (lower s1)
            end
      end
  end.

(** The white space [str.strip()] removes: the ASCII characters 09 to
    0D and 1C to 20, ... *)
Definition is_space (c : ascii) : bool :=
  let n := N_of_ascii c in
  (((9 <=? n) && (n <=? 13)) || ((28 <=? n) && (n <=? 32)))%N.

(** ... U+0085 and U+00A0, bytes C2 85 and C2 A0, ... *)
Definition is_space2 (a b : ascii) : bool :=
  is_byte 194 a && (is_byte 133 b || is_byte 160 b).

(** ... and U+1680 (E1 9A 80), U+2000 to U+200A (E2 80 80 to E2 80 8A),
    U+2028, U+2029 and U+202F (E2 80 A8, A9 and AF), U+205F (E2 81 9F)
    and U+3000 (E3 80 80). *)
Definition is_space3 (a b c : ascii) : bool :=
  let n := N_of_ascii c in
  (is_byte 225 a && is_byte 154 b && is_byte 128 c) ||
  (is_byte 226 a && is_byte 128 b &&
   (((128 <=? n) && (n <=? 138)) || (n =? 168) || (n =? 169) || (n =? 175))%N) ||
  (is_byte 226 a && is_byte 129 b && is_byte 159 c) ||
  (is_byte 227 a && is_byte 128 b && is_byte 128 c).

(** Remove the white space at the front of [s]; with [backwards], [s]
    is a text read from its end, and so are the bytes of each of its
    characters. *)
Fixpoint strip_front (backwards : bool) (s : string) : string :=
  match s with
  | EmptyString => EmptyString
  | String a s1 =>
      if is_space a then strip_front backwards s1
      else
        match s1 with
        | EmptyString => s
        | String b s2 =>
            if (if backwards then is_space2 b a else is_space2 a b) then
              strip_front backwards s2
            else
              match s2 with
              | EmptyString => s
              | String c s3 =>
                  if (if backwards then is_space3 c b a else is_space3 a b c)
                  then strip_front backwards s3
                  else s
              end
        end
  end.

Definition reverse (s : string) : string :=
  string_of_list_ascii (rev (list_ascii_of_string s)).

Definition lstrip (s : string) : string := strip_front false s.

Definition rstrip (s : string) : string :=
  reverse (strip_front true (reverse s)).

(** [s.strip()]. *)
Definition strip (s : string) : string := rstrip (lstrip s).

(** [str(n)] for an integer, as an f-string prints it. *)
Definition of_Z (n : Z) : string := NilZero.string_of_int (Z.to_int n).

End PyStr.

(** ** Exceptions

    An exception is its Python class name and its [str(e)].  The
    clients raise the exceptions of botocore, and the waits raise
    [Exception] and [TimeoutError]: all of these are instances of
    [Exception], and an [except Exception] clause around such code
    catches whatever it raises.  [input()] raises built-in exceptions,
    and among them [KeyboardInterrupt], which derives from
    [BaseException] only: an [except Exception] clause lets it
    through. *)

Record exn := { exc_type : string; exc_msg : string }.

(** The built-in exception classes that do not derive from
    [Exception]. *)
Definition base_only : list string :=
  ["BaseException"; "BaseExceptionGroup"; "GeneratorExit";
   "KeyboardInterrupt"; "SystemExit"].

(** Whether [except Exception] catches a built-in exception. *)
Definition is_exception (e : exn) : bool :=
  negb (existsb (String.eqb (exc_type e)) base_only).

Definition Exception (msg : string) : exn :=
  {| exc_type := "Exception"; exc_msg := msg |}.

Definition TimeoutError (msg : string) : exn :=
  {| exc_type := "TimeoutError"; exc_msg := msg |}.

(** ** The client facade: requests and responses *)

Record custom_jwt := {
  authorizerName : string;
  tokenSource : string;
  issuer : string;
  audience : list string
}.

Record authorizer_configuration := { customJwt : custom_jwt }.

Record create_gateway_request := {
  req_name : string;
  req_description : string;
  req_protocolType : string;
  req_authorizerType : string;
  req_authorizerConfiguration : authorizer_configuration;
  req_roleArn : string
}.

(** Keys read with [resp['k']] are plain fields; keys read with
    [resp.get('k')] are optional. *)
Record caller_identity := { Account : string }.

Record create_gateway_response := {
  gatewayId : string;
  gatewayArn : string;
  gatewayUrl : option string
}.

Record get_gateway_response := { gatewayStatus : option string }.

Record get_gateway_target_response := { targetStatus : option string }.

Record gateway_summary := {
  summary_gatewayId : string;
  summary_gatewayName : option string
}.

Record list_gateways_response := {
  gatewaySummaries : option (list gateway_summary)
}.

Record target_summary := { targetId : string }.

Record list_gateway_targets_response := {
  targetSummaries : option (list target_summary)
}.

Record bucket := { Name : string }.

Record list_buckets_response := { Buckets : option (list bucket) }.

Record s3_object := { Key : string }.

Record list_objects_response := {
  Contents : option (list s3_object);
  KeyCount : option Z
}.

Inductive call : Type :=
| GetCallerIdentity
| CreateGateway (req : create_gateway_request)
| GetGateway (gateway_id : string)
| ListGateways
| DeleteGateway (gateway_id : string)
| ListGatewayTargets (gateway_id : string)
| GetGatewayTarget (gateway_id target_id : string)
| DeleteGatewayTarget (gateway_id target_id : string)
| ListBuckets
| ListObjectsV2 (bucket_name prefix : string) (max_keys : option Z)
| DeleteObjects (bucket_name : string) (keys : list string)
| Input (prompt : string).

Definition response_of (c : call) : Type :=
  match c with
  | GetCallerIdentity => caller_identity
  | CreateGateway _ => create_gateway_response
  | GetGateway _ => get_gateway_response
  | ListGateways => list_gateways_response
  | DeleteGateway _ => unit
  | ListGatewayTargets _ => list_gateway_targets_response
  | GetGatewayTarget _ _ => get_gateway_target_response
  | DeleteGatewayTarget _ _ => unit
  | ListBuckets => list_buckets_response
  | ListObjectsV2 _ _ _ => list_objects_response
  | DeleteObjects _ _ => unit
  | Input _ => string
  end.

(** What a call comes back with: a response, or a raised exception. *)
Definition reply (c : call) : Type := (response_of c + exn)%type.

Inductive event : Type :=
| Called (c : call) (r : reply c) (took : N)
| Slept (secs : Z).

(** ** The world and the computation monad *)

Definition ms_per_second : Z := 1000.

Record world (St : Type) := {
  remote : St;
  clock : Z
}.
Arguments remote {St} _.
Arguments clock {St} _.

Inductive result (A : Type) : Type :=
| Ok (a : A)
| Raised (e : exn)
| OutOfFuel.
Arguments Ok {A} _.
Arguments Raised {A} _.
Arguments OutOfFuel {A}.

Definition M (St A : Type) : Type :=
  world St -> result A * world St * list event.

Definition outcome {St A} (x : result A * world St * list event) : result A :=
  fst (fst x).
Definition final {St A} (x : result A * world St * list event) : world St :=
  snd (fst x).
Definition events {St A} (x : result A * world St * list event) : list event :=
  snd x.

Definition ret {St A} (a : A) : M St A := fun w => (Ok a, w, []).

Definition bind {St A B} (m : M St A) (f : A -> M St B) : M St B :=
  fun w =>
    match m w with
    | (Ok a, w1, t1) =>
        match f a w1 with
        | (r, w2, t2) => (r, w2, t1 ++ t2)
        end
    | (Raised e, w1, t1) => (Raised e, w1, t1)
    | (OutOfFuel, w1, t1) => (OutOfFuel, w1, t1)
    end.

Definition raise {St A} (e : exn) : M St A := fun w => (Raised e, w, []).

Definition out_of_fuel {St A} : M St A := fun w => (OutOfFuel, w, []).

(** [try: m except Exception as e: h e]. *)
Definition try_except {St A} (m : M St A) (h : exn -> M St A) : M St A :=
  fun w =>
    match m w with
    | (Raised e, w1, t1) =>
        match h e w1 with
        | (r, w2, t2) => (r, w2, t1 ++ t2)
        end
    | other => other
    end.

(** Run [m] and hand back how it ended instead of raising. *)
Definition attempt {St A} (m : M St A) : M St (A + exn) :=
  try_except (bind m (fun a => ret (inl a))) (fun e => ret (inr e)).

Declare Scope py_scope.
Delimit Scope py_scope with py.
Notation "x <- m ;; k" := (bind m (fun x => k))
  (at level 61, m at next level, right associativity) : py_scope.
Notation "m ;; k" := (bind m (fun _ => k))
  (at level 61, right associativity) : py_scope.
Local Open Scope py_scope.

(** The world after a call that took [took] and left the control plane
    in [st'], and after a sleep. *)
Definition after_call {St} (w : world St) (st' : St) (took : N) : world St :=
  {| remote := st'; clock := clock w + Z.of_N took |}.

Definition after_sleep {St} (w : world St) (secs : Z) : world St :=
  {| remote := remote w; clock := clock w + secs * ms_per_second |}.

(** [time.time()], in milliseconds. *)
Definition time_time {St} : M St Z := fun w => (Ok (clock w), w, []).

(** [time.sleep(secs)]. *)
Definition sleep {St} (secs : Z) : M St unit :=
  fun w => (Ok tt, after_sleep w secs, [Slept secs]).

(** How a loop body hands control back: [continue] (or falling off the
    end of the body) against [return]. *)
Inductive flow : Type := Continue | Return.

Section Client.

Context {St : Type}.
Variable respond : St -> forall c : call, reply c * St * N.

(** A client call: the control plane answers, time passes. *)
Definition perform (c : call) : M St (response_of c) :=
  fun w =>
    match respond (remote w) c with
    | (r, st', took) =>
        (match r with inl a => Ok a | inr e => Raised e end,
         after_call w st' took,
         [Called c r took])
    end.

End Client.

(** [status == lit] for a status read with [response.get(...)]. *)
Definition status_is (status : option string) (lit : string) : bool :=
  match status with
  | Some s => String.eqb s lit
  | None => false
  end.

(** [d.get(k, default)]. *)
Definition get_default {A : Type} (v : option A) (default : A) : A :=
  match v with
  | Some a => a
  | None => default
  end.

(** A wait loop continues only after sleeping at least five seconds, so
    [max_wait / 5 + 2] tests of the loop condition always suffice. *)
Definition wait_fuel (max_wait : Z) : nat := Z.to_nat (max_wait / 5) + 2.

(** ** gateway_manager.py *)

Module GatewayManager.

Record GatewayConfig := {
  gateway_name : string;
  description : string;
  cognito_user_pool_id : string;
  cognito_client_id : string;
  cognito_domain : string;
  lambda_function_arn : string;
  region : string
}.

(** The dict [create_gateway] returns. *)
Record gateway_handle := {
  gateway_id : string;
  gateway_arn : string;
  gateway_url : option string;
  status : string
}.

(** The dict [delete_gateway] returns. *)
Record deletion_result := { deletion_status : string }.

(** The keyword arguments [create_gateway] passes to the client;
    [account_id] is what [_get_account_id()] returned. *)
Definition create_gateway_kwargs (config : GatewayConfig) (account_id : string)
    : create_gateway_request :=
  {| req_name := gateway_name config;
     req_description := description config;
     req_protocolType := "MCP";
     req_authorizerType := "CUSTOM_JWT";
     req_authorizerConfiguration := {|
       customJwt := {|
         authorizerName := gateway_name config +++ "-authorizer";
         tokenSource := "authorization";
         issuer := "https://cognito-idp." +++ region config +++
                   ".amazonaws.com/" +++ cognito_user_pool_id config;
         audience := [cognito_client_id config]
       |}
     |};
     req_roleArn := "arn:aws:iam::" +++ account_id +++
                    ":role/BedrockAgentCoreGatewayRole" |}.

Section Manager.

Context {St : Type}.
Variable respond : St -> forall c : call, reply c * St * N.

Definition _get_account_id : M St string :=
  try_except
    (identity <- perform respond GetCallerIdentity ;;
     ret (Account identity))
    (fun e => raise e).

Definition list_gateways : M St (list gateway_summary) :=
  try_except
    (response <- perform respond ListGateways ;;
     ret (get_default (gatewaySummaries response) []))
    (fun e => raise e).

(** One pass through the body of the [while] of
    [_wait_for_gateway_active]. *)
Definition gateway_active_body (gateway_id : string) : M St flow :=
  try_except
    (response <- perform respond (GetGateway gateway_id) ;;
     let status := gatewayStatus response in
     if status_is status "ACTIVE" then ret Return
     else if status_is status "FAILED" then
       raise (Exception ("Gateway " +++ gateway_id +++ " failed to activate"))
     else
       sleep 10 ;;
       ret Continue)
    (fun e =>
       if PyStr.contains "ResourceNotFound" (exc_msg e) then
         sleep 5 ;;
         ret Continue
       else raise e).

Fixpoint wait_gateway_active_loop (fuel : nat) (gateway_id : string)
    (max_wait start_time : Z) : M St unit :=
  match fuel with
  | O => out_of_fuel
  | S fuel' =>
      now <- time_time ;;
      if now - start_time <? max_wait * ms_per_second then
        f <- gateway_active_body gateway_id ;;
        match f with
        | Return => ret tt
        | Continue =>
            wait_gateway_active_loop fuel' gateway_id max_wait start_time
        end
      else
        raise (TimeoutError ("Gateway " +++ gateway_id +++
                 " did not become active within " +++
                 PyStr.of_Z max_wait +++ " seconds"))
  end.

Definition _wait_for_gateway_active (gateway_id : string) (max_wait : Z)
    : M St unit :=
  start_time <- time_time ;;
  wait_gateway_active_loop (wait_fuel max_wait) gateway_id max_wait start_time.

Definition target_active_body (gateway_id target_id : string) : M St flow :=
  try_except
    (response <- perform respond (GetGatewayTarget gateway_id target_id) ;;
     let status := targetStatus response in
     if status_is status "ACTIVE" then ret Return
     else if status_is status "FAILED" then
       raise (Exception ("Target " +++ target_id +++ " failed to activate"))
     else
       sleep 10 ;;
       ret Continue)
    (fun e =>
       if PyStr.contains "ResourceNotFound" (exc_msg e) then
         sleep 5 ;;
         ret Continue
       else raise e).

Fixpoint wait_target_active_loop (fuel : nat) (gateway_id target_id : string)
    (max_wait start_time : Z) : M St unit :=
  match fuel with
  | O => out_of_fuel
  | S fuel' =>
      now <- time_time ;;
      if now - start_time <? max_wait * ms_per_second then
        f <- target_active_body gateway_id target_id ;;
        match f with
        | Return => ret tt
        | Continue =>
            wait_target_active_loop fuel' gateway_id target_id
              max_wait start_time
        end
      else
        raise (TimeoutError ("Target " +++ target_id +++
                 " did not become active within " +++
                 PyStr.of_Z max_wait +++ " seconds"))
  end.

Definition _wait_for_target_active (gateway_id target_id : string)
    (max_wait : Z) : M St unit :=
  start_time <- time_time ;;
  wait_target_active_loop (wait_fuel max_wait) gateway_id target_id
    max_wait start_time.

Definition gateway_deleted_body (gateway_id : string) : M St flow :=
  try_except
    (perform respond (GetGateway gateway_id) ;;
     sleep 10 ;;
     ret Continue)
    (fun e =>
       if PyStr.contains "ResourceNotFound" (exc_msg e) then ret Return
       else raise e).

Fixpoint wait_gateway_deleted_loop (fuel : nat) (gateway_id : string)
    (max_wait start_time : Z) : M St unit :=
  match fuel with
  | O => out_of_fuel
  | S fuel' =>
      now <- time_time ;;
      if now - start_time <? max_wait * ms_per_second then
        f <- gateway_deleted_body gateway_id ;;
        match f with
        | Return => ret tt
        | Continue =>
            wait_gateway_deleted_loop fuel' gateway_id max_wait start_time
        end
      else
        raise (TimeoutError ("Gateway " +++ gateway_id +++
                 " was not deleted within " +++
                 PyStr.of_Z max_wait +++ " seconds"))
  end.

Definition _wait_for_gateway_deleted (gateway_id : string) (max_wait : Z)
    : M St unit :=
  start_time <- time_time ;;
  wait_gateway_deleted_loop (wait_fuel max_wait) gateway_id max_wait start_time.

Definition target_deleted_body (gateway_id target_id : string) : M St flow :=
  try_except
    (perform respond (GetGatewayTarget gateway_id target_id) ;;
     sleep 10 ;;
     ret Continue)
    (fun e =>
       if PyStr.contains "ResourceNotFound" (exc_msg e) then ret Return
       else raise e).

Fixpoint wait_target_deleted_loop (fuel : nat) (gateway_id target_id : string)
    (max_wait start_time : Z) : M St unit :=
  match fuel with
  | O => out_of_fuel
  | S fuel' =>
      now <- time_time ;;
      if now - start_time <? max_wait * ms_per_second then
        f <- target_deleted_body gateway_id target_id ;;
        match f with
        | Return => ret tt
        | Continue =>
            wait_target_deleted_loop fuel' gateway_id target_id
              max_wait start_time
        end
      else
        raise (TimeoutError ("Target " +++ target_id +++
                 " was not deleted within " +++
                 PyStr.of_Z max_wait +++ " seconds"))
  end.

Definition _wait_for_target_deleted (gateway_id target_id : string)
    (max_wait : Z) : M St unit :=
  start_time <- time_time ;;
  wait_target_deleted_loop (wait_fuel max_wait) gateway_id target_id
    max_wait start_time.

Definition create_gateway (config : GatewayConfig) : M St gateway_handle :=
  try_except
    (account_id <- _get_account_id ;;
     gateway_response <-
       perform respond (CreateGateway (create_gateway_kwargs config account_id)) ;;
     let gateway_id := gatewayId gateway_response in
     _wait_for_gateway_active gateway_id 300 ;;
     ret {| gateway_id := gateway_id;
            gateway_arn := gatewayArn gateway_response;
            gateway_url := gatewayUrl gateway_response;
            status := "created" |})
    (fun e => raise e).

(** The [for target in ...] loop of [delete_gateway]. *)
Fixpoint delete_targets (gateway_id : string) (targets : list target_summary)
    : M St unit :=
  match targets with
  | [] => ret tt
  | target :: rest =>
      let target_id := targetId target in
      perform respond (DeleteGatewayTarget gateway_id target_id) ;;
      _wait_for_target_deleted gateway_id target_id 300 ;;
      delete_targets gateway_id rest
  end.

Definition delete_gateway (gateway_id : string) : M St deletion_result :=
  try_except
    (targets_response <- perform respond (ListGatewayTargets gateway_id) ;;
     delete_targets gateway_id
       (get_default (targetSummaries targets_response) []) ;;
     perform respond (DeleteGateway gateway_id) ;;
     _wait_for_gateway_deleted gateway_id 300 ;;
     ret {| deletion_status := "deleted" |})
    (fun e => raise e).

End Manager.

End GatewayManager.

(** ** cleanup.py *)

Module Cleanup.

(** An entry of the list [cleanup_gateways] returns; a key the dict does
    not have is [None]. *)
Record gateway_record := {
  rec_gateway_id : option string;
  rec_gateway_name : option string;
  rec_status : string;
  rec_error : option string
}.

(** An entry of the list [cleanup_s3_data] returns. *)
Record bucket_record := {
  rec_bucket_name : option string;
  rec_objects_deleted : option Z;
  rec_bucket_status : string;
  rec_bucket_error : option string
}.

(** ['mcp' in gateway_name.lower() or 'bedrock' in gateway_name.lower()] *)
Definition is_our_gateway (gateway_name : string) : bool :=
  PyStr.contains "mcp" (PyStr.lower gateway_name) ||
  PyStr.contains "bedrock" (PyStr.lower gateway_name).

(** [response in ['y', 'yes']] after [.strip().lower()]. *)
Definition is_yes (response : string) : bool :=
  let response := PyStr.lower (PyStr.strip response) in
  String.eqb response "y" || String.eqb response "yes".

Definition deleted_record (gateway_id gateway_name : string) : gateway_record :=
  {| rec_gateway_id := Some gateway_id;
     rec_gateway_name := Some gateway_name;
     rec_status := "deleted";
     rec_error := None |}.

Definition error_record (gateway_id gateway_name : string) (e : exn)
    : gateway_record :=
  {| rec_gateway_id := Some gateway_id;
     rec_gateway_name := Some gateway_name;
     rec_status := "error";
     rec_error := Some ("Failed to delete gateway " +++ gateway_id +++ ": " +++
                        exc_msg e) |}.

Definition list_error_record (e : exn) : gateway_record :=
  {| rec_gateway_id := None;
     rec_gateway_name := None;
     rec_status := "error";
     rec_error := Some ("Failed to list gateways: " +++ exc_msg e) |}.

Definition cleaned_record (bucket_name : string) (n : Z) : bucket_record :=
  {| rec_bucket_name := Some bucket_name;
     rec_objects_deleted := Some n;
     rec_bucket_status := "cleaned";
     rec_bucket_error := None |}.

Definition bucket_error_record (bucket_name : string) (e : exn)
    : bucket_record :=
  {| rec_bucket_name := Some bucket_name;
     rec_objects_deleted := None;
     rec_bucket_status := "error";
     rec_bucket_error := Some (exc_msg e) |}.

Definition list_buckets_error_record (e : exn) : bucket_record :=
  {| rec_bucket_name := None;
     rec_objects_deleted := None;
     rec_bucket_status := "error";
     rec_bucket_error := Some ("Failed to list S3 buckets: " +++ exc_msg e) |}.

Section Sweep.

Context {St : Type}.
Variable respond : St -> forall c : call, reply c * St * N.

Definition _confirm_action (message : string) : M St bool :=
  response <- perform respond (Input (message +++ " (y/N): ")) ;;
  ret (is_yes response).

(** The [for gateway in gateways] loop.  [results] is the list built so
    far; an exception that leaves the loop (only the prompt can raise
    one) is handed back with it, for the [except Exception] clause of
    [cleanup_gateways]. *)
Fixpoint cleanup_gateways_loop (force : bool) (gateways : list gateway_summary)
    (results : list gateway_record)
    : M St (list gateway_record * option exn) :=
  match gateways with
  | [] => ret (results, None)
  | gateway :: rest =>
      let gateway_id := summary_gatewayId gateway in
      let gateway_name := get_default (summary_gatewayName gateway) "Unknown" in
      if is_our_gateway gateway_name then
        confirmed <-
          attempt (if force then ret true
                   else _confirm_action ("Delete gateway " +++ gateway_name +++
                                         " (" +++ gateway_id +++ ")?")) ;;
        match confirmed with
        | inr e => ret (results, Some e)
        | inl false => cleanup_gateways_loop force rest results
        | inl true =>
            deleted <- attempt (GatewayManager.delete_gateway respond gateway_id) ;;
            match deleted with
            | inl _ =>
                cleanup_gateways_loop force rest
                  (results ++ [deleted_record gateway_id gateway_name])
            | inr e =>
                cleanup_gateways_loop force rest
                  (results ++ [error_record gateway_id gateway_name e])
            end
        end
      else cleanup_gateways_loop force rest results
  end.

(** The [except Exception] clause of [cleanup_gateways] catches what
    [list_gateways] raises, and what a prompt raises unless that is no
    instance of [Exception]. *)
Definition cleanup_gateways (force : bool) : M St (list gateway_record) :=
  listed <- attempt (GatewayManager.list_gateways respond) ;;
  match listed with
  | inr e => ret [list_error_record e]
  | inl gateways =>
      swept <- cleanup_gateways_loop force gateways [] ;;
      match swept with
      | (results, None) => ret results
      | (results, Some e) =>
          if is_exception e then ret (results ++ [list_error_record e])
          else raise e
      end
  end.

Definition _bucket_has_mcp_data (bucket_name : string) : M St bool :=
  try_except
    (response <- perform respond (ListObjectsV2 bucket_name "mcp-data/" (Some 1)) ;;
     ret (0 <? get_default (KeyCount response) 0))
    (fun _ => ret false).

(** The inner [try] of [cleanup_s3_data]: the record to append, if any. *)
Definition clean_bucket (bucket_name : string) : M St (option bucket_record) :=
  objects_response <- perform respond (ListObjectsV2 bucket_name "mcp-data/" None) ;;
  let objects_to_delete :=
    map Key (get_default (Contents objects_response) []) in
  match objects_to_delete with
  | [] => ret None
  | _ :: _ =>
      perform respond (DeleteObjects bucket_name objects_to_delete) ;;
      ret (Some (cleaned_record bucket_name
                   (Z.of_nat (List.length objects_to_delete))))
  end.

(** The [for bucket in ...] loop; nothing outside its inner [try] can
    raise. *)
Fixpoint cleanup_s3_loop (buckets : list bucket) (results : list bucket_record)
    : M St (list bucket_record) :=
  match buckets with
  | [] => ret results
  | bucket :: rest =>
      let bucket_name := Name bucket in
      selected <-
        (if PyStr.contains "mcp" (PyStr.lower bucket_name) then ret true
         else _bucket_has_mcp_data bucket_name) ;;
      if (selected : bool) then
        cleaned <- attempt (clean_bucket bucket_name) ;;
        match cleaned with
        | inl None => cleanup_s3_loop rest results
        | inl (Some record) => cleanup_s3_loop rest (results ++ [record])
        | inr e =>
            if negb (PyStr.contains "NoSuchBucket" (exc_msg e)) then
              cleanup_s3_loop rest
                (results ++ [bucket_error_record bucket_name e])
            else cleanup_s3_loop rest results
        end
      else cleanup_s3_loop rest results
  end.

Definition cleanup_s3_data : M St (list bucket_record) :=
  listed <- attempt (perform respond ListBuckets) ;;
  match listed with
  | inr e => ret [list_buckets_error_record e]
  | inl buckets_response =>
      cleanup_s3_loop (get_default (Buckets buckets_response) []) []
  end.

End Sweep.

End Cleanup.

(** ** Reading call sequences *)

(** A status fetch on a gateway: the gateway polled and what came back,
    the [gatewayStatus] of the response or the exception. *)
Definition gateway_poll (ev : event) : option (string * (option string + exn)) :=
  match ev with
  | Called (GetGateway g) r _ =>
      Some (g, match r with
               | inl resp => inl (gatewayStatus resp)
               | inr e => inr e
               end)
  | _ => None
  end.

Definition is_gateway_poll (ev : event) : bool :=
  match gateway_poll ev with Some _ => true | None => false end.

(** The number of status fetches on gateways in a call sequence. *)
Definition gateway_polls (evs : list event) : nat :=
  List.length (filter is_gateway_poll evs).

(** Every status fetch on a gateway in [evs] saw status [s]. *)
Definition polls_see (s : string) (evs : list event) : bool :=
  forallb (fun ev => match gateway_poll ev with
                     | Some (_, inl (Some s')) => String.eqb s' s
                     | Some _ => false
                     | None => true
                     end) evs.

(** A status fetch on a target. *)
Definition target_poll (ev : event)
    : option (string * string * (option string + exn)) :=
  match ev with
  | Called (GetGatewayTarget g t) r _ =>
      Some (g, t, match r with
                  | inl resp => inl (targetStatus resp)
                  | inr e => inr e
                  end)
  | _ => None
  end.

(** How long an event's call took, in milliseconds. *)
Definition latency (ev : event) : Z :=
  match ev with
  | Called _ _ took => Z.of_N took
  | Slept _ => 0
  end.

(** No status fetch on a gateway in [evs] took longer than [bound]. *)
Definition polls_within (bound : Z) (evs : list event) : bool :=
  forallb (fun ev => negb (is_gateway_poll ev) || (latency ev <=? bound)) evs.

(** An accepted create call: the request sent and the id assigned. *)
Definition created (ev : event) : option (create_gateway_request * string) :=
  match ev with
  | Called (CreateGateway req) (inl resp) _ => Some (req, gatewayId resp)
  | _ => None
  end.

(** A delete call for a gateway, whatever came back. *)
Definition parent_delete (ev : event) : option string :=
  match ev with
  | Called (DeleteGateway g) _ _ => Some g
  | _ => None
  end.

(** A target listing that succeeded, with the targets it returned. *)
Definition listed_targets (ev : event) : option (string * list target_summary) :=
  match ev with
  | Called (ListGatewayTargets g) (inl resp) _ =>
      Some (g, get_default (targetSummaries resp) [])
  | _ => None
  end.

(** A delete call for a target that the control plane accepted. *)
Definition target_delete (ev : event) : option (string * string) :=
  match ev with
  | Called (DeleteGatewayTarget g t) (inl _) _ => Some (g, t)
  | _ => None
  end.

(** A fetch of a target that came back "not found". *)
Definition target_absent (ev : event) : option (string * string) :=
  match ev with
  | Called (GetGatewayTarget g t) (inr e) _ =>
      if PyStr.contains "ResourceNotFound" (exc_msg e) then Some (g, t)
      else None
  | _ => None
  end.

(** In [evs], target [t] of gateway [g] was deleted, and later a fetch
    of it came back "not found". *)
Definition target_gone (g : string) (evs : list event) (t : target_summary)
    : Prop :=
  exists a d1 b d2 c,
    evs = a ++ d1 :: b ++ d2 :: c /\
    target_delete d1 = Some (g, targetId t) /\
    target_absent d2 = Some (g, targetId t).

(** An answered confirmation prompt: the prompt and the line typed. *)
Definition confirmation (ev : event) : option (string * string) :=
  match ev with
  | Called (Input prompt) (inl line) _ => Some (prompt, line)
  | _ => None
  end.

(** The sweep's listing of a bucket (the one without [MaxKeys]): the
    bucket and the keys that came back, or the exception. *)
Definition objects_listing (ev : event) : option (string * (list string + exn)) :=
  match ev with
  | Called (ListObjectsV2 b _ None) r _ =>
      Some (b, match r with
               | inl resp => inl (map Key (get_default (Contents resp) []))
               | inr e => inr e
               end)
  | _ => None
  end.

(** A batch delete call: the bucket and the keys sent. *)
Definition batch_delete (ev : event) : option (string * list string) :=
  match ev with
  | Called (DeleteObjects b keys) _ _ => Some (b, keys)
  | _ => None
  end.

(** ** The common shape of the four waits

    The four [_wait_for_*] methods are two loops written twice.  The
    loops below take the status fetch as a parameter; the facts section
    shows that the methods are instances of them. *)

Module Waiter.

(** What one pass through an activation wait decides. *)
Inductive verdict : Type :=
| Stop (r : result unit)
| Again (secs : Z).

(** What came back from a status fetch, as the wait reads it. *)
Definition fetched {c : call} (status_of : response_of c -> option string)
    (r : reply c) : option string + exn :=
  match r with
  | inl resp => inl (status_of resp)
  | inr e => inr e
  end.

Definition active_verdict (failed : exn) (a : option string + exn) : verdict :=
  match a with
  | inl status =>
      if status_is status "ACTIVE" then Stop (Ok tt)
      else if status_is status "FAILED" then
        if PyStr.contains "ResourceNotFound" (exc_msg failed) then Again 5
        else Stop (Raised failed)
      else Again 10
  | inr e =>
      if PyStr.contains "ResourceNotFound" (exc_msg e) then Again 5
      else Stop (Raised e)
  end.

Definition deleted_verdict (a : option string + exn) : verdict :=
  match a with
  | inl _ => Again 10
  | inr e =>
      if PyStr.contains "ResourceNotFound" (exc_msg e) then Stop (Ok tt)
      else Stop (Raised e)
  end.

(** [fuel] tests of the loop condition suffice from world [w] on. *)
Definition suffices {St} (fuel : nat) (max_wait start_time : Z) (w : world St)
    : Prop :=
  (0 < fuel)%nat /\
  max_wait * ms_per_second - (clock w - start_time)
  <= 5 * ms_per_second * (Z.of_nat fuel - 1).

Section Shape.

Context {St : Type}.
Variable respond : St -> forall c : call, reply c * St * N.
Variable c : call.
Variable status_of : response_of c -> option string.
Variables failed timeout : exn.

Definition active_body : M St flow :=
  try_except
    (response <- perform respond c ;;
     let status := status_of response in
     if status_is status "ACTIVE" then ret Return
     else if status_is status "FAILED" then raise failed
     else
       sleep 10 ;;
       ret Continue)
    (fun e =>
       if PyStr.contains "ResourceNotFound" (exc_msg e) then
         sleep 5 ;;
         ret Continue
       else raise e).

Definition deleted_body : M St flow :=
  try_except
    (perform respond c ;;
     sleep 10 ;;
     ret Continue)
    (fun e =>
       if PyStr.contains "ResourceNotFound" (exc_msg e) then ret Return
       else raise e).

Fixpoint loop (body : M St flow) (fuel : nat) (max_wait start_time : Z)
    : M St unit :=
  match fuel with
  | O => out_of_fuel
  | S fuel' =>
      now <- time_time ;;
      if now - start_time <? max_wait * ms_per_second then
        f <- body ;;
        match f with
        | Return => ret tt
        | Continue => loop body fuel' max_wait start_time
        end
      else raise timeout
  end.

(** One pass, spelled out on what the control plane answers. *)
Definition pass (v : option string + exn -> verdict) (fuel : nat)
    (max_wait start_time : Z) (body : M St flow) (w : world St)
    : result unit * world St * list event :=
  if clock w - start_time <? max_wait * ms_per_second then
    match respond (remote w) c with
    | (r, st', took) =>
        match v (fetched status_of r) with
        | Stop res => (res, after_call w st' took, [Called c r took])
        | Again secs =>
            match loop body fuel max_wait start_time
                    (after_sleep (after_call w st' took) secs) with
            | (res, w', evs) => (res, w', Called c r took :: Slept secs :: evs)
            end
        end
    end
  else (Raised timeout, w, []).

End Shape.

End Waiter.

(** A run, with [evs] performed before it. *)
Definition preceded {St A} (evs : list event)
    (run : result A * world St * list event) : result A * world St * list event :=
  (outcome run, final run, evs ++ events run).

(** The dict [create_gateway] returns for a create response. *)
Definition created_handle (resp : create_gateway_response)
    : GatewayManager.gateway_handle :=
  {| GatewayManager.gateway_id := gatewayId resp;
     GatewayManager.gateway_arn := gatewayArn resp;
     GatewayManager.gateway_url := gatewayUrl resp;
     GatewayManager.status := "created" |}.

(** ** The exceptions the waits raise, by name *)

Definition gateway_failed (gateway_id : string) : exn :=
  Exception ("Gateway " +++ gateway_id +++ " failed to activate").

Definition gateway_timeout (gateway_id : string) (max_wait : Z) : exn :=
  TimeoutError ("Gateway " +++ gateway_id +++ " did not become active within "
                +++ PyStr.of_Z max_wait +++ " seconds").

Definition target_failed (target_id : string) : exn :=
  Exception ("Target " +++ target_id +++ " failed to activate").

Definition target_timeout (target_id : string) (max_wait : Z) : exn :=
  TimeoutError ("Target " +++ target_id +++ " did not become active within "
                +++ PyStr.of_Z max_wait +++ " seconds").

Definition gateway_undeleted (gateway_id : string) (max_wait : Z) : exn :=
  TimeoutError ("Gateway " +++ gateway_id +++ " was not deleted within "
                +++ PyStr.of_Z max_wait +++ " seconds").

Definition target_undeleted (target_id : string) (max_wait : Z) : exn :=
  TimeoutError ("Target " +++ target_id +++ " was not deleted within "
                +++ PyStr.of_Z max_wait +++ " seconds").

(** ** Either activation wait *)

(** What an activation wait waits on. *)
Inductive waited : Type :=
| OnGateway (gateway_id : string)
| OnTarget (gateway_id target_id : string).

Definition fetch_of (x : waited) : call :=
  match x with
  | OnGateway g => GetGateway g
  | OnTarget g t => GetGatewayTarget g t
  end.

Definition status_field (x : waited) : response_of (fetch_of x) -> option string :=
  match x with
  | OnGateway _ => gatewayStatus
  | OnTarget _ _ => targetStatus
  end.

Definition failed_of (x : waited) : exn :=
  match x with
  | OnGateway g => gateway_failed g
  | OnTarget _ t => target_failed t
  end.

Definition timeout_of (x : waited) (max_wait : Z) : exn :=
  match x with
  | OnGateway g => gateway_timeout g max_wait
  | OnTarget _ t => target_timeout t max_wait
  end.

Definition wait_active_loop {St} (respond : St -> forall c : call, reply c * St * N)
    (fuel : nat) (x : waited) (max_wait start_time : Z) : M St unit :=
  match x with
  | OnGateway g =>
      GatewayManager.wait_gateway_active_loop respond fuel g max_wait start_time
  | OnTarget g t =>
      GatewayManager.wait_target_active_loop respond fuel g t max_wait start_time
  end.

Definition _wait_for_active {St} (respond : St -> forall c : call, reply c * St * N)
    (x : waited) (max_wait : Z) : M St unit :=
  match x with
  | OnGateway g => GatewayManager._wait_for_gateway_active respond g max_wait
  | OnTarget g t => GatewayManager._wait_for_target_active respond g t max_wait
  end.

(** What a status fetch brought back, if [ev] is one. *)
Definition fetch_result (ev : event) : option (option string + exn) :=
  match ev with
  | Called (GetGateway g) r _ =>
      Some (Waiter.fetched (c := GetGateway g) gatewayStatus r)
  | Called (GetGatewayTarget g t) r _ =>
      Some (Waiter.fetched (c := GetGatewayTarget g t) targetStatus r)
  | _ => None
  end.

(** The prompt [cleanup_gateways] shows for a gateway. *)
Definition delete_prompt (gateway_name gateway_id : string) : string :=
  ("Delete gateway " +++ gateway_name +++ " (" +++ gateway_id +++ ")?") +++
  " (y/N): ".

(** ** The deletions of a forced sweep, one after the other *)

Section Replay.

Context {St : Type}.
Variable respond : St -> forall c : call, reply c * St * N.




End Replay.




(** What holds of a record of the gateway sweep whose call sequence is
    [evs]: its status is [deleted] or [error], and if it names a gateway,
    the name passes the filter and, unless the sweep is forced, the
    prompt for that gateway was answered with yes. *)
Definition sweep_record (force : bool) (evs : list event)
    (r : Cleanup.gateway_record) : Prop :=
  (Cleanup.rec_status r = "deleted" \/ Cleanup.rec_status r = "error") /\
  forall id, Cleanup.rec_gateway_id r = Some id ->
    exists name,
      Cleanup.rec_gateway_name r = Some name /\
      Cleanup.is_our_gateway name = true /\
      (force = false ->
       exists line took,
         In (Called (Input (delete_prompt name id)) (inl line) took) evs /\
         Cleanup.is_yes line = true).

(** Every batch delete in [evs] sends at least one key, the keys a
    listing of that bucket returned. *)
Definition deletes_listed (evs : list event) : Prop :=
  forall ev b keys,
    In ev evs -> batch_delete ev = Some (b, keys) ->
    keys <> [] /\
    exists listing,
      In listing evs /\ objects_listing listing = Some (b, inl keys).

(** A call of the sweep proper on a bucket that raised: the listing
    without [MaxKeys] or a batch delete.  The bucket and the
    exception. *)
Definition sweep_failure (ev : event) : option (string * exn) :=
  match ev with
  | Called (ListObjectsV2 b _ None) (inr e) _ => Some (b, e)
  | Called (DeleteObjects b _) (inr e) _ => Some (b, e)
  | _ => None
  end.

(** A batch delete that was accepted: the bucket and the keys sent. *)
Definition accepted_delete (ev : event) : option (string * list string) :=
  match ev with
  | Called (DeleteObjects b keys) (inl _) _ => Some (b, keys)
  | _ => None
  end.

(** Where a record of the object-store sweep that names a bucket comes
    from, when the call sequence is [evs].  A [cleaned] record counts
    the objects, at least one, that a listing of the bucket returned
    and an accepted batch delete removed.  An [error] record carries
    the text of the exception that the listing or the batch delete
    raised, which is not a [NoSuchBucket] error. *)
Definition bucket_record_explained (evs : list event)
    (r : Cleanup.bucket_record) : Prop :=
  forall b,
    Cleanup.rec_bucket_name r = Some b ->
    (exists keys listing del,
       In listing evs /\
       objects_listing listing = Some (b, inl keys) /\
       keys <> [] /\
       In del evs /\
       accepted_delete del = Some (b, keys) /\
       r = Cleanup.cleaned_record b (Z.of_nat (List.length keys))) \/
    (exists ev e,
       In ev evs /\
       sweep_failure ev = Some (b, e) /\
       PyStr.contains "NoSuchBucket" (exc_msg e) = false /\
       r = Cleanup.bucket_error_record b e).

(** ** Test doubles of the control plane *)

(** boto3's rendering of a service error. *)
Definition client_error (code operation : string) : exn :=
  {| exc_type := "ClientError";
     exc_msg := "An error occurred (" +++ code +++ ") when calling the " +++
                operation +++ " operation" |}.

Definition unsupported : exn :=
  {| exc_type := "NotImplementedError"; exc_msg := "not part of this double" |}.

Definition at_start {St} (st : St) : world St := {| remote := st; clock := 0 |}.

(** A control plane that creates a gateway at once and answers the
    status fetches from a script; a fetch past the end of the script
    sees [CREATING].  Every status fetch takes [poll_ms]. *)
Module Scripted.

Local Open Scope string_scope.

Definition answer : Type := (option string + exn)%type.

Record plan := { new_id : string; poll_ms : N }.

Definition next (script : list answer) : answer * list answer :=
  match script with
  | [] => (inl (Some "CREATING"), [])
  | a :: rest => (a, rest)
  end.

Definition respond (p : plan) (script : list answer) (c : call)
    : reply c * list answer * N :=
  match c as c0 return reply c0 * list answer * N with
  | GetCallerIdentity => (inl {| Account := "123456789012" |}, script, 0%N)
  | CreateGateway _ =>
      (inl {| gatewayId := new_id p;
              gatewayArn := "arn:aws:bedrock-agentcore:us-west-2:123456789012:gateway/"
                            +++ new_id p;
              gatewayUrl := None |}, script, 0%N)
  | GetGateway _ =>
      (match fst (next script) with
       | inl s => inl {| gatewayStatus := s |}
       | inr e => inr e
       end, snd (next script), poll_ms p)
  | GetGatewayTarget _ _ =>
      (match fst (next script) with
       | inl s => inl {| targetStatus := s |}
       | inr e => inr e
       end, snd (next script), poll_ms p)
  | _ => (inr unsupported, script, 0%N)
  end.

Definition demo_config : GatewayManager.GatewayConfig :=
  {| GatewayManager.gateway_name := "mcp-demo-gateway";
     GatewayManager.description := "demo";
     GatewayManager.cognito_user_pool_id := "us-west-2_AbCdEf123";
     GatewayManager.cognito_client_id := "4example23kclient";
     GatewayManager.cognito_domain := "demo.auth.us-west-2.amazoncognito.com";
     GatewayManager.lambda_function_arn :=
       "arn:aws:lambda:us-west-2:123456789012:function:demo";
     GatewayManager.region := "us-west-2" |}.

Definition not_found : exn := client_error "ResourceNotFoundException" "GetGateway".

(** Fetches that take 200 ms. *)
Definition steady : plan := {| new_id := "gw-1"; poll_ms := 200 |}.

(** Fetches that take two seconds. *)
Definition slow : plan := {| new_id := "gw-1"; poll_ms := 2000 |}.

(** A control plane that hands out an id with [ResourceNotFound] in it. *)
Definition unlucky : plan :=
  {| new_id := "ResourceNotFound-gw"; poll_ms := 150 |}.

(** The create call [create_gateway] makes for [demo_config], as this
    double answers it. *)
Definition create_event (p : plan) : event :=
  Called (CreateGateway
            (GatewayManager.create_gateway_kwargs demo_config "123456789012"))
    (inl {| gatewayId := new_id p;
            gatewayArn := "arn:aws:bedrock-agentcore:us-west-2:123456789012:gateway/"
                          +++ new_id p;
            gatewayUrl := None |}) 0.

End Scripted.

(** A control plane that keeps gateways with their targets and deletes
    at once.  A locked gateway refuses to be deleted.  Lines typed at
    the prompt come from [stdin]. *)
Module Plane.

Local Open Scope string_scope.

Record gateway := {
  g_id : string;
  g_name : string;
  g_targets : list string;
  g_locked : bool
}.

Record state := { gateways : list gateway; stdin : list string }.

Fixpoint find (id : string) (gs : list gateway) : option gateway :=
  match gs with
  | [] => None
  | g :: rest => if String.eqb (g_id g) id then Some g else find id rest
  end.

Definition without_gateway (id : string) (gs : list gateway) : list gateway :=
  filter (fun g => negb (String.eqb (g_id g) id)) gs.

Definition without_target (id target : string) (gs : list gateway)
    : list gateway :=
  map (fun g =>
         if String.eqb (g_id g) id then
           {| g_id := g_id g; g_name := g_name g;
              g_targets := filter (fun t => negb (String.eqb t target))
                             (g_targets g);
              g_locked := g_locked g |}
         else g) gs.

Definition has_target (target : string) (g : gateway) : bool :=
  existsb (String.eqb target) (g_targets g).

Definition set_gateways (st : state) (gs : list gateway) : state :=
  {| gateways := gs; stdin := stdin st |}.

(** What a listing of the gateways returns. *)
Definition listing (st : state) : list_gateways_response :=
  {| gatewaySummaries :=
       Some (map (fun g => {| summary_gatewayId := g_id g;
                              summary_gatewayName := Some (g_name g) |})
                 (gateways st)) |}.

Definition respond (st : state) (c : call) : reply c * state * N :=
  match c as c0 return reply c0 * state * N with
  | ListGateways => (inl (listing st), st, 0%N)
  | GetGateway id =>
      (match find id (gateways st) with
       | Some _ => inl {| gatewayStatus := Some "ACTIVE" |}
       | None => inr (client_error "ResourceNotFoundException" "GetGateway")
       end, st, 0%N)
  | ListGatewayTargets id =>
      (match find id (gateways st) with
       | Some g => inl {| targetSummaries :=
                            Some (map (fun t => {| targetId := t |})
                                      (g_targets g)) |}
       | None => inr (client_error "ResourceNotFoundException" "ListGatewayTargets")
       end, st, 0%N)
  | GetGatewayTarget id target =>
      (match find id (gateways st) with
       | Some g =>
           if has_target target g then
             inl {| targetStatus := Some "ACTIVE" |}
           else inr (client_error "ResourceNotFoundException" "GetGatewayTarget")
       | None => inr (client_error "ResourceNotFoundException" "GetGatewayTarget")
       end, st, 0%N)
  | DeleteGatewayTarget id target =>
      match find id (gateways st) with
      | Some g =>
          if has_target target g then
            (inl tt, set_gateways st (without_target id target (gateways st)), 0%N)
          else
            (inr (client_error "ResourceNotFoundException" "DeleteGatewayTarget"),
             st, 0%N)
      | None =>
          (inr (client_error "ResourceNotFoundException" "DeleteGatewayTarget"),
           st, 0%N)
      end
  | DeleteGateway id =>
      match find id (gateways st) with
      | Some g =>
          if g_locked g then
            (inr (client_error "AccessDeniedException" "DeleteGateway"), st, 0%N)
          else
            match g_targets g with
            | [] => (inl tt, set_gateways st (without_gateway id (gateways st)), 0%N)
            | _ :: _ =>
                (inr (client_error "ConflictException" "DeleteGateway"), st, 0%N)
            end
      | None =>
          (inr (client_error "ResourceNotFoundException" "DeleteGateway"), st, 0%N)
      end
  | Input _ =>
      match stdin st with
      | line :: rest =>
          (inl line, {| gateways := gateways st; stdin := rest |}, 0%N)
      | [] =>
          (inr {| exc_type := "EOFError";
                  exc_msg := "EOF when reading a line" |}, st, 0%N)
      end
  | _ => (inr unsupported, st, 0%N)
  end.

(** Two gateways of ours, one of them locked, and two that are not ours. *)
Definition fleet : state :=
  {| gateways :=
       [ {| g_id := "gw-1"; g_name := "mcp-demo-gateway";
            g_targets := ["t-1"; "t-2"]; g_locked := false |};
         {| g_id := "gw-2"; g_name := "unrelated-service";
            g_targets := []; g_locked := false |};
         {| g_id := "gw-3"; g_name := "Bedrock-Tools";
            g_targets := ["t-3"]; g_locked := true |};
         {| g_id := "gw-4"; g_name := "frozen-archive";
            g_targets := []; g_locked := true |} ];
     stdin := ["n"; " Yes "] |}.

End Plane.

(** An object store: buckets with the keys they hold. *)
Module Store.

Local Open Scope string_scope.

Definition state : Type := list (string * list string).

Fixpoint find (name : string) (st : state) : option (list string) :=
  match st with
  | [] => None
  | (n, keys) :: rest => if String.eqb n name then Some keys else find name rest
  end.

Definition truncate (max_keys : option Z) (keys : list string) : list string :=
  match max_keys with
  | Some n => firstn (Z.to_nat n) keys
  | None => keys
  end.

Definition remove_keys (name : string) (gone : list string) (st : state)
    : state :=
  map (fun b =>
         if String.eqb (fst b) name then
           (fst b, filter (fun k => negb (existsb (String.eqb k) gone)) (snd b))
         else b) st.

Definition respond (st : state) (c : call) : reply c * state * N :=
  match c as c0 return reply c0 * state * N with
  | ListBuckets =>
      (inl {| Buckets := Some (map (fun b => {| Name := fst b |}) st) |}, st, 0%N)
  | ListObjectsV2 name prefix max_keys =>
      (match find name st with
       | Some keys =>
           let found := truncate max_keys (filter (String.prefix prefix) keys) in
           inl {| Contents := match found with
                              | [] => None
                              | _ :: _ => Some (map (fun k => {| Key := k |}) found)
                              end;
                  KeyCount := Some (Z.of_nat (List.length found)) |}
       | None => inr (client_error "NoSuchBucket" "ListObjectsV2")
       end, st, 0%N)
  | DeleteObjects name keys =>
      match find name st with
      | Some _ => (inl tt, remove_keys name keys st, 0%N)
      | None => (inr (client_error "NoSuchBucket" "DeleteObjects"), st, 0%N)
      end
  | _ => (inr unsupported, st, 0%N)
  end.

Definition shelves : state :=
  [ ("mcp-empty", ["logs/a.txt"]);
    ("team-archive", ["mcp-data/1.json"; "mcp-data/2.json"; "mcp-data/3.json";
                      "other/x"; "other/y"]);
    ("photos", ["cat.png"]) ].

End Store.

(** An object store some of whose buckets refuse every listing and
    every delete. *)
Module Sealed.

Local Open Scope string_scope.

Record state := { shelves : Store.state; sealed : list string }.

Definition is_sealed (st : state) (name : string) : bool :=
  existsb (String.eqb name) (sealed st).

Definition denied (operation : string) : exn :=
  client_error "AccessDenied" operation.

Definition respond (st : state) (c : call) : reply c * state * N :=
  match c as c0 return reply c0 * state * N with
  | ListObjectsV2 name prefix max_keys =>
      if is_sealed st name then (inr (denied "ListObjectsV2"), st, 0%N)
      else
        match Store.respond (shelves st) (ListObjectsV2 name prefix max_keys) with
        | (r, shelves', took) =>
            (r, {| shelves := shelves'; sealed := sealed st |}, took)
        end
  | DeleteObjects name keys =>
      if is_sealed st name then (inr (denied "DeleteObjects"), st, 0%N)
      else
        match Store.respond (shelves st) (DeleteObjects name keys) with
        | (r, shelves', took) =>
            (r, {| shelves := shelves'; sealed := sealed st |}, took)
        end
  | c' =>
      match Store.respond (shelves st) c' with
      | (r, shelves', took) =>
          (r, {| shelves := shelves'; sealed := sealed st |}, took)
      end
  end.


End Sealed.

(** ** The other services

    [add_lambda_target], [delete_cloudformation_stack] and [cleanup_all]
    also call Lambda, the target creation of the gateway service and
    CloudFormation.  These calls, their answers and the call sequences
    that hold them sit beside the ones above: a second transition
    function [respond_more] answers them, on the same state and the
    same clock. *)

Record lambda_configuration := { functionArn : string }.

Record mcp_configuration := { lambdaConfiguration : lambda_configuration }.

Record protocol_configuration := { mcp : mcp_configuration }.

Record create_target_request := {
  tgt_gatewayId : string;
  tgt_name : string;
  tgt_protocolType : string;
  tgt_protocolConfiguration : protocol_configuration
}.

Record create_target_response := {
  new_targetId : string;
  targetArn : string
}.

Record stack := { StackName : string; StackStatus : string }.

Record describe_stacks_response := { Stacks : list stack }.

Inductive wcall : Type :=
| GetFunction (function_name : string)
| CreateGatewayTarget (req : create_target_request)
| DescribeStacks (stack_name : string)
| DeleteStack (stack_name : string)
| WaitStackDeleteComplete (stack_name : string) (delay max_attempts : Z).

Definition wresponse_of (c : wcall) : Type :=
  match c with
  | GetFunction _ => unit
  | CreateGatewayTarget _ => create_target_response
  | DescribeStacks _ => describe_stacks_response
  | DeleteStack _ => unit
  | WaitStackDeleteComplete _ _ _ => unit
  end.

Definition wreply (c : wcall) : Type := (wresponse_of c + exn)%type.

(** An event of either kind. *)
Inductive wevent : Type :=
| Narrow (ev : event)
| WCalled (c : wcall) (r : wreply c) (took : N).

Definition W (St A : Type) : Type :=
  world St -> result A * world St * list wevent.

Definition woutcome {St A} (x : result A * world St * list wevent) : result A :=
  fst (fst x).
Definition wfinal {St A} (x : result A * world St * list wevent) : world St :=
  snd (fst x).
Definition wevents {St A} (x : result A * world St * list wevent) : list wevent :=
  snd x.

Definition wret {St A} (a : A) : W St A := fun w => (Ok a, w, []).

Definition wbind {St A B} (m : W St A) (f : A -> W St B) : W St B :=
  fun w =>
    match m w with
    | (Ok a, w1, t1) =>
        match f a w1 with
        | (r, w2, t2) => (r, w2, t1 ++ t2)
        end
    | (Raised e, w1, t1) => (Raised e, w1, t1)
    | (OutOfFuel, w1, t1) => (OutOfFuel, w1, t1)
    end.

Definition wraise {St A} (e : exn) : W St A := fun w => (Raised e, w, []).

Definition wtry_except {St A} (m : W St A) (h : exn -> W St A) : W St A :=
  fun w =>
    match m w with
    | (Raised e, w1, t1) =>
        match h e w1 with
        | (r, w2, t2) => (r, w2, t1 ++ t2)
        end
    | other => other
    end.

(** [try: m except Exception as e: ...] around code that prompts: run
    [m] and hand back how it ended instead of raising, unless [m]
    raised what is no instance of [Exception]; that is raised on. *)
Definition wattempt {St A} (m : W St A) : W St (A + exn) :=
  wtry_except (wbind m (fun a => wret (inl a)))
    (fun e => if is_exception e then wret (inr e) else wraise e).

(** A computation that makes calls of the first kind only. *)
Definition lift {St A} (m : M St A) : W St A :=
  fun w =>
    match m w with
    | (r, w1, evs) => (r, w1, map Narrow evs)
    end.

Definition wperform {St}
    (respond_more : St -> forall c : wcall, wreply c * St * N) (c : wcall)
    : W St (wresponse_of c) :=
  fun w =>
    match respond_more (remote w) c with
    | (r, st', took) =>
        (match r with inl a => Ok a | inr e => Raised e end,
         after_call w st' took,
         [WCalled c r took])
    end.

Declare Scope wide_scope.
Delimit Scope wide_scope with wide.
Notation "x <- m ;; k" := (wbind m (fun x => k))
  (at level 61, m at next level, right associativity) : wide_scope.
Notation "m ;; k" := (wbind m (fun _ => k))
  (at level 61, right associativity) : wide_scope.

(** ** gateway_manager.py, the rest *)

Module Targets.

Local Open Scope wide_scope.

(** The dict [add_lambda_target] returns. *)
Record target_handle := {
  target_id : string;
  target_arn : string;
  target_status : string
}.

(** The keyword arguments [add_lambda_target] passes to
    [create_gateway_target]. *)
Definition create_target_kwargs (gateway_id : string)
    (config : GatewayManager.GatewayConfig) : create_target_request :=
  {| tgt_gatewayId := gateway_id;
     tgt_name := GatewayManager.gateway_name config +++ "-lambda-target";
     tgt_protocolType := "MCP";
     tgt_protocolConfiguration := {|
       mcp := {|
         lambdaConfiguration := {|
           functionArn := GatewayManager.lambda_function_arn config
         |}
       |}
     |} |}.

Section Manager.

Context {St : Type}.
Variable respond : St -> forall c : call, reply c * St * N.
Variable respond_more : St -> forall c : wcall, wreply c * St * N.

Definition add_lambda_target (gateway_id : string)
    (config : GatewayManager.GatewayConfig) : W St target_handle :=
  wtry_except
    (lambda_response <-
       wperform respond_more
         (GetFunction (GatewayManager.lambda_function_arn config)) ;;
     target_response <-
       wperform respond_more
         (CreateGatewayTarget (create_target_kwargs gateway_id config)) ;;
     let target_id := new_targetId target_response in
     lift (GatewayManager._wait_for_target_active respond gateway_id
             target_id 300) ;;
     wret {| target_id := target_id;
             target_arn := targetArn target_response;
             target_status := "created" |})
    (fun e => wraise e).

Definition get_gateway_info (gateway_id : string)
    : M St get_gateway_response :=
  try_except
    (bind (perform respond (GetGateway gateway_id)) (fun response =>
     ret response))
    (fun e => raise e).

End Manager.

End Targets.

(** ** cleanup.py, the rest *)

Module Teardown.

Local Open Scope wide_scope.

(** The dict [delete_cloudformation_stack] returns; a key the dict does
    not have is [None]. *)
Record stack_result := {
  result_stack_name : string;
  result_status : string;
  result_message : option string;
  result_error : option string
}.

(** The dict [cleanup_all] returns.  Nothing is ever put in
    [lambda_functions] and [cognito_resources]. *)
Record cleanup_results := {
  gateways : list Cleanup.gateway_record;
  lambda_functions : list string;
  cognito_resources : list string;
  s3_buckets : list Cleanup.bucket_record;
  cloudformation_stack : option stack_result;
  errors : list string
}.

Definition initial_results : cleanup_results :=
  {| gateways := []; lambda_functions := []; cognito_resources := [];
     s3_buckets := []; cloudformation_stack := None; errors := [] |}.

(** [cleanup_results["gateways"] = gateway_results] *)
Definition set_gateways (r : cleanup_results)
    (gateway_results : list Cleanup.gateway_record) : cleanup_results :=
  {| gateways := gateway_results;
     lambda_functions := lambda_functions r;
     cognito_resources := cognito_resources r;
     s3_buckets := s3_buckets r;
     cloudformation_stack := cloudformation_stack r;
     errors := errors r |}.

(** [cleanup_results["s3_buckets"] = s3_results] *)
Definition set_s3_buckets (r : cleanup_results)
    (s3_results : list Cleanup.bucket_record) : cleanup_results :=
  {| gateways := gateways r;
     lambda_functions := lambda_functions r;
     cognito_resources := cognito_resources r;
     s3_buckets := s3_results;
     cloudformation_stack := cloudformation_stack r;
     errors := errors r |}.

(** [cleanup_results["cloudformation_stack"] = stack_result] *)
Definition set_cloudformation_stack (r : cleanup_results)
    (result : stack_result) : cleanup_results :=
  {| gateways := gateways r;
     lambda_functions := lambda_functions r;
     cognito_resources := cognito_resources r;
     s3_buckets := s3_buckets r;
     cloudformation_stack := Some result;
     errors := errors r |}.

(** The handler of [cleanup_all]:
    [cleanup_results["errors"].append(f"Cleanup failed: {str(e)}")]. *)
Definition cleanup_failed (r : cleanup_results) (e : exn) : cleanup_results :=
  {| gateways := gateways r;
     lambda_functions := lambda_functions r;
     cognito_resources := cognito_resources r;
     s3_buckets := s3_buckets r;
     cloudformation_stack := cloudformation_stack r;
     errors := errors r ++ ["Cleanup failed: " +++ exc_msg e] |}.

Definition stack_prompt : string := "Delete CloudFormation stack?" +++ " (y/N): ".

Section Sweep.

Context {St : Type}.
Variable respond : St -> forall c : call, reply c * St * N.
Variable respond_more : St -> forall c : wcall, wreply c * St * N.

(** [self.stack_name] *)
Variable stack_name : string.

Definition stack_not_found : stack_result :=
  {| result_stack_name := stack_name;
     result_status := "not_found";
     result_message := Some "Stack does not exist";
     result_error := None |}.

Definition stack_deleted : stack_result :=
  {| result_stack_name := stack_name;
     result_status := "deleted";
     result_message := Some "Stack deleted successfully";
     result_error := None |}.

Definition stack_error (e : exn) : stack_result :=
  {| result_stack_name := stack_name;
     result_status := "error";
     result_message := None;
     result_error := Some ("Failed to delete stack " +++ stack_name +++ ": " +++
                           exc_msg e) |}.

(** The inner [try] hands back [Some result] when its handler returns
    from the function, [None] when the stack was described. *)
Definition delete_cloudformation_stack : W St stack_result :=
  wtry_except
    (returned <-
       wtry_except
         (wperform respond_more (DescribeStacks stack_name) ;;
          wret None)
         (fun e =>
            if PyStr.contains "does not exist" (exc_msg e) then
              wret (Some stack_not_found)
            else wraise e) ;;
     match returned with
     | Some result => wret result
     | None =>
         wperform respond_more (DeleteStack stack_name) ;;
         wperform respond_more (WaitStackDeleteComplete stack_name 30 60) ;;
         wret stack_deleted
     end)
    (fun e => wret (stack_error e)).

(** [cleanup_results] is a dict that the handler still sees as the
    [try] left it; each step hands it on.  What the handler does not
    catch, a [KeyboardInterrupt] from a prompt, leaves [cleanup_all]. *)
Definition cleanup_all (force : bool) : W St cleanup_results :=
  let cleanup_results := initial_results in
  swept <- wattempt (lift (Cleanup.cleanup_gateways respond force)) ;;
  match swept with
  | inr e => wret (cleanup_failed cleanup_results e)
  | inl gateway_results =>
      let cleanup_results := set_gateways cleanup_results gateway_results in
      cleaned <- wattempt (lift (Cleanup.cleanup_s3_data respond)) ;;
      match cleaned with
      | inr e => wret (cleanup_failed cleanup_results e)
      | inl s3_results =>
          let cleanup_results := set_s3_buckets cleanup_results s3_results in
          confirmed <-
            wattempt (if force then wret true
                      else lift (Cleanup._confirm_action respond
                                   "Delete CloudFormation stack?")) ;;
          match confirmed with
          | inr e => wret (cleanup_failed cleanup_results e)
          | inl false => wret cleanup_results
          | inl true =>
              deleted <- wattempt delete_cloudformation_stack ;;
              match deleted with
              | inr e => wret (cleanup_failed cleanup_results e)
              | inl stack_result =>
                  wret (set_cloudformation_stack cleanup_results stack_result)
              end
          end
      end
  end.

End Sweep.

End Teardown.

(** ** Reading call sequences, continued *)

(** A create call for a gateway, whatever came back: the request. *)
Definition create_call (ev : event) : option create_gateway_request :=
  match ev with
  | Called (CreateGateway req) _ _ => Some req
  | _ => None
  end.

(** A call that changes a gateway, whatever came back: a delete call
    for the gateway or for one of its targets.  The gateway's id. *)
Definition touched (ev : event) : option string :=
  match ev with
  | Called (DeleteGateway g) _ _ => Some g
  | Called (DeleteGatewayTarget g _) _ _ => Some g
  | _ => None
  end.

(** A target listing or a delete call that raised: the exception. *)
Definition refused (ev : event) : option exn :=
  match ev with
  | Called (ListGatewayTargets _) (inr e) _ => Some e
  | Called (DeleteGatewayTarget _ _) (inr e) _ => Some e
  | Called (DeleteGateway _) (inr e) _ => Some e
  | _ => None
  end.

(** A prompt, whatever was typed. *)
Definition prompted (ev : event) : option string :=
  match ev with
  | Called (Input prompt) _ _ => Some prompt
  | _ => None
  end.

(** A probe of a bucket (a listing with [MaxKeys]) that reported at
    least one key: the bucket. *)
Definition probe_hit (ev : event) : option string :=
  match ev with
  | Called (ListObjectsV2 b _ (Some _)) (inl resp) _ =>
      if 0 <? get_default (KeyCount resp) 0 then Some b else None
  | _ => None
  end.

(** What selects bucket [b] in the call sequence [evs]: its name, or a
    probe that reported a key. *)
Definition selected_in (evs : list event) (b : string) : Prop :=
  PyStr.contains "mcp" (PyStr.lower b) = true \/
  exists probe, In probe evs /\ probe_hit probe = Some b.

(** Every sweep listing in [evs] is of a selected bucket. *)
Definition listings_selected (evs : list event) : Prop :=
  forall ev b a,
    In ev evs -> objects_listing ev = Some (b, a) -> selected_in evs b.

(** An error record of a bucket does not report a [NoSuchBucket]
    error. *)
Definition not_vanished (r : Cleanup.bucket_record) : Prop :=
  forall b msg,
    Cleanup.rec_bucket_name r = Some b ->
    Cleanup.rec_bucket_error r = Some msg ->
    PyStr.contains "NoSuchBucket" msg = false.

(** Calls of the object store. *)
Definition store_call (ev : event) : bool :=
  match ev with
  | Called ListBuckets _ _ => true
  | Called (ListObjectsV2 _ _ _) _ _ => true
  | Called (DeleteObjects _ _) _ _ => true
  | _ => false
  end.

(** Calls [create_gateway] makes: the account lookup, the create call,
    status fetches of gateway [g]; and sleeps. *)
Definition creation_step (ev : event) : bool :=
  match ev with
  | Called GetCallerIdentity _ _ => true
  | Called (CreateGateway _) _ _ => true
  | Called (GetGateway _) _ _ => true
  | Slept _ => true
  | _ => false
  end.

(** A call to CloudFormation, whatever came back: the stack named. *)
Definition stack_call (ev : wevent) : option string :=
  match ev with
  | WCalled (DescribeStacks n) _ _ => Some n
  | WCalled (DeleteStack n) _ _ => Some n
  | WCalled (WaitStackDeleteComplete n _ _) _ _ => Some n
  | _ => None
  end.

(** A delete call for a stack, whatever came back. *)
Definition stack_delete (ev : wevent) : option string :=
  match ev with
  | WCalled (DeleteStack n) _ _ => Some n
  | _ => None
  end.

(** A target creation call, whatever came back: the request. *)
Definition target_creation (ev : wevent) : option create_target_request :=
  match ev with
  | WCalled (CreateGatewayTarget req) _ _ => Some req
  | _ => None
  end.

(** A prompt among events of either kind. *)
Definition wprompted (ev : wevent) : option string :=
  match ev with
  | Narrow ev' => prompted ev'
  | WCalled _ _ _ => None
  end.

(** An event of the first kind. *)
Definition is_narrow (ev : wevent) : bool :=
  match ev with
  | Narrow _ => true
  | WCalled _ _ _ => false
  end.

(** ** Either deletion wait *)

Definition undeleted_of (x : waited) (max_wait : Z) : exn :=
  match x with
  | OnGateway g => gateway_undeleted g max_wait
  | OnTarget _ t => target_undeleted t max_wait
  end.

Definition _wait_for_deleted {St}
    (respond : St -> forall c : call, reply c * St * N)
    (x : waited) (max_wait : Z) : M St unit :=
  match x with
  | OnGateway g => GatewayManager._wait_for_gateway_deleted respond g max_wait
  | OnTarget g t => GatewayManager._wait_for_target_deleted respond g t max_wait
  end.

(** The number of status fetches, on gateways or targets, in a call
    sequence. *)
Definition status_fetches (evs : list event) : nat :=
  List.length
    (filter (fun ev => match fetch_result ev with
                       | Some _ => true
                       | None => false
                       end) evs).

(** ** Which gateways the sweep may delete *)

(** What holds of a gateway [g] on which the sweep of [gateways] makes
    a delete call after the calls [pre]: it is one of [gateways], its
    name passes the filter and, unless the sweep is forced, the prompt
    for it was answered with yes in [pre]. *)
Definition approved (force : bool) (gateways : list gateway_summary)
    (pre : list event) (g : string) : Prop :=
  exists s,
    In s gateways /\ summary_gatewayId s = g /\
    Cleanup.is_our_gateway (get_default (summary_gatewayName s) "Unknown") = true /\
    (force = false ->
     exists line took,
       In (Called (Input (delete_prompt
                            (get_default (summary_gatewayName s) "Unknown") g))
                  (inl line) took) pre /\
       Cleanup.is_yes line = true).


(** ** Which buckets the sweep may clean *)

(** A call of the sweep proper on a bucket, whatever came back: the
    listing without [MaxKeys] or a batch delete.  The bucket. *)
Definition swept (ev : event) : option string :=
  match ev with
  | Called (ListObjectsV2 b _ None) _ _ => Some b
  | Called (DeleteObjects b _) _ _ => Some b
  | _ => None
  end.

(** The prefix of a listing of objects. *)
Definition listed_prefix (ev : event) : option string :=
  match ev with
  | Called (ListObjectsV2 _ prefix _) _ _ => Some prefix
  | _ => None
  end.

(** The record, if any, that the handler of the inner [try] of
    [cleanup_s3_data] appends. *)
Definition bucket_failure (bucket_name : string) (e : exn)
    : list Cleanup.bucket_record :=
  if negb (PyStr.contains "NoSuchBucket" (exc_msg e))
  then [Cleanup.bucket_error_record bucket_name e]
  else [].

(** ** Calls of [add_lambda_target] *)

(** The function lookup, the target creation, status fetches of a
    target; and sleeps. *)
Definition target_step (ev : wevent) : bool :=
  match ev with
  | WCalled (GetFunction _) _ _ => true
  | WCalled (CreateGatewayTarget _) _ _ => true
  | Narrow (Called (GetGatewayTarget _ _) _ _) => true
  | Narrow (Slept _) => true
  | _ => false
  end.

(** The dict [add_lambda_target] returns for a create response. *)
Definition target_created (resp : create_target_response)
    : Targets.target_handle :=
  {| Targets.target_id := new_targetId resp;
     Targets.target_arn := targetArn resp;
     Targets.target_status := "created" |}.

(** ** Calls of [cleanup_all] after the two sweeps *)

(** The prompt for the stack, or a call to CloudFormation. *)
Definition stack_step (ev : wevent) : bool :=
  match ev with
  | Narrow (Called (Input prompt) _ _) => String.eqb prompt Teardown.stack_prompt
  | Narrow _ => false
  | WCalled (DescribeStacks _) _ _ => true
  | WCalled (DeleteStack _) _ _ => true
  | WCalled (WaitStackDeleteComplete _ _ _) _ _ => true
  | WCalled _ _ _ => false
  end.

(** ** Checks on call sequences *)

(** No call in [evs] took longer than [bound] milliseconds. *)
Definition within (bound : Z) (evs : list event) : bool :=
  forallb (fun ev => latency ev <=? bound) evs.

(** Every status fetch in [evs] came back with a response. *)
Definition all_answered (evs : list event) : bool :=
  forallb (fun ev => match fetch_result ev with
                     | Some (inr _) => false
                     | _ => true
                     end) evs.

(** ** An account with all the services

    The gateways of [Plane], the buckets of [Store], the names of the
    CloudFormation stacks and the ARNs of the Lambda functions.  A new
    target is active at once; a stack is deleted at once. *)
Module Account.

Local Open Scope string_scope.

Record state := {
  plane : Plane.state;
  store : Store.state;
  stacks : list string;
  functions : list string
}.

Definition is_store_call (c : call) : bool :=
  match c with
  | ListBuckets => true
  | ListObjectsV2 _ _ _ => true
  | DeleteObjects _ _ => true
  | _ => false
  end.

Definition respond (st : state) (c : call) : reply c * state * N :=
  if is_store_call c then
    match Store.respond (store st) c with
    | (r, store', took) =>
        (r, {| plane := plane st; store := store'; stacks := stacks st;
               functions := functions st |}, took)
    end
  else
    match Plane.respond (plane st) c with
    | (r, plane', took) =>
        (r, {| plane := plane'; store := store st; stacks := stacks st;
               functions := functions st |}, took)
    end.

Definition has (name : string) (names : list string) : bool :=
  existsb (String.eqb name) names.

Definition with_target (id target : string) (gs : list Plane.gateway)
    : list Plane.gateway :=
  map (fun g =>
         if String.eqb (Plane.g_id g) id then
           {| Plane.g_id := Plane.g_id g; Plane.g_name := Plane.g_name g;
              Plane.g_targets := Plane.g_targets g ++ [target];
              Plane.g_locked := Plane.g_locked g |}
         else g) gs.

Definition no_such_stack (name : string) : exn :=
  {| exc_type := "ClientError";
     exc_msg := "An error occurred (ValidationError) when calling the " +++
                "DescribeStacks operation: Stack with id " +++ name +++
                " does not exist" |}.

Definition waiter_error : exn :=
  {| exc_type := "WaiterError";
     exc_msg := "Waiter StackDeleteComplete failed: Max attempts exceeded" |}.

Definition respond_more (st : state) (c : wcall) : wreply c * state * N :=
  match c as c0 return wreply c0 * state * N with
  | GetFunction arn =>
      (if has arn (functions st) then inl tt
       else inr (client_error "ResourceNotFoundException" "GetFunction"),
       st, 0%N)
  | CreateGatewayTarget req =>
      match Plane.find (tgt_gatewayId req) (Plane.gateways (plane st)) with
      | Some _ =>
          (inl {| new_targetId := "t-new";
                  targetArn := "arn:aws:bedrock-agentcore:us-west-2:123456789012:gateway/"
                               +++ tgt_gatewayId req +++ "/target/t-new" |},
           {| plane := Plane.set_gateways (plane st)
                         (with_target (tgt_gatewayId req) "t-new"
                            (Plane.gateways (plane st)));
              store := store st; stacks := stacks st;
              functions := functions st |}, 0%N)
      | None =>
          (inr (client_error "ResourceNotFoundException" "CreateGatewayTarget"),
           st, 0%N)
      end
  | DescribeStacks name =>
      (if has name (stacks st) then
         inl {| Stacks := [{| StackName := name;
                              StackStatus := "CREATE_COMPLETE" |}] |}
       else inr (no_such_stack name), st, 0%N)
  | DeleteStack name =>
      (inl tt,
       {| plane := plane st; store := store st;
          stacks := filter (fun n => negb (String.eqb n name)) (stacks st);
          functions := functions st |}, 0%N)
  | WaitStackDeleteComplete name _ _ =>
      (if has name (stacks st) then inr waiter_error else inl tt, st, 0%N)
  end.

(** The fleet and the shelves, one stack and the function of the demo
    config. *)
Definition demo : state :=
  {| plane := Plane.fleet;
     store := Store.shelves;
     stacks := ["mcp-demo-stack"];
     functions := ["arn:aws:lambda:us-west-2:123456789012:function:demo"] |}.

(** The same account with an operator who declines both gateways and
    agrees to the stack. *)
Definition attended : state :=
  {| plane := {| Plane.gateways := Plane.gateways Plane.fleet;
                 Plane.stdin := ["n"; "no"; "y"] |};
     store := Store.shelves;
     stacks := ["mcp-demo-stack"];
     functions := ["arn:aws:lambda:us-west-2:123456789012:function:demo"] |}.

End Account.

(** ** Time spent *)

(** The time an event takes, in milliseconds. *)
Definition duration (ev : event) : Z :=
  match ev with
  | Called _ _ took => Z.of_N took
  | Slept secs => secs * ms_per_second
  end.

(** The time a call sequence takes. *)
Definition spent (evs : list event) : Z :=
  fold_right (fun ev t => duration ev + t) 0 evs.

(** ** An operator who presses Ctrl-C

    The control plane of [Plane] with an operator who, once the lines
    of [stdin] are used up, presses Ctrl-C at the prompt.  The other
    services are out of reach. *)
Module Impatient.

Local Open Scope string_scope.

Definition keyboard_interrupt : exn :=
  {| exc_type := "KeyboardInterrupt"; exc_msg := "" |}.

Definition respond (st : Plane.state) (c : call) : reply c * Plane.state * N :=
  match c as c0 return reply c0 * Plane.state * N with
  | Input prompt =>
      match Plane.stdin st with
      | [] => (inr keyboard_interrupt, st, 0%N)
      | _ :: _ => Plane.respond st (Input prompt)
      end
  | c' => Plane.respond st c'
  end.

Definition respond_more (st : Plane.state) (c : wcall)
    : wreply c * Plane.state * N :=
  (inr unsupported, st, 0%N).

(** The fleet with an operator who agrees to the first gateway asked
    about, and then presses Ctrl-C. *)
Definition hurried : Plane.state :=
  {| Plane.gateways := Plane.gateways Plane.fleet; Plane.stdin := [" Yes "] |}.

(** The fleet with an operator who declines both gateways, and then
    presses Ctrl-C. *)
Definition wary : Plane.state :=
  {| Plane.gateways := Plane.gateways Plane.fleet; Plane.stdin := ["n"; "n"] |}.

End Impatient.
(** * Facts *)

#[local] Arguments Z.mul : simpl never.
#[local] Arguments Z.add : simpl never.
#[local] Arguments Z.sub : simpl never.
#[local] Arguments Z.of_nat : simpl never.
#[local] Arguments Z.of_N : simpl never.
#[local] Arguments Z.ltb : simpl never.
#[local] Arguments wait_fuel : simpl never.
#[local] Arguments PyStr.of_Z : simpl never.
#[local] Arguments String.append : simpl never.
#[local] Arguments PyStr.contains : simpl never.

Lemma status_is_true (status : option string) (lit : string) :
  status_is status lit = true <-> status = Some lit.
Proof.
  destruct status as [s|]; simpl.
  - rewrite String.eqb_eq. split; congruence.
  - split; discriminate.
Qed.

(** Arithmetic on the clock and the wait budget. *)
Ltac budget :=
  unfold Waiter.suffices in *; simpl; unfold ms_per_second in *;
  repeat split; lia.

Module WaiterFacts.
Import Waiter.

Section Shape.

Context {St : Type}.
Variable respond : St -> forall c : call, reply c * St * N.
Variable c : call.
Variable status_of : response_of c -> option string.
Variables failed timeout : exn.

Abbreviation active_body := (active_body respond c status_of failed).
Abbreviation deleted_body := (deleted_body respond c).
Abbreviation loop := (loop (St := St) timeout).
Abbreviation pass := (pass respond c status_of timeout).

Ltac finish_pass fuel :=
  unfold bind, sleep, ret, raise; cbn iota beta; try reflexivity;
  match goal with |- context [Waiter.loop ?t ?b fuel ?m ?s ?w0] =>
    destruct (Waiter.loop t b fuel m s w0) as [[? ?] ?] end;
  reflexivity.

Lemma active_loop_unfold fuel max_wait start_time w :
  loop active_body (S fuel) max_wait start_time w =
  pass (active_verdict failed) fuel max_wait start_time active_body w.
Proof.
  unfold pass. simpl. unfold bind at 1. unfold time_time at 1.
  destruct (clock w - start_time <? max_wait * ms_per_second); [|reflexivity].
  unfold bind at 1. unfold active_body at 1, try_except, bind at 1, perform.
  destruct (respond (remote w) c) as [[r st'] took].
  destruct r as [resp|e]; unfold fetched, active_verdict; cbn iota beta.
  - destruct (status_is (status_of resp) "ACTIVE"); [reflexivity|].
    destruct (status_is (status_of resp) "FAILED").
    + unfold raise at 1.
      destruct (PyStr.contains "ResourceNotFound" (exc_msg failed));
        finish_pass fuel.
    + finish_pass fuel.
  - destruct (PyStr.contains "ResourceNotFound" (exc_msg e)); finish_pass fuel.
Qed.

Lemma deleted_loop_unfold fuel max_wait start_time w :
  loop deleted_body (S fuel) max_wait start_time w =
  pass deleted_verdict fuel max_wait start_time deleted_body w.
Proof.
  unfold pass. simpl. unfold bind at 1. unfold time_time at 1.
  destruct (clock w - start_time <? max_wait * ms_per_second); [|reflexivity].
  unfold bind at 1. unfold deleted_body at 1, try_except, bind at 1, perform.
  destruct (respond (remote w) c) as [[r st'] took].
  destruct r as [resp|e]; unfold fetched, deleted_verdict; cbn iota beta.
  - finish_pass fuel.
  - destruct (PyStr.contains "ResourceNotFound" (exc_msg e)); finish_pass fuel.
Qed.

Lemma active_verdict_again a secs :
  active_verdict failed a = Again secs -> secs = 5 \/ secs = 10.
Proof.
  unfold active_verdict.
  destruct a as [s|e];
    repeat match goal with |- context [if ?b then _ else _] => destruct b end;
    intros H; inversion H; auto.
Qed.

Lemma deleted_verdict_again a secs :
  deleted_verdict a = Again secs -> secs = 5 \/ secs = 10.
Proof.
  unfold deleted_verdict.
  destruct a as [s|e];
    repeat match goal with |- context [if ?b then _ else _] => destruct b end;
    intros H; inversion H; auto.
Qed.

Lemma active_verdict_fuel a : active_verdict failed a <> Stop OutOfFuel.
Proof.
  unfold active_verdict.
  destruct a as [s|e];
    repeat match goal with |- context [if ?b then _ else _] => destruct b end;
    discriminate.
Qed.

Lemma deleted_verdict_fuel a : deleted_verdict a <> Stop OutOfFuel.
Proof.
  unfold deleted_verdict.
  destruct a as [s|e];
    repeat match goal with |- context [if ?b then _ else _] => destruct b end;
    discriminate.
Qed.

(** Facts that hold of any loop whose passes follow a verdict. *)
Section Passes.

Variable body : M St flow.
Variable v : option string + exn -> verdict.
Hypothesis unfold_loop : forall fuel max_wait start_time w,
  loop body (S fuel) max_wait start_time w =
  pass v fuel max_wait start_time body w.
Hypothesis v_again : forall a secs, v a = Again secs -> secs = 5 \/ secs = 10.
Hypothesis v_fuel : forall a, v a <> Stop OutOfFuel.

(** An event classifier that recognises the status fetches of this
    wait. *)
Variable poll : event -> option (option string + exn).
Hypothesis poll_called : forall r took,
  poll (Called c r took) = Some (fetched status_of r).
Hypothesis poll_slept : forall secs, poll (Slept secs) = None.

Ltac step fuel w :=
  rewrite unfold_loop; unfold pass;
  destruct (clock w - _ <? _ * ms_per_second) eqn:Hbudget;
  [ destruct (respond (remote w) c) as [[r st'] took] eqn:Hresp;
    destruct (v (fetched status_of r)) as [res|secs] eqn:Hv;
    [ | match goal with |- context [Waiter.loop ?t ?b fuel ?m ?s ?w0] =>
          destruct (Waiter.loop t b fuel m s w0) as [[res w'] evs] eqn:Hrec end ]
  | ].

Lemma loop_fuel fuel : forall max_wait start_time w,
  suffices fuel max_wait start_time w ->
  outcome (loop body fuel max_wait start_time w) <> OutOfFuel.
Proof.
  unfold suffices, ms_per_second.
  induction fuel as [|fuel IH]; intros max_wait start_time w [Hpos Hfuel].
  - lia.
  - step fuel w; simpl.
    + unfold outcome; simpl. intros ->. eapply v_fuel; eauto.
    + specialize (IH max_wait start_time
                     (after_sleep (after_call w st' took) secs)).
      rewrite Hrec in IH. unfold outcome in *; simpl in *. apply IH.
      apply Z.ltb_lt in Hbudget. apply v_again in Hv.
      unfold ms_per_second in *. lia.
    + discriminate.
Qed.

Lemma wait_fuel_suffices max_wait (w : world St) :
  suffices (wait_fuel max_wait) max_wait (clock w) w.
Proof.
  unfold suffices. unfold wait_fuel, ms_per_second.
  split; [lia|].
  destruct (Z.le_gt_cases max_wait 0) as [Hneg|Hpos].
  - lia.
  - rewrite Nat2Z.inj_add, Z2Nat.id by (apply Z.div_pos; lia).
    pose proof (Z.mod_pos_bound max_wait 5 ltac:(lia)).
    pose proof (Z.div_mod max_wait 5 ltac:(lia)). lia.
Qed.

(** Every event of a wait is a fetch of its resource or a sleep. *)
Lemma loop_events (P : event -> Prop) :
  (forall r took, P (Called c r took)) ->
  (forall secs, P (Slept secs)) ->
  forall fuel max_wait start_time w,
    Forall P (events (loop body fuel max_wait start_time w)).
Proof.
  intros Hcall Hsleep.
  induction fuel as [|fuel IH]; intros max_wait start_time w.
  - constructor.
  - step fuel w; unfold events; simpl.
    + repeat constructor; auto.
    + specialize (IH max_wait start_time
                     (after_sleep (after_call w st' took) secs)).
      rewrite Hrec in IH. repeat constructor; auto.
    + constructor.
Qed.

(** A fetch on which the pass stops is the last event of the wait, and
    decides its outcome. *)
Lemma loop_stop fuel : forall max_wait start_time w pre ev post a res,
  events (loop body fuel max_wait start_time w) = pre ++ ev :: post ->
  poll ev = Some a ->
  v a = Stop res ->
  post = [] /\ outcome (loop body fuel max_wait start_time w) = res.
Proof.
  induction fuel as [|fuel IH];
    intros max_wait start_time w pre ev post a res0 Hev Hpoll Hstop.
  - destruct pre; discriminate.
  - revert Hev. step fuel w; unfold events, outcome; simpl; intros Hev.
    + destruct pre as [|x pre]; simpl in Hev.
      * inversion Hev; subst ev post. rewrite poll_called in Hpoll.
        inversion Hpoll; subst a. split; congruence.
      * inversion Hev. destruct pre; discriminate.
    + destruct pre as [|x pre]; simpl in Hev.
      * inversion Hev; subst ev post. rewrite poll_called in Hpoll.
        inversion Hpoll; subst a. congruence.
      * inversion Hev as [[Hx Hrest]]. destruct pre as [|y pre]; simpl in Hrest.
        -- inversion Hrest; subst ev. rewrite poll_slept in Hpoll. discriminate.
        -- inversion Hrest as [[Hy Hevs]].
           specialize (IH max_wait start_time
                          (after_sleep (after_call w st' took) secs)
                          pre ev post a res0).
           rewrite Hrec in IH. unfold events, outcome in IH; simpl in IH.
           auto.
    + destruct pre; discriminate.
Qed.

(** How a wait can end: on the timeout, or on a fetch that stops it. *)
Lemma loop_end fuel : forall max_wait start_time w,
  let run := loop body fuel max_wait start_time w in
  outcome run = OutOfFuel \/
  outcome run = Raised timeout \/
  exists pre r took,
    events run = pre ++ [Called c r took] /\
    v (fetched status_of r) = Stop (outcome run).
Proof.
  induction fuel as [|fuel IH]; intros max_wait start_time w; cbv zeta.
  - left. reflexivity.
  - step fuel w; unfold events, outcome; simpl.
    + right; right. exists [], r, took. auto.
    + specialize (IH max_wait start_time
                     (after_sleep (after_call w st' took) secs)).
      cbv zeta in IH. rewrite Hrec in IH. unfold events, outcome in IH.
      simpl in IH.
      destruct IH as [IH|[IH|(pre & r' & took' & Hevs & Hlast)]]; auto.
      right; right.
      exists (Called c r took :: Slept secs :: pre), r', took'.
      subst evs. auto.
    + auto.
Qed.

Lemma spent_cons ev evs : spent (ev :: evs) = duration ev + spent evs.
Proof. reflexivity. Qed.

(** How a wait with fuel goes on from [w]: it gives up, the budget
    being used up, or it fetches. *)
Lemma loop_head fuel max_wait start_time w :
  (0 < fuel)%nat ->
  (max_wait * ms_per_second <= clock w - start_time /\
   loop body fuel max_wait start_time w = (Raised timeout, w, [])) \/
  (clock w - start_time < max_wait * ms_per_second /\
   exists r took rest,
     events (loop body fuel max_wait start_time w) = Called c r took :: rest).
Proof.
  destruct fuel as [|fuel]; [lia|]. intros _.
  step fuel w; unfold events; simpl.
  - right. apply Z.ltb_lt in Hbudget. split; [exact Hbudget|].
    exists r, took, []. reflexivity.
  - right. apply Z.ltb_lt in Hbudget. split; [exact Hbudget|].
    exists r, took, (Slept secs :: evs). reflexivity.
  - left. apply Z.ltb_ge in Hbudget. auto.
Qed.

(** A fetch after which the pass asks for more time is followed by the
    sleep, and then by the next fetch if the budget, counted from the
    start of the wait, is not used up, and by the timeout if it is. *)
Lemma loop_again fuel : forall max_wait start_time w pre ev post a secs,
  suffices fuel max_wait start_time w ->
  events (loop body fuel max_wait start_time w) = pre ++ ev :: post ->
  poll ev = Some a ->
  v a = Again secs ->
  (post = [Slept secs] /\
   outcome (loop body fuel max_wait start_time w) = Raised timeout /\
   max_wait * ms_per_second
     <= clock w - start_time + spent (pre ++ [ev; Slept secs])) \/
  (exists r took post',
     post = Slept secs :: Called c r took :: post' /\
     clock w - start_time + spent (pre ++ [ev; Slept secs])
       < max_wait * ms_per_second).
Proof.
  induction fuel as [|fuel IH];
    intros max_wait start_time w pre ev post a secs0 Hfuel Hev Hpoll Hagain.
  - destruct pre; discriminate.
  - revert Hev. step fuel w; unfold events, outcome; simpl; intros Hev.
    + destruct pre as [|x pre]; simpl in Hev.
      * inversion Hev; subst ev post. rewrite poll_called in Hpoll.
        inversion Hpoll; subst a. congruence.
      * inversion Hev. destruct pre; discriminate.
    + assert (Hnext : suffices fuel max_wait start_time
                        (after_sleep (after_call w st' took) secs)).
      { destruct Hfuel as [_ Hfuel]. apply Z.ltb_lt in Hbudget.
        pose proof (v_again _ _ Hv). unfold suffices. simpl.
        unfold ms_per_second in *. lia. }
      destruct pre as [|x pre]; simpl in Hev.
      * inversion Hev; subst ev post. rewrite poll_called in Hpoll.
        inversion Hpoll; subst a.
        assert (secs0 = secs) by congruence. subst secs0.
        simpl app. rewrite !spent_cons. simpl duration.
        change (spent []) with 0.
        destruct (loop_head fuel max_wait start_time
                    (after_sleep (after_call w st' took) secs)
                    (proj1 Hnext))
          as [[Hover Hrun]|[Hleft (r' & took' & rest & Hrest)]].
        -- left. rewrite Hrec in Hrun. inversion Hrun; subst.
           simpl in Hover. split; [reflexivity|]. split; [reflexivity|lia].
        -- right. rewrite Hrec in Hrest. unfold events in Hrest.
           simpl in Hrest. subst evs. simpl in Hleft.
           exists r', took', rest. split; [reflexivity|lia].
      * inversion Hev as [[Hx Hrest]]. destruct pre as [|y pre]; simpl in Hrest.
        -- inversion Hrest; subst ev. rewrite poll_slept in Hpoll. discriminate.
        -- inversion Hrest as [[Hy Hevs]].
           specialize (IH max_wait start_time
                          (after_sleep (after_call w st' took) secs)
                          pre ev post a secs0 Hnext).
           rewrite Hrec in IH. unfold events, outcome in IH; simpl in IH.
           specialize (IH Hevs Hpoll Hagain).
           simpl app. rewrite !spent_cons. simpl duration.
           destruct IH as [(Hpost & Hout & Hover)|(r' & took' & post' & Hpost & Hleft)].
           ++ left. split; [exact Hpost|]. split; [exact Hout|lia].
           ++ right. exists r', took', post'. split; [exact Hpost|lia].
    + destruct pre; discriminate.
Qed.

(** Waits in which every fetch asks for another ten seconds. *)
Abbreviation pending :=
  (Forall (fun ev => forall a, poll ev = Some a -> v a = Again 10)).
Abbreviation fetches evs :=
  (List.length
     (filter (fun ev => match poll ev with Some _ => true | None => false end)
             evs)).

Lemma loop_pending_timeout fuel : forall max_wait start_time w,
  suffices fuel max_wait start_time w ->
  pending (events (loop body fuel max_wait start_time w)) ->
  outcome (loop body fuel max_wait start_time w) = Raised timeout.
Proof.
  induction fuel as [|fuel IH]; intros max_wait start_time w [Hpos Hfuel].
  - lia.
  - step fuel w; unfold events, outcome; simpl; intros Hpend.
    + inversion Hpend as [|x l Hx Hl]; subst.
      specialize (Hx _ (poll_called r took)). congruence.
    + inversion Hpend as [|x l Hx Hl]; subst.
      specialize (Hx _ (poll_called r took)).
      assert (secs = 10) by congruence. subst secs.
      inversion Hl as [|y l' Hy Hl']; subst.
      specialize (IH max_wait start_time
                     (after_sleep (after_call w st' took) 10)).
      rewrite Hrec in IH. unfold events, outcome in IH; simpl in IH.
      apply IH; auto.
      apply Z.ltb_lt in Hbudget.
      budget.
    + reflexivity.
Qed.

Lemma loop_pending_at_most fuel : forall max_wait start_time w k,
  0 <= k ->
  max_wait * ms_per_second <= clock w - start_time + k * (10 * ms_per_second) ->
  pending (events (loop body fuel max_wait start_time w)) ->
  Z.of_nat (fetches (events (loop body fuel max_wait start_time w))) <= k.
Proof.
  induction fuel as [|fuel IH]; intros max_wait start_time w k Hk Hleft.
  - simpl. lia.
  - step fuel w; unfold events; simpl; intros Hpend.
    + inversion Hpend as [|x l Hx Hl]; subst.
      specialize (Hx _ (poll_called r took)). congruence.
    + inversion Hpend as [|x l Hx Hl]; subst.
      specialize (Hx _ (poll_called r took)).
      assert (secs = 10) by congruence. subst secs.
      inversion Hl as [|y l' Hy Hl']; subst.
      rewrite poll_called, poll_slept. simpl.
      apply Z.ltb_lt in Hbudget.
      specialize (IH max_wait start_time
                     (after_sleep (after_call w st' took) 10) (k - 1)).
      rewrite Hrec in IH. unfold events in IH; simpl in IH.
      unfold ms_per_second in *.
      assert (Z.of_nat (fetches evs) <= k - 1) by (apply IH; auto; budget).
      lia.
    + lia.
Qed.

Lemma loop_pending_at_least fuel : forall max_wait start_time w k pace,
  suffices fuel max_wait start_time w ->
  0 <= k -> 0 <= pace ->
  clock w - start_time + k * pace < max_wait * ms_per_second ->
  pending (events (loop body fuel max_wait start_time w)) ->
  Forall (fun ev => latency ev + 10 * ms_per_second <= pace)
         (events (loop body fuel max_wait start_time w)) ->
  k + 1 <= Z.of_nat (fetches (events (loop body fuel max_wait start_time w))).
Proof.
  induction fuel as [|fuel IH];
    intros max_wait start_time w k pace [Hpos Hfuel] Hk Hpace Hleft.
  - lia.
  - step fuel w; unfold events; simpl; intros Hpend Hlat.
    + inversion Hpend as [|x l Hx Hl]; subst.
      specialize (Hx _ (poll_called r took)). congruence.
    + inversion Hpend as [|x l Hx Hl]; subst.
      specialize (Hx _ (poll_called r took)).
      assert (secs = 10) by congruence. subst secs.
      inversion Hl as [|y l' Hy Hl']; subst.
      inversion Hlat as [|x l Htook Hlat']; subst.
      inversion Hlat' as [|y l Hzero Hlat'']; subst.
      rewrite poll_called, poll_slept. simpl.
      apply Z.ltb_lt in Hbudget. simpl in Htook.
      destruct (Z.eq_dec k 0) as [->|Hnz]; [lia|].
      specialize (IH max_wait start_time
                     (after_sleep (after_call w st' took) 10) (k - 1) pace).
      rewrite Hrec in IH. unfold events in IH; simpl in IH.
      unfold ms_per_second in *.
      assert (k - 1 + 1 <= Z.of_nat (fetches evs)).
      { apply IH; auto; budget. }
      lia.
    + exfalso. apply Z.ltb_ge in Hbudget.
      pose proof (Z.mul_nonneg_nonneg k pace Hk Hpace). lia.
Qed.

End Passes.

End Shape.

End WaiterFacts.


(** ** The waits of gateway_manager.py are instances of the two loops *)

Module GatewayFacts.
Import Waiter WaiterFacts.

Section Manager.

Context {St : Type}.
Variable respond : St -> forall c : call, reply c * St * N.

Lemma surjective_run {A} (x : result A * world St * list event) :
  x = (outcome x, final x, events x).
Proof. destruct x as [[r w] evs]. reflexivity. Qed.

Ltac loop_shape IH body w :=
  simpl; unfold bind, time_time, raise, ret;
  match goal with |- context [if ?b then _ else _] => destruct b end;
  [ destruct (body w) as [[[[|]|?|] ?] ?];
    try rewrite IH; reflexivity
  | reflexivity ].

Lemma wait_active_loop_shape x fuel : forall max_wait start_time w,
  wait_active_loop respond fuel x max_wait start_time w =
  loop (timeout_of x max_wait)
       (active_body respond (fetch_of x) (status_field x) (failed_of x))
       fuel max_wait start_time w.
Proof.
  destruct x as [g|g t]; induction fuel as [|fuel IH];
    intros max_wait start_time w; try reflexivity.
  - unfold wait_active_loop in *.
    change (active_body respond (fetch_of (OnGateway g))
              (status_field (OnGateway g)) (failed_of (OnGateway g)))
      with (GatewayManager.gateway_active_body respond g) in *.
    loop_shape IH (GatewayManager.gateway_active_body respond g) w.
  - unfold wait_active_loop in *.
    change (active_body respond (fetch_of (OnTarget g t))
              (status_field (OnTarget g t)) (failed_of (OnTarget g t)))
      with (GatewayManager.target_active_body respond g t) in *.
    loop_shape IH (GatewayManager.target_active_body respond g t) w.
Qed.

Lemma wait_gateway_deleted_loop_shape g fuel : forall max_wait start_time w,
  GatewayManager.wait_gateway_deleted_loop respond fuel g max_wait start_time w =
  loop (gateway_undeleted g max_wait) (deleted_body respond (GetGateway g))
       fuel max_wait start_time w.
Proof.
  induction fuel as [|fuel IH]; intros max_wait start_time w; try reflexivity.
  change (deleted_body respond (GetGateway g))
    with (GatewayManager.gateway_deleted_body respond g) in *.
  loop_shape IH (GatewayManager.gateway_deleted_body respond g) w.
Qed.

Lemma wait_target_deleted_loop_shape g t fuel : forall max_wait start_time w,
  GatewayManager.wait_target_deleted_loop respond fuel g t max_wait start_time w =
  loop (target_undeleted t max_wait) (deleted_body respond (GetGatewayTarget g t))
       fuel max_wait start_time w.
Proof.
  induction fuel as [|fuel IH]; intros max_wait start_time w; try reflexivity.
  change (deleted_body respond (GetGatewayTarget g t))
    with (GatewayManager.target_deleted_body respond g t) in *.
  loop_shape IH (GatewayManager.target_deleted_body respond g t) w.
Qed.

Ltac wait_run :=
  unfold bind, time_time;
  match goal with |- match ?run with _ => _ end = _ =>
    destruct run as [[? ?] ?] end;
  reflexivity.

Lemma _wait_for_active_run x max_wait w :
  _wait_for_active respond x max_wait w =
  wait_active_loop respond (wait_fuel max_wait) x max_wait (clock w) w.
Proof.
  destruct x; unfold _wait_for_active, wait_active_loop,
    GatewayManager._wait_for_gateway_active,
    GatewayManager._wait_for_target_active; wait_run.
Qed.

Lemma _wait_for_gateway_deleted_run g max_wait w :
  GatewayManager._wait_for_gateway_deleted respond g max_wait w =
  GatewayManager.wait_gateway_deleted_loop respond (wait_fuel max_wait) g
    max_wait (clock w) w.
Proof. unfold GatewayManager._wait_for_gateway_deleted. wait_run. Qed.

Lemma _wait_for_target_deleted_run g t max_wait w :
  GatewayManager._wait_for_target_deleted respond g t max_wait w =
  GatewayManager.wait_target_deleted_loop respond (wait_fuel max_wait) g t
    max_wait (clock w) w.
Proof. unfold GatewayManager._wait_for_target_deleted. wait_run. Qed.

Lemma fetch_result_called x r took :
  fetch_result (Called (fetch_of x) r took) = Some (fetched (status_field x) r).
Proof. destruct x; reflexivity. Qed.

End Manager.

End GatewayFacts.

(** * The activation waits *)

Section ActivationWaits.

Import Waiter WaiterFacts.

Context {St : Type}.
Variable respond : St -> forall c : call, reply c * St * N.

Lemma active_wait_fuel x max_wait w :
  outcome (_wait_for_active respond x max_wait w) <> OutOfFuel.
Proof.
  rewrite GatewayFacts._wait_for_active_run,
    GatewayFacts.wait_active_loop_shape.
  eapply loop_fuel.
  - intros. apply active_loop_unfold.
  - apply active_verdict_again.
  - apply active_verdict_fuel.
  - apply wait_fuel_suffices.
Qed.

(** An exception that leaves an activation wait is the timeout or does
    not mention [ResourceNotFound]. *)
Lemma active_wait_raises x max_wait w err :
  outcome (_wait_for_active respond x max_wait w) = Raised err ->
  err = timeout_of x max_wait \/
  PyStr.contains "ResourceNotFound" (exc_msg err) = false.
Proof.
  rewrite GatewayFacts._wait_for_active_run,
    GatewayFacts.wait_active_loop_shape.
  intros Hout.
  pose proof (loop_end respond (fetch_of x) (status_field x)
                (timeout_of x max_wait) _ _
                (fun fuel mw st w0 =>
                   active_loop_unfold respond (fetch_of x) (status_field x)
                     (failed_of x) (timeout_of x max_wait) fuel mw st w0)
                (wait_fuel max_wait) max_wait (clock w) w) as Hend.
  cbv zeta in Hend. rewrite Hout in Hend.
  destruct Hend as [Hend|[Hend|(pre & r & took & _ & Hv)]].
  - discriminate.
  - left. congruence.
  - right. unfold active_verdict in Hv.
    destruct (fetched (status_field x) r) as [s|e].
    + destruct (status_is s "ACTIVE"); [discriminate|].
      destruct (status_is s "FAILED"); [|discriminate].
      destruct (PyStr.contains "ResourceNotFound" (exc_msg (failed_of x)))
        eqn:Hc; [discriminate|].
      inversion Hv; subst. exact Hc.
    + destruct (PyStr.contains "ResourceNotFound" (exc_msg e)) eqn:Hc;
        [discriminate|].
      inversion Hv; subst. exact Hc.
Qed.

Lemma status_is_false (status : option string) (lit : string) :
  status <> Some lit -> status_is status lit = false.
Proof.
  intros H. destruct (status_is status lit) eqn:E; auto.
  apply status_is_true in E. contradiction.
Qed.

End ActivationWaits.

(** * Gateway creation *)

Section Creation.

Import Waiter WaiterFacts.

Context {St : Type}.
Variable respond : St -> forall c : call, reply c * St * N.

(** [create_gateway], spelled out on what the control plane answers. *)
Lemma create_gateway_unfold config w :
  GatewayManager.create_gateway respond config w =
  match respond (remote w) GetCallerIdentity with
  | (inr e, st1, t1) =>
      (Raised e, after_call w st1 t1, [Called GetCallerIdentity (inr e) t1])
  | (inl ident, st1, t1) =>
      let req := GatewayManager.create_gateway_kwargs config (Account ident) in
      match respond st1 (CreateGateway req) with
      | (inr e, st2, t2) =>
          (Raised e, after_call (after_call w st1 t1) st2 t2,
           [Called GetCallerIdentity (inl ident) t1;
            Called (CreateGateway req) (inr e) t2])
      | (inl resp, st2, t2) =>
          let w2 := after_call (after_call w st1 t1) st2 t2 in
          let wait := _wait_for_active respond (OnGateway (gatewayId resp)) 300 w2 in
          (match outcome wait with
           | Ok _ => Ok (created_handle resp)
           | Raised e => Raised e
           | OutOfFuel => OutOfFuel
           end,
           final wait,
           Called GetCallerIdentity (inl ident) t1 ::
           Called (CreateGateway req) (inl resp) t2 :: events wait)
      end
  end.
Proof.
  unfold GatewayManager.create_gateway, GatewayManager._get_account_id.
  unfold try_except, bind, perform, ret, raise.
  destruct (respond (remote w) GetCallerIdentity) as [[[ident|e] st1] t1];
    [|reflexivity].
  change (remote (after_call w st1 t1)) with st1.
  destruct (respond st1 (CreateGateway _)) as [[[resp|e] st2] t2];
    [|reflexivity].
  cbv zeta. unfold _wait_for_active.
  destruct (GatewayManager._wait_for_gateway_active respond (gatewayId resp) 300
              (after_call (after_call w st1 t1) st2 t2))
    as [[[[]|e|] w3] evs]; simpl; rewrite ?app_nil_r; reflexivity.
Qed.

Lemma fetch_result_slept secs : fetch_result (Slept secs) = None.
Proof. reflexivity. Qed.

Lemma gateway_poll_fetch ev g a :
  gateway_poll ev = Some (g, a) -> fetch_result ev = Some a.
Proof.
  destruct ev as [c r took|secs]; [|discriminate].
  destruct c; try discriminate. simpl. intros H. inversion H; subst.
  destruct r; reflexivity.
Qed.

Lemma active_unfold x max_wait :
  forall fuel mw st w,
    loop (timeout_of x max_wait)
      (active_body respond (fetch_of x) (status_field x) (failed_of x))
      (S fuel) mw st w =
    pass respond (fetch_of x) (status_field x) (timeout_of x max_wait)
      (active_verdict (failed_of x)) fuel mw st
      (active_body respond (fetch_of x) (status_field x) (failed_of x)) w.
Proof. intros. apply active_loop_unfold. Qed.

Lemma active_wait_shape x max_wait w :
  _wait_for_active respond x max_wait w =
  loop (timeout_of x max_wait)
    (active_body respond (fetch_of x) (status_field x) (failed_of x))
    (wait_fuel max_wait) max_wait (clock w) w.
Proof.
  rewrite GatewayFacts._wait_for_active_run.
  apply GatewayFacts.wait_active_loop_shape.
Qed.

(** The events of an activation wait are fetches of what it waits on,
    and sleeps. *)
Lemma active_wait_events x max_wait w (P : event -> Prop) :
  (forall r took, P (Called (fetch_of x) r took)) ->
  (forall secs, P (Slept secs)) ->
  Forall P (events (_wait_for_active respond x max_wait w)).
Proof.
  intros Hcall Hsleep. rewrite active_wait_shape.
  eapply loop_events; eauto. apply active_unfold.
Qed.

Lemma active_wait_stop x max_wait w pre ev post a res :
  events (_wait_for_active respond x max_wait w) = pre ++ ev :: post ->
  fetch_result ev = Some a ->
  active_verdict (failed_of x) a = Stop res ->
  post = [] /\ outcome (_wait_for_active respond x max_wait w) = res.
Proof.
  rewrite active_wait_shape.
  eapply loop_stop.
  - apply active_unfold.
  - apply GatewayFacts.fetch_result_called.
  - apply fetch_result_slept.
Qed.

(** A fetch after which an activation wait asks for more time. *)
Lemma active_wait_again x max_wait w pre ev post a secs :
  events (_wait_for_active respond x max_wait w) = pre ++ ev :: post ->
  fetch_result ev = Some a ->
  active_verdict (failed_of x) a = Again secs ->
  (post = [Slept secs] /\
   outcome (_wait_for_active respond x max_wait w) =
     Raised (timeout_of x max_wait) /\
   max_wait * ms_per_second <= spent (pre ++ [ev; Slept secs])) \/
  (exists r took post',
     post = Slept secs :: Called (fetch_of x) r took :: post' /\
     spent (pre ++ [ev; Slept secs]) < max_wait * ms_per_second).
Proof.
  rewrite active_wait_shape. intros Hev Hpoll Hagain.
  pose proof (loop_again respond (fetch_of x) (status_field x)
                (timeout_of x max_wait) _ _ (active_unfold x max_wait)
                (active_verdict_again (failed_of x))
                fetch_result (GatewayFacts.fetch_result_called x)
                fetch_result_slept
                (wait_fuel max_wait) max_wait (clock w) w pre ev post a secs
                (wait_fuel_suffices max_wait w) Hev Hpoll Hagain) as H.
  replace (clock w - clock w + spent (pre ++ [ev; Slept secs]))
    with (spent (pre ++ [ev; Slept secs])) in H by lia.
  exact H.
Qed.

(** C7. In an activation wait, on a gateway or on a target, a status
    fetch that raises a "resource not found" error is retried within
    the budget of the wait: the wait sleeps five seconds, and then
    fetches again if less than [max_wait] seconds have passed since the
    wait began, and raises its [TimeoutError] if not.  So that fetch
    ends the wait neither as a success nor as a failure, and its error
    is not what the wait raises: an exception that leaves the wait is
    the timeout or one that does not mention [ResourceNotFound].  The
    wait does end. *)
Theorem not_found_is_retried (x : waited) max_wait w pre ev post e :
  events (_wait_for_active respond x max_wait w) = pre ++ ev :: post ->
  fetch_result ev = Some (inr e) ->
  PyStr.contains "ResourceNotFound" (exc_msg e) = true ->
  ((post = [Slept 5] /\
    outcome (_wait_for_active respond x max_wait w) =
      Raised (timeout_of x max_wait) /\
    max_wait * ms_per_second <= spent (pre ++ [ev; Slept 5])) \/
   (exists r took post',
      post = Slept 5 :: Called (fetch_of x) r took :: post' /\
      spent (pre ++ [ev; Slept 5]) < max_wait * ms_per_second)) /\
  (forall err,
     outcome (_wait_for_active respond x max_wait w) = Raised err ->
     err = timeout_of x max_wait \/
     PyStr.contains "ResourceNotFound" (exc_msg err) = false) /\
  outcome (_wait_for_active respond x max_wait w) <> OutOfFuel.
Proof.
  intros Hev Hpoll Hnf. split; [|split].
  - eapply active_wait_again; [exact Hev|exact Hpoll|].
    unfold active_verdict. rewrite Hnf. reflexivity.
  - intros err. apply active_wait_raises.
  - apply active_wait_fuel.
Qed.

(** C10. In an activation wait, on a gateway or on a target, a fetched
    status other than [ACTIVE] and [FAILED], [CREATING] or any other
    or none, makes the wait sleep ten seconds, and then fetch again if
    less than [max_wait] seconds have passed since the wait began, and
    raise its [TimeoutError] if not.  A wait all of whose fetches come
    back with a response ends on a fetch that sees [ACTIVE], on a fetch
    that sees [FAILED], or on the timeout. *)
Theorem other_status_is_pending (x : waited) max_wait w pre ev post s :
  events (_wait_for_active respond x max_wait w) = pre ++ ev :: post ->
  fetch_result ev = Some (inl s) ->
  s <> Some "ACTIVE" ->
  s <> Some "FAILED" ->
  ((post = [Slept 10] /\
    outcome (_wait_for_active respond x max_wait w) =
      Raised (timeout_of x max_wait) /\
    max_wait * ms_per_second <= spent (pre ++ [ev; Slept 10])) \/
   (exists r took post',
      post = Slept 10 :: Called (fetch_of x) r took :: post' /\
      spent (pre ++ [ev; Slept 10]) < max_wait * ms_per_second)) /\
  ((forall ev' a,
      In ev' (events (_wait_for_active respond x max_wait w)) ->
      fetch_result ev' = Some a -> exists s', a = inl s') ->
   (outcome (_wait_for_active respond x max_wait w) = Ok tt /\
    exists pre' last,
      events (_wait_for_active respond x max_wait w) = pre' ++ [last] /\
      fetch_result last = Some (inl (Some "ACTIVE"))) \/
   (outcome (_wait_for_active respond x max_wait w) = Raised (failed_of x) /\
    exists pre' last,
      events (_wait_for_active respond x max_wait w) = pre' ++ [last] /\
      fetch_result last = Some (inl (Some "FAILED"))) \/
   outcome (_wait_for_active respond x max_wait w) =
     Raised (timeout_of x max_wait)).
Proof.
  intros Hev Hpoll Hactive Hfailed. split.
  - eapply active_wait_again; [exact Hev|exact Hpoll|].
    unfold active_verdict.
    rewrite (status_is_false _ _ Hactive), (status_is_false _ _ Hfailed).
    reflexivity.
  - clear Hev Hpoll. pose proof (active_wait_fuel respond x max_wait w) as Hfuel.
    revert Hfuel. rewrite active_wait_shape. intros Hfuel Hanswered.
    pose proof (loop_end respond (fetch_of x) (status_field x)
                  (timeout_of x max_wait) _ _ (active_unfold x max_wait)
                  (wait_fuel max_wait) max_wait (clock w) w) as Hend.
    cbv zeta in Hend.
    destruct Hend as [Hend|[Hend|(pre' & r & took & Hevs & Hv)]].
    + contradiction.
    + right; right. exact Hend.
    + assert (Hin : In (Called (fetch_of x) r took)
                       (events (loop (timeout_of x max_wait)
                          (active_body respond (fetch_of x) (status_field x)
                             (failed_of x))
                          (wait_fuel max_wait) max_wait (clock w) w))).
      { rewrite Hevs. apply in_or_app. right. left. reflexivity. }
      destruct (Hanswered _ _ Hin (GatewayFacts.fetch_result_called x r took))
        as [s' Hs].
      unfold active_verdict in Hv. rewrite Hs in Hv.
      destruct (status_is s' "ACTIVE") eqn:Ha.
      * left. apply status_is_true in Ha. subst s'. split.
        -- inversion Hv. reflexivity.
        -- exists pre', (Called (fetch_of x) r took). split; [exact Hevs|].
           rewrite GatewayFacts.fetch_result_called. congruence.
      * destruct (status_is s' "FAILED") eqn:Hf; [|discriminate].
        destruct (PyStr.contains "ResourceNotFound" (exc_msg (failed_of x)));
          [discriminate|].
        right; left. apply status_is_true in Hf. subst s'. split.
        -- inversion Hv. reflexivity.
        -- exists pre', (Called (fetch_of x) r took). split; [exact Hevs|].
           rewrite GatewayFacts.fetch_result_called. congruence.
Qed.

Lemma gateway_wait_polls g max_wait w :
  Forall (fun ev => (forall g' a, gateway_poll ev = Some (g', a) -> g' = g) /\
                    created ev = None)
         (events (_wait_for_active respond (OnGateway g) max_wait w)).
Proof.
  apply active_wait_events.
  - intros r took. split; [|reflexivity].
    simpl. intros g' a H. inversion H. reflexivity.
  - intros secs. split; [discriminate|reflexivity].
Qed.

(** Where a status fetch can sit in the call sequence of
    [create_gateway]: inside the wait that follows an accepted create
    call. *)
Lemma create_gateway_poll config w ev g a :
  In ev (events (GatewayManager.create_gateway respond config w)) ->
  gateway_poll ev = Some (g, a) ->
  exists ident resp t1 t2 w2,
    let req := GatewayManager.create_gateway_kwargs config (Account ident) in
    let wait := _wait_for_active respond (OnGateway g) 300 w2 in
    gatewayId resp = g /\
    events (GatewayManager.create_gateway respond config w) =
      Called GetCallerIdentity (inl ident) t1 ::
      Called (CreateGateway req) (inl resp) t2 :: events wait /\
    outcome (GatewayManager.create_gateway respond config w) =
      match outcome wait with
      | Ok _ => Ok (created_handle resp)
      | Raised e => Raised e
      | OutOfFuel => OutOfFuel
      end /\
    In ev (events wait).
Proof.
  rewrite create_gateway_unfold.
  destruct (respond (remote w) GetCallerIdentity) as [[[ident|e] st1] t1].
  - cbv zeta.
    destruct (respond st1 (CreateGateway _)) as [[[resp|e] st2] t2].
    + unfold events at 1; simpl. intros [<-|[<-|Hin]] Hpoll; try discriminate.
      pose proof (gateway_wait_polls (gatewayId resp) 300
                    (after_call (after_call w st1 t1) st2 t2)) as Hall.
      rewrite Forall_forall in Hall.
      destruct (Hall _ Hin) as [Hg _]. specialize (Hg _ _ Hpoll). subst g.
      exists ident, resp, t1, t2, (after_call (after_call w st1 t1) st2 t2).
      cbv zeta. unfold events at 1, outcome at 1. simpl. auto.
    + unfold events; simpl. intros [<-|[<-|[]]]; discriminate.
  - unfold events; simpl. intros [<-|[]]; discriminate.
Qed.

(** C3 (amended). When a status fetch made by [create_gateway] sees
    [ACTIVE], [create_gateway] returns normally; the dict it returns
    carries the id the create call assigned and the constant status
    ["created"]; the create call was sent an authorizer configuration
    whose issuer is the Cognito URL built from the region and the user
    pool id of the config, and whose audience is the list holding the
    client id of the config. *)
Theorem create_gateway_active config w ev g :
  In ev (events (GatewayManager.create_gateway respond config w)) ->
  gateway_poll ev = Some (g, inl (Some "ACTIVE")) ->
  exists account resp took,
    let req := GatewayManager.create_gateway_kwargs config account in
    outcome (GatewayManager.create_gateway respond config w) =
      Ok {| GatewayManager.gateway_id := g;
            GatewayManager.gateway_arn := gatewayArn resp;
            GatewayManager.gateway_url := gatewayUrl resp;
            GatewayManager.status := "created" |} /\
    In (Called (CreateGateway req) (inl resp) took)
       (events (GatewayManager.create_gateway respond config w)) /\
    gatewayId resp = g /\
    issuer (customJwt (req_authorizerConfiguration req)) =
      "https://cognito-idp." +++ GatewayManager.region config +++
      ".amazonaws.com/" +++ GatewayManager.cognito_user_pool_id config /\
    audience (customJwt (req_authorizerConfiguration req)) =
      [GatewayManager.cognito_client_id config].
Proof.
  intros Hin Hpoll.
  destruct (create_gateway_poll _ _ _ _ _ Hin Hpoll)
    as (ident & resp & t1 & t2 & w2 & Hid & Hevs & Hout & Hwait).
  cbv zeta in *.
  apply in_split in Hwait. destruct Hwait as (pre & post & Hsplit).
  destruct (active_wait_stop (OnGateway g) 300 w2 pre ev post
              (inl (Some "ACTIVE")) (Ok tt) Hsplit
              (gateway_poll_fetch _ _ _ Hpoll) eq_refl) as [_ Hok].
  exists (Account ident), resp, t2. rewrite Hout, Hok, Hevs.
  repeat split; auto.
  - unfold created_handle. rewrite Hid. reflexivity.
  - right. left. reflexivity.
Qed.

(** Used for C4: a status fetch that sees [FAILED] ends
    [create_gateway] at once with the activation failure, provided the
    message of that failure does not mention [ResourceNotFound]. *)
Lemma create_gateway_failed config w pre ev post g :
  events (GatewayManager.create_gateway respond config w) = pre ++ ev :: post ->
  gateway_poll ev = Some (g, inl (Some "FAILED")) ->
  PyStr.contains "ResourceNotFound" (exc_msg (gateway_failed g)) = false ->
  outcome (GatewayManager.create_gateway respond config w) =
    Raised (gateway_failed g) /\
  post = [].
Proof.
  intros Hsplit Hpoll Hclean.
  assert (Hin : In ev (events (GatewayManager.create_gateway respond config w))).
  { rewrite Hsplit. apply in_or_app. right. left. reflexivity. }
  destruct (create_gateway_poll _ _ _ _ _ Hin Hpoll)
    as (ident & resp & t1 & t2 & w2 & Hid & Hevs & Hout & Hwait).
  cbv zeta in *. rewrite Hevs in Hsplit.
  destruct pre as [|e1 pre]; simpl in Hsplit.
  { inversion Hsplit; subst ev. discriminate. }
  inversion Hsplit as [[He1 Hrest]]. clear Hsplit.
  destruct pre as [|e2 pre]; simpl in Hrest.
  { inversion Hrest; subst ev. discriminate. }
  inversion Hrest as [[He2 Hsplit]]. clear Hrest.
  assert (Hv : active_verdict (failed_of (OnGateway g))
                 (inl (Some "FAILED")) = Stop (Raised (gateway_failed g))).
  { unfold active_verdict. simpl status_is. simpl failed_of.
    rewrite Hclean. reflexivity. }
  destruct (active_wait_stop (OnGateway g) 300 w2 pre ev post _ _ Hsplit
              (gateway_poll_fetch _ _ _ Hpoll) Hv) as [Hpost Hraised].
  rewrite Hout, Hraised. auto.
Qed.

Ltac generic_wait :=
  first [ apply active_unfold
        | apply GatewayFacts.fetch_result_called
        | apply fetch_result_slept
        | apply wait_fuel_suffices
        | eassumption
        | lia ].

(** An activation wait in which every fetch sees a status that is
    neither [ACTIVE] nor [FAILED]. *)
Lemma active_wait_pending x max_wait w :
  let wait := _wait_for_active respond x max_wait w in
  let fetches :=
    List.length
      (filter (fun ev => match fetch_result ev with
                         | Some _ => true
                         | None => false
                         end) (events wait)) in
  Forall (fun ev => forall a, fetch_result ev = Some a ->
                    active_verdict (failed_of x) a = Again 10) (events wait) ->
  outcome wait = Raised (timeout_of x max_wait) /\
  (forall k, 0 <= k -> max_wait * ms_per_second <= k * (10 * ms_per_second) ->
             Z.of_nat fetches <= k) /\
  (forall k pace, 0 <= k -> 0 <= pace ->
     k * pace < max_wait * ms_per_second ->
     Forall (fun ev => latency ev + 10 * ms_per_second <= pace) (events wait) ->
     k + 1 <= Z.of_nat fetches).
Proof.
  cbv zeta. rewrite active_wait_shape. intros Hpend. split; [|split].
  - eapply loop_pending_timeout with (poll := fetch_result); generic_wait.
  - intros k Hk Hleft.
    eapply loop_pending_at_most with (poll := fetch_result); generic_wait.
  - intros k pace Hk Hpace Hleft Hlat.
    eapply loop_pending_at_least with (poll := fetch_result); generic_wait.
Qed.

(** Where an accepted create call sits in the call sequence of
    [create_gateway]: right before the activation wait. *)
Lemma create_gateway_created config w ev req g :
  In ev (events (GatewayManager.create_gateway respond config w)) ->
  created ev = Some (req, g) ->
  exists ident resp t1 t2 w2,
    let req := GatewayManager.create_gateway_kwargs config (Account ident) in
    let wait := _wait_for_active respond (OnGateway g) 300 w2 in
    gatewayId resp = g /\
    events (GatewayManager.create_gateway respond config w) =
      Called GetCallerIdentity (inl ident) t1 ::
      Called (CreateGateway req) (inl resp) t2 :: events wait /\
    outcome (GatewayManager.create_gateway respond config w) =
      match outcome wait with
      | Ok _ => Ok (created_handle resp)
      | Raised e => Raised e
      | OutOfFuel => OutOfFuel
      end.
Proof.
  rewrite create_gateway_unfold.
  destruct (respond (remote w) GetCallerIdentity) as [[[ident|e] st1] t1].
  - cbv zeta.
    destruct (respond st1 (CreateGateway _)) as [[[resp|e] st2] t2].
    + unfold events at 1; simpl. intros [<-|[<-|Hin]] Hc; try discriminate.
      * simpl in Hc. inversion Hc; subst.
        exists ident, resp, t1, t2, (after_call (after_call w st1 t1) st2 t2).
        cbv zeta. unfold events at 1, outcome at 1. simpl. auto.
      * pose proof (gateway_wait_polls (gatewayId resp) 300
                      (after_call (after_call w st1 t1) st2 t2)) as Hall.
        rewrite Forall_forall in Hall.
        destruct (Hall _ Hin) as [_ Hnone]. congruence.
    + unfold events; simpl. intros [<-|[<-|[]]]; discriminate.
  - unfold events; simpl. intros [<-|[]]; discriminate.
Qed.

Lemma gateway_wait_fetches g max_wait w :
  Forall (fun ev =>
            (forall a, fetch_result ev = Some a -> gateway_poll ev = Some (g, a)) /\
            is_gateway_poll ev =
              match fetch_result ev with Some _ => true | None => false end /\
            (is_gateway_poll ev = false -> latency ev = 0))
         (events (_wait_for_active respond (OnGateway g) max_wait w)).
Proof.
  apply active_wait_events.
  - intros r took. split; [|split; [reflexivity|discriminate]].
    simpl. intros a H. inversion H. destruct r; reflexivity.
  - intros secs. split; [discriminate|split; reflexivity].
Qed.

(** C5 (amended). When the create call is accepted and every status
    fetch sees [CREATING], [create_gateway] raises the [TimeoutError]
    of the wait after at most 30 status fetches, which is
    ceil(300 / 10).  It makes exactly 30 when no fetch takes longer
    than 344 ms, and at least 29 when no fetch takes longer than
    714 ms. *)
Theorem create_gateway_never_active config w created_ev req g :
  In created_ev (events (GatewayManager.create_gateway respond config w)) ->
  created created_ev = Some (req, g) ->
  (forall ev g' a,
     In ev (events (GatewayManager.create_gateway respond config w)) ->
     gateway_poll ev = Some (g', a) -> a = inl (Some "CREATING")) ->
  let run := GatewayManager.create_gateway respond config w in
  outcome run = Raised (gateway_timeout g 300) /\
  (gateway_polls (events run) <= 30)%nat /\
  ((forall ev, In ev (events run) -> is_gateway_poll ev = true ->
               latency ev <= 344) ->
   gateway_polls (events run) = 30%nat) /\
  ((forall ev, In ev (events run) -> is_gateway_poll ev = true ->
               latency ev <= 714) ->
   (29 <= gateway_polls (events run))%nat).
Proof.
  intros Hin Hcreated Hcreating. cbv zeta.
  destruct (create_gateway_created _ _ _ _ _ Hin Hcreated)
    as (ident & resp & t1 & t2 & w2 & Hid & Hevs & Hout).
  cbv zeta in *.
  set (wait := _wait_for_active respond (OnGateway g) 300 w2) in *.
  pose proof (gateway_wait_fetches g 300 w2) as Hshape.
  fold wait in Hshape. rewrite Forall_forall in Hshape.
  assert (Hpolls : gateway_polls
                     (events (GatewayManager.create_gateway respond config w)) =
                   List.length
                     (filter (fun ev => match fetch_result ev with
                                        | Some _ => true
                                        | None => false
                                        end) (events wait))).
  { rewrite Hevs. unfold gateway_polls. simpl. f_equal.
    apply filter_ext_in. intros ev Hev. apply (Hshape ev Hev). }
  assert (Hpend : Forall (fun ev => forall a, fetch_result ev = Some a ->
                     active_verdict (failed_of (OnGateway g)) a = Again 10)
                    (events wait)).
  { rewrite Forall_forall. intros ev Hev a Ha.
    destruct (Hshape ev Hev) as [Hpoll _]. specialize (Hpoll a Ha).
    assert (Hin' : In ev (events (GatewayManager.create_gateway respond config w))).
    { rewrite Hevs. right. right. exact Hev. }
    rewrite (Hcreating _ _ _ Hin' Hpoll). reflexivity. }
  destruct (active_wait_pending (OnGateway g) 300 w2 Hpend)
    as (Htimeout & Hmost & Hleast).
  fold wait in Htimeout, Hmost, Hleast.
  assert (Hslow : forall bound,
            (forall ev,
               In ev (events (GatewayManager.create_gateway respond config w)) ->
               is_gateway_poll ev = true -> latency ev <= bound) ->
            0 <= bound ->
            Forall (fun ev => latency ev + 10 * ms_per_second
                              <= 10 * ms_per_second + bound) (events wait)).
  { intros bound Hb Hpos. rewrite Forall_forall. intros ev Hev.
    destruct (is_gateway_poll ev) eqn:Hp.
    - assert (latency ev <= bound); [|lia].
      apply Hb; auto. rewrite Hevs. right. right. exact Hev.
    - destruct (Hshape ev Hev) as (_ & _ & Hzero).
      rewrite (Hzero Hp). lia. }
  rewrite Hpolls, Hout, Htimeout.
  pose proof (Hmost 30 ltac:(lia) ltac:(unfold ms_per_second; lia)) as Hupper.
  repeat split.
  - lia.
  - intros Hfast.
    pose proof (Hleast 29 (10 * ms_per_second + 344) ltac:(lia)
                  ltac:(unfold ms_per_second; lia)
                  ltac:(unfold ms_per_second; lia)
                  (Hslow 344 Hfast ltac:(lia))).
    lia.
  - intros Hfast.
    pose proof (Hleast 28 (10 * ms_per_second + 714) ltac:(lia)
                  ltac:(unfold ms_per_second; lia)
                  ltac:(unfold ms_per_second; lia)
                  (Hslow 714 Hfast ltac:(lia))).
    lia.
Qed.

End Creation.

(** * Gateway deletion *)

Section Deletion.

Import Waiter WaiterFacts.

Context {St : Type}.
Variable respond : St -> forall c : call, reply c * St * N.

Lemma wait_fuel_succ max_wait : exists n, wait_fuel max_wait = S n.
Proof.
  unfold wait_fuel. exists (Z.to_nat (max_wait / 5) + 1)%nat. lia.
Qed.

Lemma target_deleted_shape g t max_wait w :
  GatewayManager._wait_for_target_deleted respond g t max_wait w =
  loop (target_undeleted t max_wait) (deleted_body respond (GetGatewayTarget g t))
    (wait_fuel max_wait) max_wait (clock w) w.
Proof.
  rewrite GatewayFacts._wait_for_target_deleted_run.
  apply GatewayFacts.wait_target_deleted_loop_shape.
Qed.

Lemma gateway_deleted_shape g max_wait w :
  GatewayManager._wait_for_gateway_deleted respond g max_wait w =
  loop (gateway_undeleted g max_wait) (deleted_body respond (GetGateway g))
    (wait_fuel max_wait) max_wait (clock w) w.
Proof.
  rewrite GatewayFacts._wait_for_gateway_deleted_run.
  apply GatewayFacts.wait_gateway_deleted_loop_shape.
Qed.

Lemma deleted_unfold c timeout :
  forall fuel mw st w,
    loop timeout (deleted_body respond c) (S fuel) mw st w =
    pass respond c (fun _ => None) timeout deleted_verdict fuel mw st
      (deleted_body respond c) w.
Proof. intros. apply deleted_loop_unfold. Qed.

(** The deletion wait on a target: it never runs out of fuel, its
    events are fetches of the target and sleeps, and it returns only
    after a fetch that came back "not found". *)
Lemma target_deleted_wait g t max_wait w :
  let wait := GatewayManager._wait_for_target_deleted respond g t max_wait w in
  outcome wait <> OutOfFuel /\
  Forall (fun ev => parent_delete ev = None /\ confirmation ev = None)
         (events wait) /\
  (outcome wait = Ok tt ->
   exists pre ev, events wait = pre ++ [ev] /\ target_absent ev = Some (g, t)).
Proof.
  cbv zeta. rewrite target_deleted_shape. split; [|split].
  - eapply loop_fuel.
    + apply deleted_unfold.
    + apply deleted_verdict_again.
    + apply deleted_verdict_fuel.
    + apply wait_fuel_suffices.
  - eapply loop_events; [apply deleted_unfold| |]; split; reflexivity.
  - intros Hok.
    pose proof (loop_end respond (GetGatewayTarget g t) (fun _ => None)
                  (target_undeleted t max_wait) _ _
                  (deleted_unfold (GetGatewayTarget g t)
                     (target_undeleted t max_wait))
                  (wait_fuel max_wait) max_wait (clock w) w) as Hend.
    cbv zeta in Hend. rewrite Hok in Hend.
    destruct Hend as [Hend|[Hend|(pre & r & took & Hevs & Hv)]];
      try discriminate.
    exists pre, (Called (GetGatewayTarget g t) r took). split; [exact Hevs|].
    destruct r as [resp|e]; simpl in *; [discriminate|].
    destruct (PyStr.contains "ResourceNotFound" (exc_msg e));
      [reflexivity|discriminate].
Qed.

Lemma gateway_deleted_wait g max_wait w :
  let wait := GatewayManager._wait_for_gateway_deleted respond g max_wait w in
  outcome wait <> OutOfFuel /\
  Forall (fun ev => parent_delete ev = None /\ confirmation ev = None)
         (events wait).
Proof.
  cbv zeta. rewrite gateway_deleted_shape. split.
  - eapply loop_fuel.
    + apply deleted_unfold.
    + apply deleted_verdict_again.
    + apply deleted_verdict_fuel.
    + apply wait_fuel_suffices.
  - eapply loop_events; [apply deleted_unfold| |]; split; reflexivity.
Qed.

(** The deletion wait returns at once when the first fetch comes back
    "not found". *)
Lemma gateway_deleted_at_once g max_wait w e st' took :
  0 < max_wait ->
  respond (remote w) (GetGateway g) = (inr e, st', took) ->
  PyStr.contains "ResourceNotFound" (exc_msg e) = true ->
  GatewayManager._wait_for_gateway_deleted respond g max_wait w =
  (Ok tt, after_call w st' took, [Called (GetGateway g) (inr e) took]).
Proof.
  intros Hpos Hresp Hnf. rewrite gateway_deleted_shape.
  destruct (wait_fuel_succ max_wait) as [n ->].
  rewrite deleted_unfold. unfold pass.
  assert (Hb : (clock w - clock w <? max_wait * ms_per_second) = true)
    by (apply Z.ltb_lt; unfold ms_per_second; lia).
  rewrite Hb, Hresp. simpl. rewrite Hnf. reflexivity.
Qed.

Lemma target_gone_later g evs more t :
  target_gone g evs t -> target_gone g (evs ++ more) t.
Proof.
  intros (a & d1 & b & d2 & c & -> & H1 & H2).
  exists a, d1, b, d2, (c ++ more). split; [|auto].
  rewrite <- !app_assoc. simpl. rewrite <- !app_assoc. reflexivity.
Qed.

Lemma target_gone_earlier g evs before t :
  target_gone g evs t -> target_gone g (before ++ evs) t.
Proof.
  intros (a & d1 & b & d2 & c & -> & H1 & H2).
  exists (before ++ a), d1, b, d2, c. split; [|auto].
  rewrite <- !app_assoc. reflexivity.
Qed.

Lemma delete_targets_cons g target rest w :
  GatewayManager.delete_targets respond g (target :: rest) w =
  match respond (remote w) (DeleteGatewayTarget g (targetId target)) with
  | (inr e, st1, t1) =>
      (Raised e, after_call w st1 t1,
       [Called (DeleteGatewayTarget g (targetId target)) (inr e) t1])
  | (inl u, st1, t1) =>
      let wait :=
        GatewayManager._wait_for_target_deleted respond g (targetId target) 300
          (after_call w st1 t1) in
      match outcome wait with
      | Ok _ =>
          let more := GatewayManager.delete_targets respond g rest (final wait) in
          (outcome more, final more,
           Called (DeleteGatewayTarget g (targetId target)) (inl u) t1 ::
           events wait ++ events more)
      | Raised e =>
          (Raised e, final wait,
           Called (DeleteGatewayTarget g (targetId target)) (inl u) t1 ::
           events wait)
      | OutOfFuel =>
          (OutOfFuel, final wait,
           Called (DeleteGatewayTarget g (targetId target)) (inl u) t1 ::
           events wait)
      end
  end.
Proof.
  simpl. unfold bind, perform.
  destruct (respond (remote w) (DeleteGatewayTarget g (targetId target)))
    as [[[u|e] st1] t1]; [|reflexivity].
  fold (after_call w st1 t1). cbv zeta.
  destruct (GatewayManager._wait_for_target_deleted respond g
              (targetId target) 300 (after_call w st1 t1))
    as [[[[]|e|] w2] evs2]; try reflexivity.
  unfold outcome, final, events; simpl.
  destruct (GatewayManager.delete_targets respond g rest w2) as [[r3 w3] evs3].
  reflexivity.
Qed.

(** The loop over the targets: it issues no delete call for a gateway,
    and when it completes every target was deleted and then seen
    absent. *)
Lemma delete_targets_run g targets : forall w,
  let run := GatewayManager.delete_targets respond g targets w in
  outcome run <> OutOfFuel /\
  Forall (fun ev => parent_delete ev = None /\ confirmation ev = None)
         (events run) /\
  (outcome run = Ok tt -> forall t, In t targets -> target_gone g (events run) t).
Proof.
  induction targets as [|target rest IH]; intros w; cbv zeta.
  - simpl. unfold ret, outcome, events. simpl.
    split; [discriminate|]. split; [constructor|]. intros _ t [].
  - rewrite delete_targets_cons.
    destruct (respond (remote w) (DeleteGatewayTarget g (targetId target)))
      as [[[u|e] st1] t1].
    + cbv zeta.
      pose proof (target_deleted_wait g (targetId target) 300
                    (after_call w st1 t1)) as Hwait.
      cbv zeta in Hwait. destruct Hwait as (Hfuel & Hnone & Hgone).
      destruct (outcome (GatewayManager._wait_for_target_deleted respond g
                           (targetId target) 300 (after_call w st1 t1)))
        as [[]|e|] eqn:Hout.
      * specialize (IH (final (GatewayManager._wait_for_target_deleted respond g
                           (targetId target) 300 (after_call w st1 t1)))).
        cbv zeta in IH. destruct IH as (Hfuel3 & Hnone3 & Hgone3).
        unfold outcome at 1 3, events at 1 4. simpl.
        split; [exact Hfuel3|]. split.
        -- constructor; [split; reflexivity|]. apply Forall_app. auto.
        -- intros Hok t [<-|Hin].
           ++ destruct (Hgone eq_refl) as (pre & ev & Hevs & Habsent).
              exists [], (Called (DeleteGatewayTarget g (targetId target))
                            (inl u) t1), pre, ev,
                (events (GatewayManager.delete_targets respond g rest
                   (final (GatewayManager._wait_for_target_deleted respond g
                             (targetId target) 300 (after_call w st1 t1))))).
              split; [|split; [reflexivity|exact Habsent]].
              rewrite Hevs. simpl. rewrite <- app_assoc. reflexivity.
           ++ apply (target_gone_earlier g _
                       (Called (DeleteGatewayTarget g (targetId target))
                          (inl u) t1 ::
                        events (GatewayManager._wait_for_target_deleted respond
                                  g (targetId target) 300
                                  (after_call w st1 t1)))).
              apply Hgone3; auto.
      * unfold outcome at 1 2, events at 1; simpl.
        split; [discriminate|]. split; [|discriminate].
        constructor; [split; reflexivity|exact Hnone].
      * exfalso. apply Hfuel. reflexivity.
    + unfold outcome, events; simpl.
      split; [discriminate|]. split; [|discriminate].
      repeat constructor.
Qed.

(** [delete_gateway], spelled out on what the control plane answers. *)
Lemma delete_gateway_unfold g w :
  GatewayManager.delete_gateway respond g w =
  match respond (remote w) (ListGatewayTargets g) with
  | (inr e, st1, t1) =>
      (Raised e, after_call w st1 t1, [Called (ListGatewayTargets g) (inr e) t1])
  | (inl resp, st1, t1) =>
      let listing := Called (ListGatewayTargets g) (inl resp) t1 in
      let loop :=
        GatewayManager.delete_targets respond g
          (get_default (targetSummaries resp) []) (after_call w st1 t1) in
      match outcome loop with
      | Ok _ =>
          match respond (remote (final loop)) (DeleteGateway g) with
          | (inr e, st2, t2) =>
              (Raised e, after_call (final loop) st2 t2,
               listing :: events loop ++ [Called (DeleteGateway g) (inr e) t2])
          | (inl u, st2, t2) =>
              let wait :=
                GatewayManager._wait_for_gateway_deleted respond g 300
                  (after_call (final loop) st2 t2) in
              (match outcome wait with
               | Ok _ => Ok {| GatewayManager.deletion_status := "deleted" |}
               | Raised e => Raised e
               | OutOfFuel => OutOfFuel
               end,
               final wait,
               listing :: events loop ++
               Called (DeleteGateway g) (inl u) t2 :: events wait)
          end
      | Raised e => (Raised e, final loop, listing :: events loop)
      | OutOfFuel => (OutOfFuel, final loop, listing :: events loop)
      end
  end.
Proof.
  unfold GatewayManager.delete_gateway.
  unfold try_except, bind, perform, ret, raise.
  destruct (respond (remote w) (ListGatewayTargets g)) as [[[resp|e] st1] t1];
    [|reflexivity].
  fold (after_call w st1 t1). cbv zeta.
  destruct (GatewayManager.delete_targets respond g
              (get_default (targetSummaries resp) []) (after_call w st1 t1))
    as [[[[]|e|] w2] evs2]; unfold outcome, final, events; simpl;
    rewrite ?app_nil_r; try reflexivity.
  destruct (respond (remote w2) (DeleteGateway g)) as [[[u|e] st2] t2].
  - fold (after_call w2 st2 t2).
    destruct (GatewayManager._wait_for_gateway_deleted respond g 300
                (after_call w2 st2 t2)) as [[[[]|e|] w3] evs3];
      simpl; rewrite ?app_nil_r; reflexivity.
  - simpl. rewrite ?app_nil_r. reflexivity.
Qed.

Lemma delete_gateway_fuel g w :
  outcome (GatewayManager.delete_gateway respond g w) <> OutOfFuel.
Proof.
  rewrite delete_gateway_unfold.
  destruct (respond (remote w) (ListGatewayTargets g)) as [[[resp|e] st1] t1];
    [|discriminate].
  cbv zeta.
  pose proof (delete_targets_run g (get_default (targetSummaries resp) [])
                (after_call w st1 t1)) as Hloop.
  cbv zeta in Hloop. destruct Hloop as (Hfuel & _ & _).
  destruct (outcome (GatewayManager.delete_targets respond g _ _))
    as [[]|e|]; try discriminate; [|contradiction].
  destruct (respond _ (DeleteGateway g)) as [[[u|e] st2] t2]; [|discriminate].
  cbv zeta.
  match goal with |- context [GatewayManager._wait_for_gateway_deleted ?r ?a ?b ?c] =>
    pose proof (gateway_deleted_wait a b c) as Hwait end.
  cbv zeta in Hwait. destruct Hwait as (Hfuel' & _).
  unfold outcome at 1. simpl.
  destruct (outcome (GatewayManager._wait_for_gateway_deleted respond g 300 _))
    as [[]|e|]; try discriminate. contradiction.
Qed.

(** [delete_gateway] never prompts. *)
Lemma delete_gateway_silent g w :
  Forall (fun ev => confirmation ev = None)
         (events (GatewayManager.delete_gateway respond g w)).
Proof.
  rewrite delete_gateway_unfold.
  destruct (respond (remote w) (ListGatewayTargets g)) as [[[resp|e] st1] t1];
    [|repeat constructor].
  cbv zeta.
  pose proof (delete_targets_run g (get_default (targetSummaries resp) [])
                (after_call w st1 t1)) as Hloop.
  cbv zeta in Hloop. destruct Hloop as (_ & Hnone & _).
  assert (Hquiet : Forall (fun ev => confirmation ev = None)
            (events (GatewayManager.delete_targets respond g
                       (get_default (targetSummaries resp) [])
                       (after_call w st1 t1)))).
  { eapply Forall_impl; [|exact Hnone]. intros ev [_ H]. exact H. }
  destruct (outcome (GatewayManager.delete_targets respond g _ _))
    as [[]|e|]; unfold events at 1; simpl;
    try (constructor; [reflexivity|exact Hquiet]).
  destruct (respond _ (DeleteGateway g)) as [[[u|e] st2] t2];
    unfold events at 1; simpl.
  - constructor; [reflexivity|]. apply Forall_app. split; [exact Hquiet|].
    constructor; [reflexivity|].
    match goal with |- context [GatewayManager._wait_for_gateway_deleted ?r ?a ?b ?c] =>
      pose proof (gateway_deleted_wait a b c) as Hwait end.
    cbv zeta in Hwait. destruct Hwait as (_ & Hw).
    eapply Forall_impl; [|exact Hw]. intros ev [_ H]. exact H.
  - constructor; [reflexivity|]. apply Forall_app. split; [exact Hquiet|].
    repeat constructor.
Qed.

(** A list splits in one way only at its one element of a kind. *)
Lemma split_at_only {A} (P : A -> Prop) (l1 : list A) :
  forall x l2 pre ev post,
    l1 ++ x :: l2 = pre ++ ev :: post ->
    Forall (fun y => ~ P y) l1 ->
    Forall (fun y => ~ P y) l2 ->
    P ev ->
    pre = l1 /\ ev = x /\ post = l2.
Proof.
  induction l1 as [|y l1 IH]; intros x l2 pre ev post Heq H1 H2 Hev.
  - destruct pre as [|z pre]; simpl in Heq.
    + inversion Heq. auto.
    + inversion Heq; subst. exfalso.
      rewrite Forall_forall in H2. apply (H2 ev); auto.
      apply in_or_app. right. left. reflexivity.
  - inversion H1 as [|? ? Hy H1']; subst.
    destruct pre as [|z pre]; simpl in Heq.
    + inversion Heq; subst. contradiction.
    + inversion Heq; subst.
      destruct (IH _ _ _ _ _ H3 H1' H2 Hev) as (-> & -> & ->). auto.
Qed.

(** C1. In every run of [delete_gateway], a delete call for a gateway
    is for the gateway being deleted and comes after the target listing
    and, for every target the listing returned, after an accepted
    delete call for that target and a later fetch of that target that
    came back "not found". *)
Theorem targets_before_gateway g w pre ev post g' :
  events (GatewayManager.delete_gateway respond g w) = pre ++ ev :: post ->
  parent_delete ev = Some g' ->
  g' = g /\
  exists listing targets rest,
    pre = listing :: rest /\
    listed_targets listing = Some (g, targets) /\
    forall t, In t targets -> target_gone g rest t.
Proof.
  rewrite delete_gateway_unfold.
  destruct (respond (remote w) (ListGatewayTargets g)) as [[[resp|e] st1] t1].
  - cbv zeta.
    pose proof (delete_targets_run g (get_default (targetSummaries resp) [])
                  (after_call w st1 t1)) as Hloop.
    cbv zeta in Hloop. destruct Hloop as (_ & Hnone & Hgone).
    set (loop := GatewayManager.delete_targets respond g
                   (get_default (targetSummaries resp) [])
                   (after_call w st1 t1)) in *.
    assert (Hquiet : Forall (fun y => ~ (parent_delete y <> None))
                       (Called (ListGatewayTargets g) (inl resp) t1 ::
                        events loop)).
    { constructor; [intros H; apply H; reflexivity|].
      eapply Forall_impl; [|exact Hnone]. intros y [Hy _] H. contradiction. }
    assert (Hstray : forall evs,
              evs = pre ++ ev :: post ->
              Forall (fun y => ~ (parent_delete y <> None)) evs ->
              parent_delete ev = Some g' -> False).
    { intros evs -> Hall Hev. rewrite Forall_forall in Hall.
      apply (Hall ev); [apply in_or_app; right; left; reflexivity|congruence]. }
    destruct (outcome loop) as [[]|e|] eqn:Hout.
    + assert (Hsplit : forall r t2 more,
                Forall (fun y => ~ (parent_delete y <> None)) more ->
                (Called (ListGatewayTargets g) (inl resp) t1 :: events loop) ++
                Called (DeleteGateway g) r t2 :: more = pre ++ ev :: post ->
                parent_delete ev = Some g' ->
                g' = g /\
                exists listing targets rest,
                  pre = listing :: rest /\
                  listed_targets listing = Some (g, targets) /\
                  forall t, In t targets -> target_gone g rest t).
      { intros r t2 more Hmore Heq Hev.
        destruct (split_at_only (fun y => parent_delete y <> None) _ _ _ _ _ _
                    Heq Hquiet Hmore ltac:(congruence)) as (-> & -> & ->).
        simpl in Hev. split; [congruence|].
        exists (Called (ListGatewayTargets g) (inl resp) t1),
          (get_default (targetSummaries resp) []), (events loop).
        repeat split. intros t Ht. apply Hgone; auto. }
      destruct (respond (remote (final loop)) (DeleteGateway g))
        as [[[u|e] st2] t2]; unfold events at 1; simpl; intros Heq Hev.
      * match type of Heq with
          context [GatewayManager._wait_for_gateway_deleted ?r ?a ?b ?c] =>
          pose proof (gateway_deleted_wait a b c) as Hwait end.
        cbv zeta in Hwait. destruct Hwait as (_ & Hw).
        apply (Hsplit _ _ _ (Forall_impl _
                 (fun y (H : parent_delete y = None /\ confirmation y = None)
                      (H' : parent_delete y <> None) => H' (proj1 H)) Hw)
                 Heq Hev).
      * apply (Hsplit _ _ [] (Forall_nil _) Heq Hev).
    + unfold events at 1; simpl. intros Heq Hev. exfalso.
      eapply Hstray; eauto.
    + unfold events at 1; simpl. intros Heq Hev. exfalso.
      eapply Hstray; eauto.
  - unfold events; simpl. intros Heq Hev. exfalso.
    destruct pre as [|z pre]; simpl in Heq.
    + inversion Heq; subst. discriminate.
    + inversion Heq. destruct pre; discriminate.
Qed.

(** C2 (amended). [delete_gateway] re-raises a "not found" error (as
    any other error) that the target listing raises, or that the
    gateway delete call raises after a listing without targets; the
    caller gets the exception, not a success.  "Not found" counts as
    success in the deletion wait only: when the listing returns no
    targets, the delete call is accepted and the first fetch of the
    gateway then raises "not found", [delete_gateway] returns
    [{'status': 'deleted'}]. *)
Theorem not_found_on_delete g w :
  (forall e st1 t1,
     respond (remote w) (ListGatewayTargets g) = (inr e, st1, t1) ->
     GatewayManager.delete_gateway respond g w =
       (Raised e, after_call w st1 t1,
        [Called (ListGatewayTargets g) (inr e) t1])) /\
  (forall resp st1 t1 e st2 t2,
     respond (remote w) (ListGatewayTargets g) = (inl resp, st1, t1) ->
     get_default (targetSummaries resp) [] = [] ->
     respond st1 (DeleteGateway g) = (inr e, st2, t2) ->
     outcome (GatewayManager.delete_gateway respond g w) = Raised e) /\
  (forall resp st1 t1 u st2 t2 e st3 t3,
     respond (remote w) (ListGatewayTargets g) = (inl resp, st1, t1) ->
     get_default (targetSummaries resp) [] = [] ->
     respond st1 (DeleteGateway g) = (inl u, st2, t2) ->
     respond st2 (GetGateway g) = (inr e, st3, t3) ->
     PyStr.contains "ResourceNotFound" (exc_msg e) = true ->
     outcome (GatewayManager.delete_gateway respond g w) =
       Ok {| GatewayManager.deletion_status := "deleted" |}).
Proof.
  split; [|split].
  - intros e st1 t1 Hlist. rewrite delete_gateway_unfold, Hlist. reflexivity.
  - intros resp st1 t1 e st2 t2 Hlist Hnone Hdel.
    rewrite delete_gateway_unfold, Hlist. cbv zeta. rewrite Hnone.
    simpl. unfold ret. simpl. rewrite Hdel. reflexivity.
  - intros resp st1 t1 u st2 t2 e st3 t3 Hlist Hnone Hdel Hget Hnf.
    rewrite delete_gateway_unfold, Hlist. cbv zeta. rewrite Hnone.
    simpl. unfold ret. simpl. rewrite Hdel. cbv zeta.
    change (final (Ok tt, after_call w st1 t1, @nil event))
      with (after_call w st1 t1).
    rewrite (gateway_deleted_at_once g 300
               (after_call (after_call w st1 t1) st2 t2) e st3 t3
               ltac:(lia) Hget Hnf).
    reflexivity.
Qed.

End Deletion.

(** * The gateway sweep *)

Section GatewaySweep.

Import Waiter WaiterFacts.

Context {St : Type}.
Variable respond : St -> forall c : call, reply c * St * N.

Lemma preceded_nil {A} (run : result A * world St * list event) :
  preceded [] run = run.
Proof. destruct run as [[r w] evs]. reflexivity. Qed.

Lemma outcome_preceded {A} evs (run : result A * world St * list event) :
  outcome (preceded evs run) = outcome run.
Proof. reflexivity. Qed.

Lemma events_preceded {A} evs (run : result A * world St * list event) :
  events (preceded evs run) = evs ++ events run.
Proof. reflexivity. Qed.

(** One gateway of the sweep, once it is known to be ours and its
    deletion confirmed or forced. *)
Lemma sweep_delete force id name rest results w :
  (deleted <- attempt (GatewayManager.delete_gateway respond id) ;;
   match deleted with
   | inl _ =>
       Cleanup.cleanup_gateways_loop respond force rest
         (results ++ [Cleanup.deleted_record id name])
   | inr e =>
       Cleanup.cleanup_gateways_loop respond force rest
         (results ++ [Cleanup.error_record id name e])
   end) w =
  let del := GatewayManager.delete_gateway respond id w in
  match outcome del with
  | Ok _ =>
      preceded (events del)
        (Cleanup.cleanup_gateways_loop respond force rest
           (results ++ [Cleanup.deleted_record id name]) (final del))
  | Raised e =>
      preceded (events del)
        (Cleanup.cleanup_gateways_loop respond force rest
           (results ++ [Cleanup.error_record id name e]) (final del))
  | OutOfFuel => (OutOfFuel, final del, events del)
  end.
Proof.
  unfold attempt, try_except, bind, ret. cbv zeta.
  destruct (GatewayManager.delete_gateway respond id w) as [[[d|e|] w1] evs1];
    unfold outcome, final, events, preceded; simpl; rewrite ?app_nil_r.
  - destruct (Cleanup.cleanup_gateways_loop respond force rest _ w1)
      as [[r2 w2] evs2]. reflexivity.
  - destruct (Cleanup.cleanup_gateways_loop respond force rest _ w1)
      as [[r2 w2] evs2]. reflexivity.
  - reflexivity.
Qed.

Lemma sweep_cons force gateway rest results w :
  Cleanup.cleanup_gateways_loop respond force (gateway :: rest) results w =
  let id := summary_gatewayId gateway in
  let name := get_default (summary_gatewayName gateway) "Unknown" in
  let delete w0 :=
    let del := GatewayManager.delete_gateway respond id w0 in
    match outcome del with
    | Ok _ =>
        preceded (events del)
          (Cleanup.cleanup_gateways_loop respond force rest
             (results ++ [Cleanup.deleted_record id name]) (final del))
    | Raised e =>
        preceded (events del)
          (Cleanup.cleanup_gateways_loop respond force rest
             (results ++ [Cleanup.error_record id name e]) (final del))
    | OutOfFuel => (OutOfFuel, final del, events del)
    end in
  if Cleanup.is_our_gateway name then
    if force then delete w
    else
      match respond (remote w) (Input (delete_prompt name id)) with
      | (inr e, st1, t1) =>
          (Ok (results, Some e), after_call w st1 t1,
           [Called (Input (delete_prompt name id)) (inr e) t1])
      | (inl line, st1, t1) =>
          preceded [Called (Input (delete_prompt name id)) (inl line) t1]
            (if Cleanup.is_yes line then delete (after_call w st1 t1)
             else Cleanup.cleanup_gateways_loop respond force rest results
                    (after_call w st1 t1))
      end
  else Cleanup.cleanup_gateways_loop respond force rest results w.
Proof.
  cbv zeta. simpl Cleanup.cleanup_gateways_loop.
  destruct (Cleanup.is_our_gateway _); [|reflexivity].
  destruct force.
  - unfold bind at 1. unfold attempt at 1, try_except, bind at 1, ret.
    cbn iota beta.
    rewrite <- (sweep_delete true). simpl. 
    match goal with |- match ?x with _ => _ end = _ =>
      destruct x as [[r w1] evs] end.
    reflexivity.
  - unfold bind at 1. unfold attempt at 1, try_except, bind at 1.
    unfold Cleanup._confirm_action, bind at 1, perform.
    change (("Delete gateway " +++
             get_default (summary_gatewayName gateway) "Unknown" +++
             " (" +++ summary_gatewayId gateway +++ ")?") +++ " (y/N): ")
      with (delete_prompt (get_default (summary_gatewayName gateway) "Unknown")
              (summary_gatewayId gateway)).
    destruct (respond (remote w) (Input _)) as [[[line|e] st1] t1].
    + unfold ret. cbn iota beta. fold (after_call w st1 t1).
      destruct (Cleanup.is_yes line).
      * rewrite <- (sweep_delete false).
        match goal with |- match ?x with _ => _ end = _ =>
          destruct x as [[r w1] evs] end.
        reflexivity.
      * destruct (Cleanup.cleanup_gateways_loop respond false rest results _)
          as [[r w1] evs]. reflexivity.
    + reflexivity.
Qed.

Lemma list_gateways_unfold w :
  GatewayManager.list_gateways respond w =
  match respond (remote w) ListGateways with
  | (inl resp, st1, t1) =>
      (Ok (get_default (gatewaySummaries resp) []), after_call w st1 t1,
       [Called ListGateways (inl resp) t1])
  | (inr e, st1, t1) =>
      (Raised e, after_call w st1 t1, [Called ListGateways (inr e) t1])
  end.
Proof.
  unfold GatewayManager.list_gateways, try_except, bind, perform, ret, raise.
  destruct (respond (remote w) ListGateways) as [[[resp|e] st1] t1];
    reflexivity.
Qed.

Lemma cleanup_gateways_unfold force w :
  Cleanup.cleanup_gateways respond force w =
  match respond (remote w) ListGateways with
  | (inl resp, st1, t1) =>
      let sweep :=
        Cleanup.cleanup_gateways_loop respond force
          (get_default (gatewaySummaries resp) []) [] (after_call w st1 t1) in
      (match outcome sweep with
       | Ok (results, None) => Ok results
       | Ok (results, Some e) =>
           if is_exception e then Ok (results ++ [Cleanup.list_error_record e])
           else Raised e
       | Raised e => Raised e
       | OutOfFuel => OutOfFuel
       end, final sweep, Called ListGateways (inl resp) t1 :: events sweep)
  | (inr e, st1, t1) =>
      (Ok [Cleanup.list_error_record e], after_call w st1 t1,
       [Called ListGateways (inr e) t1])
  end.
Proof.
  unfold Cleanup.cleanup_gateways. unfold bind at 1. unfold attempt.
  unfold try_except, bind at 1. rewrite list_gateways_unfold.
  destruct (respond (remote w) ListGateways) as [[[resp|e] st1] t1].
  - unfold ret at 1. cbn iota beta. unfold bind. cbv zeta.
    destruct (Cleanup.cleanup_gateways_loop respond force _ [] _)
      as [[[[results [e|]]|e|] w2] evs2];
      unfold ret, raise, outcome, final; cbn [fst snd];
      try destruct (is_exception e); simpl; rewrite ?app_nil_r; reflexivity.
  - reflexivity.
Qed.



Lemma sweep_record_later force evs before r :
  sweep_record force evs r -> sweep_record force (before ++ evs) r.
Proof.
  intros [Hstatus Hnamed]. split; [exact Hstatus|].
  intros id Hid. destruct (Hnamed id Hid) as (name & Hname & Hours & Hyes).
  exists name. repeat split; auto.
  intros Hforce. destruct (Hyes Hforce) as (line & took & Hin & Hline).
  exists line, took. split; [|exact Hline]. apply in_or_app. right. exact Hin.
Qed.

(** Every record the loop adds belongs to a gateway of ours whose
    deletion was confirmed or forced. *)
Lemma sweep_records force gateways : forall results w,
  exists added escaped,
    outcome (Cleanup.cleanup_gateways_loop respond force gateways results w) =
      Ok (results ++ added, escaped) /\
    Forall (sweep_record force
              (events (Cleanup.cleanup_gateways_loop respond force gateways
                         results w)))
           added.
Proof.
  induction gateways as [|gateway rest IH]; intros results w.
  - exists [], None. simpl. unfold ret, outcome. simpl. rewrite app_nil_r. auto.
  - rewrite sweep_cons. cbv zeta.
    set (id := summary_gatewayId gateway).
    set (name := get_default (summary_gatewayName gateway) "Unknown").
    destruct (Cleanup.is_our_gateway name) eqn:Hours; [|apply IH].
    assert (Hdelete : forall w0 before,
              (force = false ->
               exists line took,
                 In (Called (Input (delete_prompt name id)) (inl line) took)
                    before /\ Cleanup.is_yes line = true) ->
              let del := GatewayManager.delete_gateway respond id w0 in
              let run :=
                preceded before
                  match outcome del with
                  | Ok _ =>
                      preceded (events del)
                        (Cleanup.cleanup_gateways_loop respond force rest
                           (results ++ [Cleanup.deleted_record id name])
                           (final del))
                  | Raised e =>
                      preceded (events del)
                        (Cleanup.cleanup_gateways_loop respond force rest
                           (results ++ [Cleanup.error_record id name e])
                           (final del))
                  | OutOfFuel => (OutOfFuel, final del, events del)
                  end in
              exists added escaped,
                outcome run = Ok (results ++ added, escaped) /\
                Forall (sweep_record force (events run)) added).
    { intros w0 before Hyes. cbv zeta.
      pose proof (delete_gateway_fuel respond id w0) as Hfuel.
      assert (Hhead : forall r more,
                (Cleanup.rec_status r = "deleted" \/
                 Cleanup.rec_status r = "error") ->
                Cleanup.rec_gateway_id r = Some id ->
                Cleanup.rec_gateway_name r = Some name ->
                sweep_record force (before ++ more) r).
      { intros r more Hstatus Hid Hname. split; [exact Hstatus|].
        intros id' Hid'. assert (Hsame : id' = id) by congruence.
        rewrite Hsame. exists name. repeat split; auto.
        intros Hforce. destruct (Hyes Hforce) as (line & took & Hin & Hline).
        exists line, took. split; [|exact Hline].
        apply in_or_app. left. exact Hin. }
      destruct (outcome (GatewayManager.delete_gateway respond id w0))
        as [d|e|] eqn:Hout; [| |contradiction].
      - match goal with |- context [Cleanup.cleanup_gateways_loop _ _ _ ?rs ?w1] =>
          destruct (IH rs w1) as (added & escaped & Hok & Hall) end.
        exists (Cleanup.deleted_record id name :: added), escaped.
        rewrite !outcome_preceded, !events_preceded, Hok, <- app_assoc.
        split; [reflexivity|]. constructor.
        + apply Hhead; auto.
        + eapply Forall_impl; [|exact Hall]. intros r Hr.
          rewrite app_assoc. apply sweep_record_later. exact Hr.
      - match goal with |- context [Cleanup.cleanup_gateways_loop _ _ _ ?rs ?w1] =>
          destruct (IH rs w1) as (added & escaped & Hok & Hall) end.
        exists (Cleanup.error_record id name e :: added), escaped.
        rewrite !outcome_preceded, !events_preceded, Hok, <- app_assoc.
        split; [reflexivity|]. constructor.
        + apply Hhead; auto.
        + eapply Forall_impl; [|exact Hall]. intros r Hr.
          rewrite app_assoc. apply sweep_record_later. exact Hr. }
    destruct force eqn:Hforce.
    + specialize (Hdelete w [] ltac:(discriminate)). cbv zeta in Hdelete.
      rewrite preceded_nil in Hdelete. exact Hdelete.
    + destruct (respond (remote w) (Input (delete_prompt name id)))
        as [[[line|e] st1] t1].
      * destruct (Cleanup.is_yes line) eqn:Hline.
        -- apply Hdelete. intros _. exists line, t1. split; [left|]; auto.
        -- destruct (IH results (after_call w st1 t1))
             as (added & escaped & Hok & Hall).
           exists added, escaped. rewrite outcome_preceded, events_preceded.
           split; [exact Hok|].
           eapply Forall_impl; [|exact Hall]. intros r Hr.
           apply sweep_record_later. exact Hr.
      * exists [], (Some e). unfold outcome. simpl. rewrite app_nil_r. auto.
Qed.

(** An exception that the loop of the sweep hands back was raised by
    a prompt, the last call of the loop; a forced sweep hands back
    none. *)
Lemma sweep_escape force gateways : forall results w records e,
  outcome (Cleanup.cleanup_gateways_loop respond force gateways results w) =
    Ok (records, Some e) ->
  force = false /\
  exists pre prompt took,
    events (Cleanup.cleanup_gateways_loop respond force gateways results w) =
      pre ++ [Called (Input prompt) (inr e) took].
Proof.
  induction gateways as [|gateway rest IH]; intros results w records e.
  - discriminate.
  - rewrite sweep_cons. cbv zeta.
    set (id := summary_gatewayId gateway).
    set (name := get_default (summary_gatewayName gateway) "Unknown").
    assert (Hlater : forall evs results' w',
              outcome (preceded evs
                         (Cleanup.cleanup_gateways_loop respond force rest
                            results' w')) = Ok (records, Some e) ->
              force = false /\
              exists pre prompt took,
                events (preceded evs
                          (Cleanup.cleanup_gateways_loop respond force rest
                             results' w')) =
                  pre ++ [Called (Input prompt) (inr e) took]).
    { intros evs results' w'. rewrite outcome_preceded, events_preceded.
      intros Hout. destruct (IH _ _ _ _ Hout) as (Hforce & pre & prompt & took & ->).
      split; [exact Hforce|]. exists (evs ++ pre), prompt, took.
      rewrite app_assoc. reflexivity. }
    assert (Hdelete : forall evs w0,
              outcome (preceded evs
                 (let del := GatewayManager.delete_gateway respond id w0 in
                  match outcome del with
                  | Ok _ =>
                      preceded (events del)
                        (Cleanup.cleanup_gateways_loop respond force rest
                           (results ++ [Cleanup.deleted_record id name])
                           (final del))
                  | Raised e0 =>
                      preceded (events del)
                        (Cleanup.cleanup_gateways_loop respond force rest
                           (results ++ [Cleanup.error_record id name e0])
                           (final del))
                  | OutOfFuel => (OutOfFuel, final del, events del)
                  end)) = Ok (records, Some e) ->
              force = false /\
              exists pre prompt took,
                events (preceded evs
                 (let del := GatewayManager.delete_gateway respond id w0 in
                  match outcome del with
                  | Ok _ =>
                      preceded (events del)
                        (Cleanup.cleanup_gateways_loop respond force rest
                           (results ++ [Cleanup.deleted_record id name])
                           (final del))
                  | Raised e0 =>
                      preceded (events del)
                        (Cleanup.cleanup_gateways_loop respond force rest
                           (results ++ [Cleanup.error_record id name e0])
                           (final del))
                  | OutOfFuel => (OutOfFuel, final del, events del)
                  end)) = pre ++ [Called (Input prompt) (inr e) took]).
    { intros evs w0. cbv zeta. rewrite outcome_preceded, events_preceded.
      destruct (outcome (GatewayManager.delete_gateway respond id w0))
        as [r|e0|]; [| |discriminate]; intros Hout;
        destruct (Hlater _ _ _ Hout) as (Hforce & pre & prompt & took & Hevs);
        (split; [exact Hforce|]); exists (evs ++ pre), prompt, took;
        rewrite Hevs, app_assoc; reflexivity. }
    destruct (Cleanup.is_our_gateway name).
    + destruct force.
      * intros Hout. apply (Hdelete [] w). exact Hout.
      * destruct (respond (remote w) (Input (delete_prompt name id)))
          as [[[line|e0] st1] t1].
        -- destruct (Cleanup.is_yes line).
           ++ apply Hdelete.
           ++ apply Hlater.
        -- unfold outcome, events. simpl. intros Hout. inversion Hout; subst.
           split; [reflexivity|].
           exists [], (delete_prompt name id), t1. reflexivity.
    + intros Hout. apply (Hlater [] results w). exact Hout.
Qed.


End GatewaySweep.

(** * The object-store sweep *)

Section ObjectSweep.

Context {St : Type}.
Variable respond : St -> forall c : call, reply c * St * N.

Lemma deletes_listed_app evs1 evs2 :
  deletes_listed evs1 -> deletes_listed evs2 -> deletes_listed (evs1 ++ evs2).
Proof.
  intros H1 H2 ev b keys Hin Hdel. apply in_app_or in Hin.
  destruct Hin as [Hin|Hin].
  - destruct (H1 _ _ _ Hin Hdel) as (Hkeys & listing & Hl & Hobj).
    split; [exact Hkeys|]. exists listing. split; [|exact Hobj].
    apply in_or_app. left. exact Hl.
  - destruct (H2 _ _ _ Hin Hdel) as (Hkeys & listing & Hl & Hobj).
    split; [exact Hkeys|]. exists listing. split; [|exact Hobj].
    apply in_or_app. right. exact Hl.
Qed.

Lemma quiet_deletes evs :
  Forall (fun ev => batch_delete ev = None) evs -> deletes_listed evs.
Proof.
  intros Hall ev b keys Hin Hdel. rewrite Forall_forall in Hall.
  rewrite (Hall ev Hin) in Hdel. discriminate.
Qed.

Lemma cleanup_s3_data_unfold w :
  Cleanup.cleanup_s3_data respond w =
  match respond (remote w) ListBuckets with
  | (inl resp, st1, t1) =>
      preceded [Called ListBuckets (inl resp) t1]
        (Cleanup.cleanup_s3_loop respond (get_default (Buckets resp) []) []
           (after_call w st1 t1))
  | (inr e, st1, t1) =>
      (Ok [Cleanup.list_buckets_error_record e], after_call w st1 t1,
       [Called ListBuckets (inr e) t1])
  end.
Proof.
  unfold Cleanup.cleanup_s3_data, attempt, try_except, bind, perform, ret.
  destruct (respond (remote w) ListBuckets) as [[[resp|e] st1] t1];
    [|reflexivity].
  cbn iota beta. fold (after_call w st1 t1).
  destruct (Cleanup.cleanup_s3_loop respond _ [] (after_call w st1 t1))
    as [[r w2] evs2]. reflexivity.
Qed.

End ObjectSweep.

(** * Runs against the test doubles *)

Lemma within_sound bound evs :
  within bound evs = true -> forall ev, In ev evs -> latency ev <= bound.
Proof.
  unfold within. rewrite forallb_forall. intros Hall ev Hin.
  apply Z.leb_le. apply Hall. exact Hin.
Qed.

Lemma all_answered_sound evs :
  all_answered evs = true ->
  forall ev a, In ev evs -> fetch_result ev = Some a -> exists s, a = inl s.
Proof.
  unfold all_answered. rewrite forallb_forall. intros Hall ev a Hin Ha.
  specialize (Hall ev Hin). rewrite Ha in Hall.
  destruct a as [s|e]; [exists s; reflexivity|discriminate].
Qed.

Lemma polls_see_sound s evs :
  polls_see s evs = true ->
  forall ev g a, In ev evs -> gateway_poll ev = Some (g, a) -> a = inl (Some s).
Proof.
  unfold polls_see. rewrite forallb_forall. intros Hall ev g a Hin Hpoll.
  specialize (Hall ev Hin). rewrite Hpoll in Hall.
  destruct a as [[s'|]|e]; try discriminate.
  apply String.eqb_eq in Hall. congruence.
Qed.

Lemma polls_within_sound bound evs :
  polls_within bound evs = true ->
  forall ev, In ev evs -> is_gateway_poll ev = true -> latency ev <= bound.
Proof.
  unfold polls_within. rewrite forallb_forall. intros Hall ev Hin Hpoll.
  specialize (Hall ev Hin). rewrite Hpoll in Hall. simpl in Hall.
  apply Z.leb_le. exact Hall.
Qed.

(** C1 on the fleet: deleting [gw-1], which has two targets. *)
Lemma targets_before_gateway_witness :
  let run := GatewayManager.delete_gateway Plane.respond "gw-1"
               (at_start Plane.fleet) in
  exists pre ev post,
    events run = pre ++ ev :: post /\
    parent_delete ev = Some "gw-1" /\
    exists listing targets rest,
      pre = listing :: rest /\
      listed_targets listing = Some ("gw-1", targets) /\
      forall t, In t targets -> target_gone "gw-1" rest t.
Proof.
  cbv zeta.
  exists (firstn 5 (events (GatewayManager.delete_gateway Plane.respond "gw-1"
                              (at_start Plane.fleet)))),
    (Called (DeleteGateway "gw-1") (inl tt) 0),
    [Called (GetGateway "gw-1")
       (inr (client_error "ResourceNotFoundException" "GetGateway")) 0].
  assert (Hsplit :
            events (GatewayManager.delete_gateway Plane.respond "gw-1"
                      (at_start Plane.fleet)) =
            firstn 5 (events (GatewayManager.delete_gateway Plane.respond "gw-1"
                                (at_start Plane.fleet))) ++
            Called (DeleteGateway "gw-1") (inl tt) 0 ::
            [Called (GetGateway "gw-1")
               (inr (client_error "ResourceNotFoundException" "GetGateway")) 0])
    by (vm_compute; reflexivity).
  split; [exact Hsplit|]. split; [reflexivity|].
  exact (proj2 (targets_before_gateway Plane.respond "gw-1"
                  (at_start Plane.fleet) _ _ _ "gw-1" Hsplit eq_refl)).
Defined.

(** C2, as stated, fails on the fleet: [gw-2] has no targets and is
    deleted by a first call; every later read of it comes back "not
    found"; the second call raises. *)
Lemma second_delete_raises :
  let first := GatewayManager.delete_gateway Plane.respond "gw-2"
                 (at_start Plane.fleet) in
  let second := GatewayManager.delete_gateway Plane.respond "gw-2"
                  (final first) in
  outcome first = Ok {| GatewayManager.deletion_status := "deleted" |} /\
  fst (fst (Plane.respond (remote (final first)) (GetGateway "gw-2"))) =
    inr (client_error "ResourceNotFoundException" "GetGateway") /\
  fst (fst (Plane.respond (remote (final first)) (ListGatewayTargets "gw-2"))) =
    inr (client_error "ResourceNotFoundException" "ListGatewayTargets") /\
  outcome second =
    Raised (client_error "ResourceNotFoundException" "ListGatewayTargets") /\
  PyStr.contains "ResourceNotFound"
    (exc_msg (client_error "ResourceNotFoundException" "ListGatewayTargets"))
    = true.
Proof. vm_compute. repeat split. Qed.

(** C2 (amended) on the fleet: the second delete of [gw-2], the delete
    of the locked [gw-4], and the first delete of [gw-2]. *)
Lemma not_found_on_delete_witness :
  let first := GatewayManager.delete_gateway Plane.respond "gw-2"
                 (at_start Plane.fleet) in
  outcome (GatewayManager.delete_gateway Plane.respond "gw-2" (final first)) =
    Raised (client_error "ResourceNotFoundException" "ListGatewayTargets") /\
  outcome (GatewayManager.delete_gateway Plane.respond "gw-4"
             (at_start Plane.fleet)) =
    Raised (client_error "AccessDeniedException" "DeleteGateway") /\
  outcome first = Ok {| GatewayManager.deletion_status := "deleted" |}.
Proof.
  cbv zeta. split; [|split].
  - rewrite (proj1 (not_found_on_delete Plane.respond "gw-2"
                      (final (GatewayManager.delete_gateway Plane.respond "gw-2"
                                (at_start Plane.fleet))))
               (client_error "ResourceNotFoundException" "ListGatewayTargets")
               (remote (final (GatewayManager.delete_gateway Plane.respond "gw-2"
                                 (at_start Plane.fleet))))
               0%N ltac:(vm_compute; reflexivity)).
    reflexivity.
  - exact (proj1 (proj2 (not_found_on_delete Plane.respond "gw-4"
                           (at_start Plane.fleet)))
             {| targetSummaries := Some [] |} Plane.fleet 0%N
             (client_error "AccessDeniedException" "DeleteGateway")
             Plane.fleet 0%N
             ltac:(vm_compute; reflexivity) eq_refl
             ltac:(vm_compute; reflexivity)).
  - exact (proj2 (proj2 (not_found_on_delete Plane.respond "gw-2"
                           (at_start Plane.fleet)))
             {| targetSummaries := Some [] |} Plane.fleet 0%N tt
             (Plane.set_gateways Plane.fleet
                (Plane.without_gateway "gw-2" (Plane.gateways Plane.fleet)))
             0%N
             (client_error "ResourceNotFoundException" "GetGateway")
             (Plane.set_gateways Plane.fleet
                (Plane.without_gateway "gw-2" (Plane.gateways Plane.fleet)))
             0%N
             ltac:(vm_compute; reflexivity) eq_refl
             ltac:(vm_compute; reflexivity) ltac:(vm_compute; reflexivity)
             ltac:(vm_compute; reflexivity)).
Defined.

(** C3, as stated, fails on a control plane whose first status fetch
    sees [ACTIVE]: the status of the returned dict is ["created"], not
    [ACTIVE], and the issuer sent is none of the values of the config. *)
Lemma created_status_is_not_active :
  let config := Scripted.demo_config in
  let run := GatewayManager.create_gateway (Scripted.respond Scripted.steady)
               config (at_start [inl (Some "ACTIVE")]) in
  (exists ev, In ev (events run) /\
              gateway_poll ev = Some ("gw-1", inl (Some "ACTIVE"))) /\
  In (Scripted.create_event Scripted.steady) (events run) /\
  exists handle,
    outcome run = Ok handle /\
    GatewayManager.status handle = "created" /\
    GatewayManager.status handle <> "ACTIVE" /\
    let sent :=
      issuer (customJwt (req_authorizerConfiguration
                (GatewayManager.create_gateway_kwargs config "123456789012"))) in
    sent = "https://cognito-idp.us-west-2.amazonaws.com/us-west-2_AbCdEf123" /\
    ~ In sent [GatewayManager.gateway_name config;
               GatewayManager.description config;
               GatewayManager.cognito_user_pool_id config;
               GatewayManager.cognito_client_id config;
               GatewayManager.cognito_domain config;
               GatewayManager.lambda_function_arn config;
               GatewayManager.region config].
Proof.
  cbv zeta. split; [|split].
  - eexists. split; [right; right; left; reflexivity|reflexivity].
  - right. left. reflexivity.
  - eexists. split; [reflexivity|]. split; [reflexivity|].
    split; [discriminate|]. split; [reflexivity|].
    simpl. intros [H|[H|[H|[H|[H|[H|[H|[]]]]]]]]; discriminate.
Qed.

(** C3 (amended) on a control plane that answers [CREATING], then "not
    found", then [ACTIVE]. *)
Lemma create_gateway_active_witness :
  let run := GatewayManager.create_gateway (Scripted.respond Scripted.steady)
               Scripted.demo_config
               (at_start [inl (Some "CREATING"); inr Scripted.not_found;
                          inl (Some "ACTIVE")]) in
  exists account resp took,
    let req := GatewayManager.create_gateway_kwargs Scripted.demo_config account in
    outcome run =
      Ok {| GatewayManager.gateway_id := "gw-1";
            GatewayManager.gateway_arn := gatewayArn resp;
            GatewayManager.gateway_url := gatewayUrl resp;
            GatewayManager.status := "created" |} /\
    In (Called (CreateGateway req) (inl resp) took) (events run) /\
    gatewayId resp = "gw-1" /\
    issuer (customJwt (req_authorizerConfiguration req)) =
      "https://cognito-idp." +++ "us-west-2" +++
      ".amazonaws.com/" +++ "us-west-2_AbCdEf123" /\
    audience (customJwt (req_authorizerConfiguration req)) =
      ["4example23kclient"].
Proof.
  cbv zeta.
  apply (create_gateway_active (Scripted.respond Scripted.steady)
           Scripted.demo_config
           (at_start [inl (Some "CREATING"); inr Scripted.not_found;
                      inl (Some "ACTIVE")])
           (Called (GetGateway "gw-1")
              (inl {| gatewayStatus := Some "ACTIVE" |}) 200) "gw-1").
  - vm_compute. do 6 right. left. reflexivity.
  - reflexivity.
Defined.

(** C4, the code at the failing input.  The control plane assigns the
    id [ResourceNotFound-gw]; the first status fetch sees [FAILED].
    The exception raised for it mentions the id, so the handler of the
    same [try] takes it for a "not found" error: the wait sleeps five
    seconds and fetches again, sees [ACTIVE], and [create_gateway]
    returns normally after two status fetches. *)
Theorem failed_status_swallowed :
  let run := GatewayManager.create_gateway (Scripted.respond Scripted.unlucky)
               Scripted.demo_config
               (at_start [inl (Some "FAILED"); inl (Some "ACTIVE")]) in
  skipn 2 (events run) =
    [Called (GetGateway "ResourceNotFound-gw")
       (inl {| gatewayStatus := Some "FAILED" |}) 150;
     Slept 5;
     Called (GetGateway "ResourceNotFound-gw")
       (inl {| gatewayStatus := Some "ACTIVE" |}) 150] /\
  gateway_polls (events run) = 2%nat /\
  outcome run =
    Ok {| GatewayManager.gateway_id := "ResourceNotFound-gw";
          GatewayManager.gateway_arn :=
            "arn:aws:bedrock-agentcore:us-west-2:123456789012:gateway/ResourceNotFound-gw";
          GatewayManager.gateway_url := None;
          GatewayManager.status := "created" |} /\
  outcome run <> Raised (gateway_failed "ResourceNotFound-gw") /\
  PyStr.contains "ResourceNotFound"
    (exc_msg (gateway_failed "ResourceNotFound-gw")) = true.
Proof.
  cbv zeta. split; [vm_compute; reflexivity|].
  split; [vm_compute; reflexivity|]. split; [vm_compute; reflexivity|].
  split; [vm_compute; discriminate|vm_compute; reflexivity].
Qed.

(** The same script with an id that does not mention
    [ResourceNotFound]: one status fetch, then the activation failure. *)
Lemma failed_status_raises :
  let run := GatewayManager.create_gateway (Scripted.respond Scripted.steady)
               Scripted.demo_config
               (at_start [inl (Some "FAILED"); inl (Some "ACTIVE")]) in
  outcome run = Raised (gateway_failed "gw-1") /\
  gateway_polls (events run) = 1%nat.
Proof.
  cbv zeta.
  assert (Hsplit :
    events (GatewayManager.create_gateway (Scripted.respond Scripted.steady)
              Scripted.demo_config
              (at_start [inl (Some "FAILED"); inl (Some "ACTIVE")])) =
    [Called GetCallerIdentity (inl {| Account := "123456789012" |}) 0;
     Scripted.create_event Scripted.steady] ++
    Called (GetGateway "gw-1") (inl {| gatewayStatus := Some "FAILED" |}) 200
    :: []) by (vm_compute; reflexivity).
  split.
  - exact (proj1 (create_gateway_failed (Scripted.respond Scripted.steady)
                   Scripted.demo_config _ _ _ _ "gw-1" Hsplit eq_refl
                   ltac:(vm_compute; reflexivity))).
  - vm_compute. reflexivity.
Qed.

(** C5, as stated, fails on a control plane whose status fetches take
    two seconds each: the wait times out after 25 status fetches. *)
Lemma slow_fetches_fewer_polls :
  let run := GatewayManager.create_gateway (Scripted.respond Scripted.slow)
               Scripted.demo_config (at_start []) in
  In (Scripted.create_event Scripted.slow) (events run) /\
  polls_see "CREATING" (events run) = true /\
  outcome run = Raised (gateway_timeout "gw-1" 300) /\
  gateway_polls (events run) = 25%nat /\
  ~ (Z.to_nat ((300 + 10 - 1) / 10) - 1 <= gateway_polls (events run)
     <= Z.to_nat ((300 + 10 - 1) / 10) + 1)%nat.
Proof.
  cbv zeta. split; [vm_compute; right; left; reflexivity|].
  split; [vm_compute; reflexivity|]. split; [vm_compute; reflexivity|].
  split; [vm_compute; reflexivity|].
  replace (gateway_polls _) with 25%nat by (vm_compute; reflexivity).
  replace (Z.to_nat ((300 + 10 - 1) / 10)) with 30%nat by (vm_compute; reflexivity).
  lia.
Qed.

(** C5 (amended) on a control plane whose status fetches take 200 ms. *)
Lemma create_gateway_never_active_witness :
  let run := GatewayManager.create_gateway (Scripted.respond Scripted.steady)
               Scripted.demo_config (at_start []) in
  outcome run = Raised (gateway_timeout "gw-1" 300) /\
  gateway_polls (events run) = 30%nat.
Proof.
  cbv zeta.
  assert (Hsee : polls_see "CREATING"
                   (events (GatewayManager.create_gateway
                              (Scripted.respond Scripted.steady)
                              Scripted.demo_config (at_start []))) = true)
    by (vm_compute; reflexivity).
  pose proof (create_gateway_never_active (Scripted.respond Scripted.steady)
                Scripted.demo_config (at_start [])
                (Scripted.create_event Scripted.steady)
                (GatewayManager.create_gateway_kwargs Scripted.demo_config
                   "123456789012") "gw-1"
                ltac:(vm_compute; right; left; reflexivity)
                eq_refl
                (polls_see_sound "CREATING" _ Hsee))
    as (Htimeout & _ & Hexact & _).
  split; [exact Htimeout|].
  apply Hexact. apply polls_within_sound. vm_compute. reflexivity.
Defined.


(** C7 on a control plane whose first answer is "not found": the wait
    for [gw-1] sleeps five seconds, fetches again, sees [ACTIVE] and
    returns. *)
Lemma not_found_is_retried_witness :
  let wait := _wait_for_active (Scripted.respond Scripted.steady)
                (OnGateway "gw-1") 300
                (at_start [inr Scripted.not_found; inl (Some "ACTIVE")]) in
  let ev := Called (GetGateway "gw-1") (inr Scripted.not_found) 200 in
  outcome wait = Ok tt /\
  ((skipn 1 (events wait) = [Slept 5] /\
    outcome wait = Raised (gateway_timeout "gw-1" 300) /\
    300 * ms_per_second <= spent ([] ++ [ev; Slept 5])) \/
   (exists r took post',
      skipn 1 (events wait) = Slept 5 :: Called (GetGateway "gw-1") r took :: post' /\
      spent ([] ++ [ev; Slept 5]) < 300 * ms_per_second)).
Proof.
  cbv zeta. split; [vm_compute; reflexivity|].
  assert (Hsplit :
            events (_wait_for_active (Scripted.respond Scripted.steady)
                      (OnGateway "gw-1") 300
                      (at_start [inr Scripted.not_found; inl (Some "ACTIVE")])) =
            [] ++ Called (GetGateway "gw-1") (inr Scripted.not_found) 200 ::
            skipn 1 (events (_wait_for_active (Scripted.respond Scripted.steady)
                               (OnGateway "gw-1") 300
                               (at_start [inr Scripted.not_found;
                                          inl (Some "ACTIVE")]))))
    by (vm_compute; reflexivity).
  exact (proj1 (not_found_is_retried (Scripted.respond Scripted.steady)
                  (OnGateway "gw-1") 300
                  (at_start [inr Scripted.not_found; inl (Some "ACTIVE")])
                  _ _ _ Scripted.not_found Hsplit eq_refl
                  ltac:(vm_compute; reflexivity))).
Defined.

(** C8 on the fleet, not forced: the prompt for [gw-1] is declined and
    the one for [gw-3] accepted; [gw-2] and [gw-4] fail the filter.  The
    report has the one record of [gw-3]. *)
Lemma declined_gateway_leaves_no_record :
  let run := Cleanup.cleanup_gateways Plane.respond false
               (at_start Plane.fleet) in
  exists record,
    outcome run = Ok [record] /\
    Cleanup.rec_gateway_id record = Some "gw-3" /\
    Cleanup.rec_status record = "error" /\
    map confirmation (firstn 3 (events run)) =
      [None;
       Some (delete_prompt "mcp-demo-gateway" "gw-1", "n");
       Some (delete_prompt "Bedrock-Tools" "gw-3", " Yes ")].
Proof. cbv zeta. eexists. vm_compute. repeat split. Qed.

(** C10 on a wait for a target that sees [UPDATING], then a response
    without status, then [ACTIVE]: after the second fetch the wait
    sleeps ten seconds and fetches again; it ends on the fetch that
    sees [ACTIVE]. *)
Lemma other_status_is_pending_witness :
  let x := OnTarget "gw-1" "t-1" in
  let wait := _wait_for_active (Scripted.respond Scripted.steady) x 300
                (at_start [inl (Some "UPDATING"); inl None;
                           inl (Some "ACTIVE")]) in
  let ev := Called (fetch_of x) (inl {| targetStatus := None |}) 200 in
  ((skipn 3 (events wait) = [Slept 10] /\
    outcome wait = Raised (timeout_of x 300) /\
    300 * ms_per_second <= spent (firstn 2 (events wait) ++ [ev; Slept 10])) \/
   (exists r took post',
      skipn 3 (events wait) = Slept 10 :: Called (fetch_of x) r took :: post' /\
      spent (firstn 2 (events wait) ++ [ev; Slept 10]) < 300 * ms_per_second)) /\
  ((outcome wait = Ok tt /\
    exists pre' last,
      events wait = pre' ++ [last] /\
      fetch_result last = Some (inl (Some "ACTIVE"))) \/
   (outcome wait = Raised (failed_of x) /\
    exists pre' last,
      events wait = pre' ++ [last] /\
      fetch_result last = Some (inl (Some "FAILED"))) \/
   outcome wait = Raised (timeout_of x 300)).
Proof.
  cbv zeta.
  assert (Hsplit :
            events (_wait_for_active (Scripted.respond Scripted.steady)
                      (OnTarget "gw-1" "t-1") 300
                      (at_start [inl (Some "UPDATING"); inl None;
                                 inl (Some "ACTIVE")])) =
            firstn 2 (events (_wait_for_active (Scripted.respond Scripted.steady)
                                (OnTarget "gw-1" "t-1") 300
                                (at_start [inl (Some "UPDATING"); inl None;
                                           inl (Some "ACTIVE")]))) ++
            Called (fetch_of (OnTarget "gw-1" "t-1"))
              (inl {| targetStatus := None |}) 200 ::
            skipn 3 (events (_wait_for_active (Scripted.respond Scripted.steady)
                               (OnTarget "gw-1" "t-1") 300
                               (at_start [inl (Some "UPDATING"); inl None;
                                          inl (Some "ACTIVE")]))))
    by (vm_compute; reflexivity).
  assert (Hans : all_answered
                   (events (_wait_for_active (Scripted.respond Scripted.steady)
                              (OnTarget "gw-1" "t-1") 300
                              (at_start [inl (Some "UPDATING"); inl None;
                                         inl (Some "ACTIVE")]))) = true)
    by (vm_compute; reflexivity).
  destruct (other_status_is_pending (Scripted.respond Scripted.steady)
              (OnTarget "gw-1" "t-1") 300
              (at_start [inl (Some "UPDATING"); inl None; inl (Some "ACTIVE")])
              _ _ _ None Hsplit eq_refl
              ltac:(discriminate) ltac:(discriminate)) as [Hnext Hends].
  split; [exact Hnext|].
  exact (Hends (all_answered_sound _ Hans)).
Defined.

(** * How long a wait lasts *)

Section Durations.

Import Waiter WaiterFacts.

Context {St : Type}.
Variable respond : St -> forall c : call, reply c * St * N.
Variable c : call.
Variable status_of : response_of c -> option string.
Variable timeout : exn.
Variable body : M St flow.
Variable v : option string + exn -> verdict.
Hypothesis unfold_loop : forall fuel max_wait start_time w,
  loop timeout body (S fuel) max_wait start_time w =
  pass respond c status_of timeout v fuel max_wait start_time body w.
Hypothesis v_again : forall a secs, v a = Again secs -> secs = 5 \/ secs = 10.

(** A pass starts inside the budget, so the wait is over at most one
    fetch and one sleep after the budget. *)
Lemma loop_duration fuel : forall max_wait start_time w bound,
  Forall (fun ev => latency ev <= bound)
         (events (loop timeout body fuel max_wait start_time w)) ->
  clock w - start_time <= max_wait * ms_per_second + bound + 10 * ms_per_second ->
  clock (final (loop timeout body fuel max_wait start_time w)) - start_time
    <= max_wait * ms_per_second + bound + 10 * ms_per_second.
Proof.
  induction fuel as [|fuel IH]; intros max_wait start_time w bound.
  - intros _ H. exact H.
  - rewrite unfold_loop. unfold pass.
    destruct (clock w - start_time <? max_wait * ms_per_second) eqn:Hbudget;
      [|intros _ H; exact H].
    apply Z.ltb_lt in Hbudget.
    destruct (respond (remote w) c) as [[r st'] took].
    destruct (v (fetched status_of r)) as [res|secs] eqn:Hv.
    + unfold events, final. simpl. intros Hlat _.
      inversion Hlat as [|x l Hx Hl]; subst. simpl in Hx.
      unfold ms_per_second in *. lia.
    + specialize (IH max_wait start_time
                     (after_sleep (after_call w st' took) secs) bound).
      destruct (loop timeout body fuel max_wait start_time
                  (after_sleep (after_call w st' took) secs))
        as [[res w'] evs].
      unfold events, final in *. simpl in *. intros Hlat _.
      inversion Hlat as [|x l Hx Hl]; subst.
      inversion Hl as [|y l' Hy Hl']; subst. simpl in Hx.
      apply IH; [exact Hl'|].
      apply v_again in Hv. unfold ms_per_second in *. lia.
Qed.

End Durations.

Section WaitDurations.

Import Waiter WaiterFacts.

Context {St : Type}.
Variable respond : St -> forall c : call, reply c * St * N.

(** X1. An activation wait, on a gateway or on a target, is over at
    most [max_wait] seconds, one fetch and one ten-second sleep after
    it started, whatever the control plane answers. *)
Theorem activation_wait_duration (x : waited) max_wait w bound :
  0 <= max_wait ->
  0 <= bound ->
  (forall ev, In ev (events (_wait_for_active respond x max_wait w)) ->
              latency ev <= bound) ->
  clock (final (_wait_for_active respond x max_wait w)) - clock w
    <= max_wait * ms_per_second + bound + 10 * ms_per_second.
Proof.
  intros Hwait Hbound Hlat. revert Hlat. rewrite active_wait_shape. intros Hlat.
  eapply loop_duration.
  - apply active_unfold.
  - apply active_verdict_again.
  - rewrite Forall_forall. exact Hlat.
  - unfold ms_per_second. lia.
Qed.

Lemma deleted_unfold_status c status_of timeout :
  forall fuel mw st w,
    loop timeout (deleted_body respond c) (S fuel) mw st w =
    pass respond c status_of timeout deleted_verdict fuel mw st
      (deleted_body respond c) w.
Proof. intros. apply deleted_loop_unfold. Qed.

Lemma deleted_wait_shape x max_wait w :
  _wait_for_deleted respond x max_wait w =
  loop (undeleted_of x max_wait) (deleted_body respond (fetch_of x))
    (wait_fuel max_wait) max_wait (clock w) w.
Proof.
  destruct x as [g|g t]; [apply gateway_deleted_shape|apply target_deleted_shape].
Qed.

(** X2. A deletion wait, on a gateway or on a target, is over at most
    [max_wait] seconds, one fetch and one ten-second sleep after it
    started. *)
Theorem deletion_wait_duration (x : waited) max_wait w bound :
  0 <= max_wait ->
  0 <= bound ->
  (forall ev, In ev (events (_wait_for_deleted respond x max_wait w)) ->
              latency ev <= bound) ->
  clock (final (_wait_for_deleted respond x max_wait w)) - clock w
    <= max_wait * ms_per_second + bound + 10 * ms_per_second.
Proof.
  intros Hwait Hbound. rewrite deleted_wait_shape. intros Hlat.
  eapply loop_duration.
  - apply (deleted_unfold_status (fetch_of x) (status_field x)).
  - apply deleted_verdict_again.
  - rewrite Forall_forall. exact Hlat.
  - unfold ms_per_second. lia.
Qed.

(** X3. A deletion wait never reports success while the resource is
    still there: when every fetch of the wait comes back with a
    response, the wait raises its [TimeoutError], after at most
    ceil(max_wait / 10) fetches. *)
Theorem deletion_wait_times_out (x : waited) max_wait w :
  0 <= max_wait ->
  (forall ev a,
     In ev (events (_wait_for_deleted respond x max_wait w)) ->
     fetch_result ev = Some a -> exists s, a = inl s) ->
  outcome (_wait_for_deleted respond x max_wait w) =
    Raised (undeleted_of x max_wait) /\
  Z.of_nat (status_fetches (events (_wait_for_deleted respond x max_wait w)))
    <= (max_wait + 9) / 10.
Proof.
  intros Hwait. rewrite deleted_wait_shape. intros Hthere.
  assert (Hpend : Forall (fun ev => forall a, fetch_result ev = Some a ->
                            deleted_verdict a = Again 10)
                    (events (loop (undeleted_of x max_wait)
                               (deleted_body respond (fetch_of x))
                               (wait_fuel max_wait) max_wait (clock w) w))).
  { rewrite Forall_forall. intros ev Hin a Ha.
    destruct (Hthere ev a Hin Ha) as [s ->]. reflexivity. }
  split.
  - eapply loop_pending_timeout with (poll := fetch_result).
    + apply (deleted_unfold_status (fetch_of x) (status_field x)).
    + apply GatewayFacts.fetch_result_called.
    + apply wait_fuel_suffices.
    + exact Hpend.
  - unfold status_fetches.
    eapply loop_pending_at_most with (poll := fetch_result).
    + apply (deleted_unfold_status (fetch_of x) (status_field x)).
    + apply GatewayFacts.fetch_result_called.
    + reflexivity.
    + apply Z.div_pos; lia.
    + pose proof (Z.div_mod (max_wait + 9) 10 ltac:(lia)).
      pose proof (Z.mod_pos_bound (max_wait + 9) 10 ltac:(lia)).
      unfold ms_per_second. lia.
    + exact Hpend.
Qed.

End WaitDurations.

(** * More on deleting and creating a gateway *)

(** The element a list is split at is in the list. *)
Ltac member Heq :=
  match type of Heq with
  | _ = ?pre ++ ?ev :: ?post =>
      let Hin := fresh "Hin" in
      assert (Hin : In ev (pre ++ ev :: post))
        by (apply in_or_app; right; left; reflexivity);
      rewrite <- Heq in Hin; exact Hin
  end.

Section Lifecycle.

Import Waiter WaiterFacts.

Context {St : Type}.
Variable respond : St -> forall c : call, reply c * St * N.

(** A deletion wait that returns ends on a fetch that came back "not
    found". *)
Lemma gateway_deleted_returns g max_wait w :
  outcome (GatewayManager._wait_for_gateway_deleted respond g max_wait w) = Ok tt ->
  exists pre last e,
    events (GatewayManager._wait_for_gateway_deleted respond g max_wait w) =
      pre ++ [last] /\
    gateway_poll last = Some (g, inr e) /\
    PyStr.contains "ResourceNotFound" (exc_msg e) = true.
Proof.
  rewrite gateway_deleted_shape. intros Hok.
  pose proof (loop_end respond (GetGateway g) (fun _ => None)
                (gateway_undeleted g max_wait) _ _
                (deleted_unfold respond (GetGateway g) (gateway_undeleted g max_wait))
                (wait_fuel max_wait) max_wait (clock w) w) as Hend.
  cbv zeta in Hend. rewrite Hok in Hend.
  destruct Hend as [Hend|[Hend|(pre & r & took & Hevs & Hv)]]; try discriminate.
  destruct r as [resp|e]; simpl in Hv; [discriminate|].
  exists pre, (Called (GetGateway g) (inr e) took), e.
  split; [exact Hevs|]. split; [reflexivity|].
  destruct (PyStr.contains "ResourceNotFound" (exc_msg e));
    [reflexivity|discriminate].
Qed.

(** X4. [delete_gateway] returns only [{'status': 'deleted'}], and only
    after the delete call for the gateway was accepted and a later
    fetch of the gateway came back "not found"; that fetch is its last
    call. *)
Theorem delete_gateway_returns g w r :
  outcome (GatewayManager.delete_gateway respond g w) = Ok r ->
  r = {| GatewayManager.deletion_status := "deleted" |} /\
  exists before u took fetches last e,
    events (GatewayManager.delete_gateway respond g w) =
      before ++ Called (DeleteGateway g) (inl u) took :: fetches ++ [last] /\
    gateway_poll last = Some (g, inr e) /\
    PyStr.contains "ResourceNotFound" (exc_msg e) = true.
Proof.
  rewrite delete_gateway_unfold.
  destruct (respond (remote w) (ListGatewayTargets g)) as [[[resp|e] st1] t1];
    [|discriminate].
  cbv zeta.
  destruct (outcome (GatewayManager.delete_targets respond g _ _))
    as [[]|e|]; try discriminate.
  destruct (respond _ (DeleteGateway g)) as [[[u|e] st2] t2]; [|discriminate].
  cbv zeta. unfold outcome at 1, events at 1. simpl fst. simpl snd.
  match goal with |- context [GatewayManager._wait_for_gateway_deleted ?a ?b ?c ?d] =>
    pose proof (gateway_deleted_returns b c d) as Hwait;
    destruct (outcome (GatewayManager._wait_for_gateway_deleted a b c d))
      as [[]|e|]; try discriminate end.
  intros Hok. inversion Hok; subst r. split; [reflexivity|].
  destruct (Hwait eq_refl) as (pre & last & e & Hevs & Hpoll & Hnf).
  eexists (_ :: _), u, t2, pre, last, e.
  rewrite Hevs. split; [reflexivity|]. auto.
Qed.

(** A list that starts with elements not of a kind splits at an element
    of the kind after them. *)
Lemma split_past {A} (P : A -> Prop) (l1 : list A) :
  forall l2 pre ev post,
    l1 ++ l2 = pre ++ ev :: post ->
    Forall (fun y => ~ P y) l1 ->
    P ev ->
    exists pre', pre = l1 ++ pre' /\ l2 = pre' ++ ev :: post.
Proof.
  induction l1 as [|y l1 IH]; intros l2 pre ev post Heq Hall Hev.
  - exists pre. auto.
  - inversion Hall as [|? ? Hy Hall']; subst.
    destruct pre as [|z pre]; simpl in Heq.
    + inversion Heq; subst. contradiction.
    + inversion Heq; subst.
      destruct (IH _ _ _ _ H1 Hall' Hev) as (pre' & -> & ->).
      exists pre'. auto.
Qed.

Lemma target_wait_quiet g t max_wait w :
  Forall (fun ev => refused ev = None /\ forall g', touched ev = Some g' -> g' = g)
         (events (GatewayManager._wait_for_target_deleted respond g t max_wait w)).
Proof.
  rewrite target_deleted_shape.
  eapply loop_events.
  - apply (deleted_unfold respond (GetGatewayTarget g t)).
  - intros r took. split; [destruct r; reflexivity|discriminate].
  - intros secs. split; [reflexivity|discriminate].
Qed.

Lemma gateway_wait_quiet g max_wait w :
  Forall (fun ev => refused ev = None /\ forall g', touched ev = Some g' -> g' = g)
         (events (GatewayManager._wait_for_gateway_deleted respond g max_wait w)).
Proof.
  rewrite gateway_deleted_shape.
  eapply loop_events.
  - apply (deleted_unfold respond (GetGateway g)).
  - intros r took. split; [destruct r; reflexivity|discriminate].
  - intros secs. split; [reflexivity|discriminate].
Qed.

(** In the loop over the targets, a delete call that raises is the last
    call, and the calls that change something are for the gateway at
    hand. *)
Lemma delete_targets_refused g targets : forall w,
  let run := GatewayManager.delete_targets respond g targets w in
  (forall pre ev post e,
     events run = pre ++ ev :: post -> refused ev = Some e ->
     post = [] /\ outcome run = Raised e) /\
  Forall (fun ev => forall g', touched ev = Some g' -> g' = g) (events run).
Proof.
  induction targets as [|target rest IH]; intros w; cbv zeta.
  - simpl. unfold ret, events. simpl. split; [|constructor].
    intros pre ev post e Heq. destruct pre; discriminate.
  - rewrite delete_targets_cons.
    destruct (respond (remote w) (DeleteGatewayTarget g (targetId target)))
      as [[[u|e0] st1] t1].
    + cbv zeta.
      pose proof (target_wait_quiet g (targetId target) 300
                    (after_call w st1 t1)) as Hquiet.
      set (wait := GatewayManager._wait_for_target_deleted respond g
                     (targetId target) 300 (after_call w st1 t1)) in *.
      assert (Hsilent : Forall (fun y => ~ (refused y <> None))
                (Called (DeleteGatewayTarget g (targetId target)) (inl u) t1
                 :: events wait)).
      { constructor; [intros H; apply H; reflexivity|].
        eapply Forall_impl; [|exact Hquiet]. intros y [Hy _] H. contradiction. }
      assert (Htouch : Forall (fun ev => forall g', touched ev = Some g' -> g' = g)
                (Called (DeleteGatewayTarget g (targetId target)) (inl u) t1
                 :: events wait)).
      { constructor; [simpl; intros g' H; inversion H; reflexivity|].
        eapply Forall_impl; [|exact Hquiet]. intros y [_ Hy]. exact Hy. }
      destruct (outcome wait) as [[]|e1|] eqn:Hout.
      * destruct (IH (final wait)) as (Hlast & Htouch').
        unfold events at 1 2, outcome at 1. simpl fst. simpl snd. split.
        -- intros pre ev post e Heq Hev.
           assert (Heq' :
                     (Called (DeleteGatewayTarget g (targetId target)) (inl u) t1
                      :: events wait) ++
                     events (GatewayManager.delete_targets respond g rest
                               (final wait)) = pre ++ ev :: post) by exact Heq.
           destruct (split_past (fun y => refused y <> None) _ _ _ _ _ Heq'
                       Hsilent ltac:(congruence)) as (pre' & _ & Hrest).
           exact (Hlast _ _ _ _ Hrest Hev).
        -- constructor; [simpl; intros g' H; inversion H; reflexivity|].
           apply Forall_app. split; [|exact Htouch'].
           eapply Forall_impl; [|exact Hquiet]. intros y [_ Hy]. exact Hy.
      * unfold events at 1 2, outcome at 1. simpl fst. simpl snd.
        split; [|exact Htouch].
        intros pre ev post e Heq Hev. exfalso.
        rewrite Forall_forall in Hsilent.
        apply (Hsilent ev); [|congruence].
        member Heq.
      * unfold events at 1 2, outcome at 1. simpl fst. simpl snd.
        split; [|exact Htouch].
        intros pre ev post e Heq Hev. exfalso.
        rewrite Forall_forall in Hsilent.
        apply (Hsilent ev); [|congruence].
        member Heq.
    + unfold events, outcome. simpl. split.
      * intros pre ev post e Heq Hev.
        destruct pre as [|z pre]; simpl in Heq.
        -- inversion Heq; subst. simpl in Hev. inversion Hev. auto.
        -- inversion Heq. destruct pre; discriminate.
      * constructor; [|constructor].
        simpl. intros g' H. inversion H. reflexivity.
Qed.

(** X5. In [delete_gateway], a target listing or a delete call (for a
    target or for the gateway) that raises is the last call, and its
    exception is what [delete_gateway] raises: the targets not yet
    deleted and the gateway are left as they are. *)
Theorem refused_call_ends_deletion g w pre ev post e :
  events (GatewayManager.delete_gateway respond g w) = pre ++ ev :: post ->
  refused ev = Some e ->
  post = [] /\
  outcome (GatewayManager.delete_gateway respond g w) = Raised e.
Proof.
  rewrite delete_gateway_unfold.
  destruct (respond (remote w) (ListGatewayTargets g)) as [[[resp|e0] st1] t1].
  - cbv zeta.
    destruct (delete_targets_refused g (get_default (targetSummaries resp) [])
                (after_call w st1 t1)) as (Hlast & _).
    pose proof (delete_targets_run respond g
                  (get_default (targetSummaries resp) [])
                  (after_call w st1 t1)) as Hrun.
    cbv zeta in Hrun. destruct Hrun as (Hfuel & _ & _).
    set (loop := GatewayManager.delete_targets respond g
                   (get_default (targetSummaries resp) [])
                   (after_call w st1 t1)) in *.
    destruct (outcome loop) as [[]|e1|] eqn:Hout.
    + assert (Hsilent_loop : Forall (fun y => ~ (refused y <> None))
                (Called (ListGatewayTargets g) (inl resp) t1 :: events loop)).
      { constructor; [intros H; apply H; reflexivity|].
        rewrite Forall_forall. intros y Hy Hrefused.
        destruct (refused y) as [e'|] eqn:Hr; [|congruence].
        apply in_split in Hy. destruct Hy as (a & b & Hy).
        destruct (Hlast _ _ _ _ Hy Hr) as [_ Hraised]. congruence. }
      destruct (respond (remote (final loop)) (DeleteGateway g))
        as [[[u|e2] st2] t2]; unfold events at 1, outcome at 1; simpl fst;
        simpl snd; intros Heq Hev.
      * exfalso.
        pose proof (gateway_wait_quiet g 300 (after_call (final loop) st2 t2))
          as Hquiet.
        assert (Hall : Forall (fun y => ~ (refused y <> None))
                  ((Called (ListGatewayTargets g) (inl resp) t1 :: events loop)
                   ++ Called (DeleteGateway g) (inl u) t2
                      :: events (GatewayManager._wait_for_gateway_deleted
                                   respond g 300
                                   (after_call (final loop) st2 t2)))).
        { apply Forall_app. split; [exact Hsilent_loop|].
          constructor; [intros H; apply H; reflexivity|].
          eapply Forall_impl; [|exact Hquiet]. intros y [Hy _] H.
          contradiction. }
        rewrite Forall_forall in Hall. apply (Hall ev); [|congruence].
        member Heq.
      * assert (Heq' :
                  (Called (ListGatewayTargets g) (inl resp) t1 :: events loop)
                  ++ [Called (DeleteGateway g) (inr e2) t2] = pre ++ ev :: post)
          by exact Heq.
        destruct (split_past (fun y => refused y <> None) _ _ _ _ _ Heq'
                    Hsilent_loop ltac:(congruence)) as (pre' & _ & Hrest).
        destruct pre' as [|z pre']; simpl in Hrest.
        -- inversion Hrest; subst. simpl in Hev. inversion Hev. auto.
        -- inversion Hrest. destruct pre'; discriminate.
    + unfold events at 1, outcome at 1. simpl fst. simpl snd. intros Heq Hev.
      destruct pre as [|z pre]; simpl in Heq.
      * inversion Heq; subst. discriminate.
      * inversion Heq as [[Hz Hrest]].
        destruct (Hlast _ _ _ _ Hrest Hev) as [Hpost Hsame].
        split; [exact Hpost|congruence].
    + contradiction.
  - unfold events, outcome. simpl. intros Heq Hev.
    destruct pre as [|z pre]; simpl in Heq.
    + inversion Heq; subst. simpl in Hev. inversion Hev. auto.
    + inversion Heq. destruct pre; discriminate.
Qed.

(** Every event of [delete_gateway] is a listing of the targets of the
    gateway, a delete call or a fetch for one of its targets or for the
    gateway, or a sleep. *)
Lemma delete_targets_events g (P : event -> Prop) :
  (forall t r took, P (Called (DeleteGatewayTarget g t) r took)) ->
  (forall t r took, P (Called (GetGatewayTarget g t) r took)) ->
  (forall secs, P (Slept secs)) ->
  forall targets w,
    Forall P (events (GatewayManager.delete_targets respond g targets w)).
Proof.
  intros Hdel Hget Hsleep.
  induction targets as [|target rest IH]; intros w.
  - constructor.
  - rewrite delete_targets_cons.
    destruct (respond (remote w) (DeleteGatewayTarget g (targetId target)))
      as [[[u|e0] st1] t1]; [|repeat constructor; apply Hdel].
    cbv zeta.
    assert (Hwait : Forall P
              (events (GatewayManager._wait_for_target_deleted respond g
                         (targetId target) 300 (after_call w st1 t1)))).
    { rewrite target_deleted_shape.
      eapply loop_events; [apply (deleted_unfold respond)| |]; auto. }
    destruct (outcome (GatewayManager._wait_for_target_deleted respond g
                         (targetId target) 300 (after_call w st1 t1)))
      as [[]|e1|]; unfold events at 1; simpl snd;
      constructor; auto.
    apply Forall_app. split; [exact Hwait|apply IH].
Qed.

Lemma delete_gateway_events g (P : event -> Prop) :
  (forall r took, P (Called (ListGatewayTargets g) r took)) ->
  (forall t r took, P (Called (DeleteGatewayTarget g t) r took)) ->
  (forall t r took, P (Called (GetGatewayTarget g t) r took)) ->
  (forall r took, P (Called (DeleteGateway g) r took)) ->
  (forall r took, P (Called (GetGateway g) r took)) ->
  (forall secs, P (Slept secs)) ->
  forall w, Forall P (events (GatewayManager.delete_gateway respond g w)).
Proof.
  intros Hlist Hdel Hget Hgone Hpoll Hsleep w.
  rewrite delete_gateway_unfold.
  destruct (respond (remote w) (ListGatewayTargets g)) as [[[resp|e0] st1] t1];
    [|repeat constructor; apply Hlist].
  cbv zeta.
  pose proof (delete_targets_events g P Hdel Hget Hsleep
                (get_default (targetSummaries resp) []) (after_call w st1 t1))
    as Hloop.
  destruct (outcome (GatewayManager.delete_targets respond g _ _))
    as [[]|e1|]; try (unfold events at 1; simpl snd; constructor; auto).
  destruct (respond _ (DeleteGateway g)) as [[[u|e2] st2] t2];
    unfold events at 1; simpl snd; constructor; auto;
    apply Forall_app; (split; [exact Hloop|]).
  - constructor; [apply Hgone|].
    rewrite gateway_deleted_shape.
    eapply loop_events; [apply (deleted_unfold respond)| |]; auto.
  - repeat constructor. apply Hgone.
Qed.

(** X6. [create_gateway] makes no call other than the account lookup,
    the create call and status fetches of a gateway: whatever the
    control plane answers, and also when the wait fails or times out
    after the create call was accepted, it issues no delete call. *)
Theorem create_gateway_steps config w :
  Forall (fun ev => creation_step ev = true /\ touched ev = None)
         (events (GatewayManager.create_gateway respond config w)).
Proof.
  rewrite create_gateway_unfold.
  destruct (respond (remote w) GetCallerIdentity) as [[[ident|e] st1] t1];
    [|repeat constructor].
  cbv zeta.
  destruct (respond st1 (CreateGateway _)) as [[[resp|e] st2] t2];
    [|repeat constructor].
  unfold events at 1. simpl snd.
  constructor; [split; reflexivity|]. constructor; [split; reflexivity|].
  apply (active_wait_events respond (OnGateway (gatewayId resp)));
    intros; split; reflexivity.
Qed.

(** X7. A create call that [create_gateway] makes comes right after
    the one account lookup, which succeeded, and is sent the role ARN
    of the account that lookup returned; so no create call is made when
    the lookup fails, and at most one is made. *)
Theorem create_call_follows_lookup config w pre ev post req :
  events (GatewayManager.create_gateway respond config w) = pre ++ ev :: post ->
  create_call ev = Some req ->
  exists ident took,
    pre = [Called GetCallerIdentity (inl ident) took] /\
    req = GatewayManager.create_gateway_kwargs config (Account ident) /\
    req_roleArn req =
      "arn:aws:iam::" +++ Account ident +++ ":role/BedrockAgentCoreGatewayRole".
Proof.
  rewrite create_gateway_unfold.
  destruct (respond (remote w) GetCallerIdentity) as [[[ident|e] st1] t1].
  - cbv zeta.
    assert (Hfound : forall r t2 more,
              Forall (fun y => ~ (create_call y <> None)) more ->
              [Called GetCallerIdentity (inl ident) t1] ++
              Called (CreateGateway
                        (GatewayManager.create_gateway_kwargs config
                           (Account ident))) r t2 :: more = pre ++ ev :: post ->
              create_call ev = Some req ->
              exists ident0 took,
                pre = [Called GetCallerIdentity (inl ident0) took] /\
                req = GatewayManager.create_gateway_kwargs config
                        (Account ident0) /\
                req_roleArn req =
                  "arn:aws:iam::" +++ Account ident0 +++
                  ":role/BedrockAgentCoreGatewayRole").
    { intros r t2 more Hmore Heq Hev.
      assert (Hlookup : Forall (fun y => ~ (create_call y <> None))
                          [Called GetCallerIdentity (inl ident) t1]).
      { constructor; [intros H; apply H; reflexivity|constructor]. }
      destruct (split_at_only (fun y => create_call y <> None) _ _ _ _ _ _
                  Heq Hlookup Hmore ltac:(congruence)) as (-> & -> & ->).
      simpl in Hev. inversion Hev; subst req.
      exists ident, t1. repeat split. }
    destruct (respond st1 (CreateGateway _)) as [[[resp|e] st2] t2];
      unfold events at 1; simpl snd; intros Heq Hev.
    + eapply Hfound; [|exact Heq|exact Hev].
      apply (active_wait_events respond (OnGateway (gatewayId resp)));
        intros; intros H; apply H; reflexivity.
    + eapply Hfound; [|exact Heq|exact Hev]. constructor.
  - unfold events. simpl. intros Heq Hev.
    destruct pre as [|z pre]; simpl in Heq.
    + inversion Heq; subst. discriminate.
    + inversion Heq. destruct pre; discriminate.
Qed.

(** ** Which gateways the sweep deletes *)

Lemma app_split {A} (l1 : list A) :
  forall l2 pre (ev : A) post,
    l1 ++ l2 = pre ++ ev :: post ->
    (exists post', l1 = pre ++ ev :: post') \/
    (exists pre', pre = l1 ++ pre' /\ l2 = pre' ++ ev :: post).
Proof.
  induction l1 as [|y l1 IH]; intros l2 pre ev post Heq.
  - right. exists pre. auto.
  - destruct pre as [|z pre]; simpl in Heq.
    + inversion Heq; subst. left. exists l1. reflexivity.
    + inversion Heq; subst.
      destruct (IH _ _ _ _ H1) as [(post' & ->)|(pre' & -> & ->)].
      * left. exists post'. reflexivity.
      * right. exists pre'. auto.
Qed.

Lemma delete_gateway_touches g w pre ev post g' :
  events (GatewayManager.delete_gateway respond g w) = pre ++ ev :: post ->
  touched ev = Some g' -> g' = g.
Proof.
  intros Heq Hev.
  assert (Hall : Forall (fun ev => forall g', touched ev = Some g' -> g' = g)
                    (events (GatewayManager.delete_gateway respond g w))).
  { apply delete_gateway_events; simpl; congruence. }
  rewrite Forall_forall in Hall. apply (Hall ev); [|exact Hev].
  rewrite Heq. apply in_or_app. right. left. reflexivity.
Qed.

Lemma approved_later force gateway rest pre0 pre g :
  approved force rest pre g -> approved force (gateway :: rest) (pre0 ++ pre) g.
Proof.
  intros (s & Hin & Hid & Hours & Hyes).
  exists s. repeat split; auto.
  - right. exact Hin.
  - intros Hforce. destruct (Hyes Hforce) as (line & took & Hin' & Hline).
    exists line, took. split; [apply in_or_app; right; exact Hin'|exact Hline].
Qed.

Lemma sweep_touched force gateways : forall results w pre ev post g,
  events (Cleanup.cleanup_gateways_loop respond force gateways results w) =
    pre ++ ev :: post ->
  touched ev = Some g ->
  approved force gateways pre g.
Proof.
  induction gateways as [|gateway rest IH]; intros results w pre ev post g Heq Hev.
  - destruct pre; discriminate.
  - rewrite sweep_cons in Heq. cbv zeta in Heq.
    set (id := summary_gatewayId gateway) in *.
    set (name := get_default (summary_gatewayName gateway) "Unknown") in *.
    assert (Hstep : forall w0 pre0 asked,
      events (let del := GatewayManager.delete_gateway respond id w0 in
              match outcome del with
              | Ok _ =>
                  preceded (events del)
                    (Cleanup.cleanup_gateways_loop respond force rest
                       (results ++ [Cleanup.deleted_record id name]) (final del))
              | Raised e =>
                  preceded (events del)
                    (Cleanup.cleanup_gateways_loop respond force rest
                       (results ++ [Cleanup.error_record id name e]) (final del))
              | OutOfFuel => (OutOfFuel, final del, events del)
              end) = pre0 ++ ev :: post ->
      Cleanup.is_our_gateway name = true ->
      (force = false ->
       exists line took,
         In (Called (Input (delete_prompt name id)) (inl line) took) asked /\
         Cleanup.is_yes line = true) ->
      approved force (gateway :: rest) (asked ++ pre0) g).
    { intros w0 pre0 asked Hrun Hours Hyes. cbv zeta in Hrun.
      assert (Hhere : forall post',
                events (GatewayManager.delete_gateway respond id w0) =
                  pre0 ++ ev :: post' ->
                approved force (gateway :: rest) (asked ++ pre0) g).
      { intros post' Hdel.
        pose proof (delete_gateway_touches _ _ _ _ _ _ Hdel Hev) as ->.
        exists gateway. repeat split; auto.
        - left. reflexivity.
        - intros Hforce. destruct (Hyes Hforce) as (line & took & Hin & Hline).
          exists line, took. split; [apply in_or_app; left; exact Hin|exact Hline]. }
      assert (Hthere : forall results' pre',
                pre0 = events (GatewayManager.delete_gateway respond id w0) ++ pre' ->
                events (Cleanup.cleanup_gateways_loop respond force rest results'
                          (final (GatewayManager.delete_gateway respond id w0))) =
                  pre' ++ ev :: post ->
                approved force (gateway :: rest) (asked ++ pre0) g).
      { intros results' pre' -> Hlater.
        rewrite app_assoc. apply approved_later.
        eapply IH; eassumption. }
      destruct (outcome (GatewayManager.delete_gateway respond id w0))
        as [r|e|].
      - rewrite events_preceded in Hrun.
        destruct (app_split _ _ _ _ _ Hrun) as [(post' & Hdel)|(pre' & Hpre & Hlater)];
          eauto.
      - rewrite events_preceded in Hrun.
        destruct (app_split _ _ _ _ _ Hrun) as [(post' & Hdel)|(pre' & Hpre & Hlater)];
          eauto.
      - unfold events at 1 in Hrun. simpl snd in Hrun. eauto. }
    destruct (Cleanup.is_our_gateway name) eqn:Hours.
    + destruct force.
      * apply (Hstep w pre []); auto. discriminate.
      * destruct (respond (remote w) (Input (delete_prompt name id)))
          as [[[line|e] st1] t1].
        -- rewrite events_preceded in Heq.
           destruct (app_split _ _ _ _ _ Heq) as [(post' & Hask)|(pre' & -> & Hlater)].
           ++ destruct pre as [|z pre]; simpl in Hask.
              ** inversion Hask; subst ev. discriminate.
              ** inversion Hask. destruct pre; discriminate.
           ++ destruct (Cleanup.is_yes line) eqn:Hline.
              ** apply (Hstep _ pre'
                          [Called (Input (delete_prompt name id)) (inl line) t1]
                          Hlater); auto.
                 intros _. exists line, t1. split; [left; reflexivity|exact Hline].
              ** apply approved_later. eapply IH; eassumption.
        -- unfold events in Heq. simpl in Heq.
           destruct pre as [|z pre]; simpl in Heq.
           ++ inversion Heq; subst ev. discriminate.
           ++ inversion Heq. destruct pre; discriminate.
    + apply (approved_later force gateway rest [] pre g).
      eapply IH; eassumption.
Qed.

(** X8. [cleanup_gateways] makes a delete call, for a gateway or for
    one of its targets, only on a gateway that the listing at the start
    of the sweep returned and whose name passes the name filter, and,
    unless the sweep is forced, only after the prompt for that gateway
    was answered with yes. *)
Theorem sweep_deletes_approved force w pre ev post g :
  events (Cleanup.cleanup_gateways respond force w) = pre ++ ev :: post ->
  touched ev = Some g ->
  exists resp took pre',
    pre = Called ListGateways (inl resp) took :: pre' /\
    approved force (get_default (gatewaySummaries resp) []) pre' g.
Proof.
  rewrite cleanup_gateways_unfold.
  destruct (respond (remote w) ListGateways) as [[[resp|e] st1] t1].
  - cbv zeta. unfold events at 1. simpl snd. intros Heq Hev.
    destruct pre as [|z pre]; simpl in Heq.
    + inversion Heq; subst ev. discriminate.
    + inversion Heq; subst z.
      exists resp, t1, pre. split; [reflexivity|].
      eapply sweep_touched; eassumption.
  - unfold events. simpl. intros Heq Hev.
    destruct pre as [|z pre]; simpl in Heq.
    + inversion Heq; subst ev. discriminate.
    + inversion Heq. destruct pre; discriminate.
Qed.

End Lifecycle.

(** * More on the sweep of the object store *)

Section Buckets.

Context {St : Type}.
Variable respond : St -> forall c : call, reply c * St * N.

(** One bucket of the sweep, with the answers of the object store
    written out. *)
Lemma s3_unfold b rest results w :
  Cleanup.cleanup_s3_loop respond (b :: rest) results w =
  let name := Name b in
  let sweep w1 :=
    match respond (remote w1) (ListObjectsV2 name "mcp-data/" None) with
    | (inl resp, st2, t2) =>
        let listing := Called (ListObjectsV2 name "mcp-data/" None) (inl resp) t2 in
        match map Key (get_default (Contents resp) []) with
        | [] =>
            preceded [listing]
              (Cleanup.cleanup_s3_loop respond rest results (after_call w1 st2 t2))
        | k :: keys =>
            match respond st2 (DeleteObjects name (k :: keys)) with
            | (inl u, st3, t3) =>
                preceded [listing; Called (DeleteObjects name (k :: keys)) (inl u) t3]
                  (Cleanup.cleanup_s3_loop respond rest
                     (results ++
                      [Cleanup.cleaned_record name
                         (Z.of_nat (List.length (k :: keys)))])
                     (after_call (after_call w1 st2 t2) st3 t3))
            | (inr e, st3, t3) =>
                preceded [listing; Called (DeleteObjects name (k :: keys)) (inr e) t3]
                  (Cleanup.cleanup_s3_loop respond rest
                     (results ++ bucket_failure name e)
                     (after_call (after_call w1 st2 t2) st3 t3))
            end
        end
    | (inr e, st2, t2) =>
        preceded [Called (ListObjectsV2 name "mcp-data/" None) (inr e) t2]
          (Cleanup.cleanup_s3_loop respond rest
             (results ++ bucket_failure name e) (after_call w1 st2 t2))
    end in
  if PyStr.contains "mcp" (PyStr.lower name) then sweep w
  else
    match respond (remote w) (ListObjectsV2 name "mcp-data/" (Some 1)) with
    | (inl resp, st1, t1) =>
        let probe := Called (ListObjectsV2 name "mcp-data/" (Some 1)) (inl resp) t1 in
        if 0 <? get_default (KeyCount resp) 0
        then preceded [probe] (sweep (after_call w st1 t1))
        else preceded [probe]
               (Cleanup.cleanup_s3_loop respond rest results (after_call w st1 t1))
    | (inr e, st1, t1) =>
        preceded [Called (ListObjectsV2 name "mcp-data/" (Some 1)) (inr e) t1]
          (Cleanup.cleanup_s3_loop respond rest results (after_call w st1 t1))
    end.
Proof.
  cbv zeta. simpl Cleanup.cleanup_s3_loop.
  assert (Hsweep : forall w1,
    (cleaned <- attempt (Cleanup.clean_bucket respond (Name b)) ;;
     match cleaned with
     | inl None => Cleanup.cleanup_s3_loop respond rest results
     | inl (Some record) =>
         Cleanup.cleanup_s3_loop respond rest (results ++ [record])
     | inr e =>
         if negb (PyStr.contains "NoSuchBucket" (exc_msg e))
         then Cleanup.cleanup_s3_loop respond rest
                (results ++ [Cleanup.bucket_error_record (Name b) e])
         else Cleanup.cleanup_s3_loop respond rest results
     end) w1 =
    match respond (remote w1) (ListObjectsV2 (Name b) "mcp-data/" None) with
    | (inl resp, st2, t2) =>
        match map Key (get_default (Contents resp) []) with
        | [] =>
            preceded [Called (ListObjectsV2 (Name b) "mcp-data/" None) (inl resp) t2]
              (Cleanup.cleanup_s3_loop respond rest results (after_call w1 st2 t2))
        | k :: keys =>
            match respond st2 (DeleteObjects (Name b) (k :: keys)) with
            | (inl u, st3, t3) =>
                preceded [Called (ListObjectsV2 (Name b) "mcp-data/" None) (inl resp) t2;
                          Called (DeleteObjects (Name b) (k :: keys)) (inl u) t3]
                  (Cleanup.cleanup_s3_loop respond rest
                     (results ++
                      [Cleanup.cleaned_record (Name b)
                         (Z.of_nat (List.length (k :: keys)))])
                     (after_call (after_call w1 st2 t2) st3 t3))
            | (inr e, st3, t3) =>
                preceded [Called (ListObjectsV2 (Name b) "mcp-data/" None) (inl resp) t2;
                          Called (DeleteObjects (Name b) (k :: keys)) (inr e) t3]
                  (Cleanup.cleanup_s3_loop respond rest
                     (results ++ bucket_failure (Name b) e)
                     (after_call (after_call w1 st2 t2) st3 t3))
            end
        end
    | (inr e, st2, t2) =>
        preceded [Called (ListObjectsV2 (Name b) "mcp-data/" None) (inr e) t2]
          (Cleanup.cleanup_s3_loop respond rest
             (results ++ bucket_failure (Name b) e) (after_call w1 st2 t2))
    end).
  { intros w1.
    unfold attempt, Cleanup.clean_bucket, try_except, bind, perform, ret.
    destruct (respond (remote w1) (ListObjectsV2 (Name b) "mcp-data/" None))
      as [[[resp|e] st2] t2].
    - cbn iota beta zeta. fold (after_call w1 st2 t2).
      destruct (map Key (get_default (Contents resp) [])) as [|k keys].
      + cbn iota beta.
        destruct (Cleanup.cleanup_s3_loop respond rest results _)
          as [[r w3] evs3]. reflexivity.
      + change (remote (after_call w1 st2 t2)) with st2.
        destruct (respond st2 (DeleteObjects (Name b) (k :: keys)))
          as [[[u|e] st3] t3]; cbn iota beta;
          fold (after_call (after_call w1 st2 t2) st3 t3).
        * destruct (Cleanup.cleanup_s3_loop respond rest _ _)
            as [[r w3] evs3]. reflexivity.
        * unfold bucket_failure.
          destruct (negb (PyStr.contains "NoSuchBucket" (exc_msg e)));
            rewrite ?app_nil_r;
            destruct (Cleanup.cleanup_s3_loop respond rest _ _)
              as [[r w3] evs3]; reflexivity.
    - cbn iota beta. fold (after_call w1 st2 t2).
      unfold bucket_failure.
      destruct (negb (PyStr.contains "NoSuchBucket" (exc_msg e)));
        rewrite ?app_nil_r;
        destruct (Cleanup.cleanup_s3_loop respond rest _ _)
          as [[r w3] evs3]; reflexivity. }
  destruct (PyStr.contains "mcp" (PyStr.lower (Name b))).
  - rewrite <- Hsweep. unfold bind at 1. unfold ret at 1. cbn iota beta.
    match goal with |- match ?x with _ => _ end = _ =>
      destruct x as [[r w1] evs] end.
    reflexivity.
  - unfold bind at 1. unfold Cleanup._bucket_has_mcp_data, try_except.
    unfold bind at 1. unfold perform at 1.
    destruct (respond (remote w) (ListObjectsV2 (Name b) "mcp-data/" (Some 1)))
      as [[[resp|e] st1] t1]; cbn iota beta; fold (after_call w st1 t1).
    + unfold ret at 1. cbn iota beta.
      destruct (0 <? get_default (KeyCount resp) 0).
      * rewrite <- Hsweep.
        match goal with |- match ?x with _ => _ end = _ =>
          destruct x as [[r w1] evs] end.
        reflexivity.
      * destruct (Cleanup.cleanup_s3_loop respond rest results _)
          as [[r w3] evs3]. reflexivity.
    + unfold ret at 1. cbn iota beta.
      destruct (Cleanup.cleanup_s3_loop respond rest results _)
        as [[r w3] evs3]. reflexivity.
Qed.

Lemma explained_app evs before after r :
  bucket_record_explained evs r ->
  bucket_record_explained (before ++ evs ++ after) r.
Proof.
  assert (Hin : forall ev, In ev evs -> In ev (before ++ evs ++ after)).
  { intros ev H. apply in_or_app. right. apply in_or_app. left. exact H. }
  intros Hr b Hname.
  destruct (Hr b Hname)
    as [(keys & listing & del & Hl & Hobj & Hkeys & Hd & Hacc & Hrec)
       |(ev & e & Hev & Hfail & Hmsg & Hrec)].
  - left. exists keys, listing, del. repeat split; auto.
  - right. exists ev, e. repeat split; auto.
Qed.

Lemma bucket_failure_explained evs name e ev :
  In ev evs ->
  sweep_failure ev = Some (name, e) ->
  Forall (bucket_record_explained evs) (bucket_failure name e).
Proof.
  intros Hin Hfail. unfold bucket_failure.
  destruct (PyStr.contains "NoSuchBucket" (exc_msg e)) eqn:Hmsg; simpl;
    constructor; [|constructor].
  intros b Hname. simpl in Hname. inversion Hname; subst b.
  right. exists ev, e. auto.
Qed.

(** What one bucket adds to the sweep, continued: where the records
    come from, and what the batch deletes send. *)
Lemma s3_step_records b rest results w :
  exists evs1 w1 added,
    Cleanup.cleanup_s3_loop respond (b :: rest) results w =
      preceded evs1 (Cleanup.cleanup_s3_loop respond rest (results ++ added) w1) /\
    Forall (bucket_record_explained evs1) added /\
    deletes_listed evs1.
Proof.
  rewrite s3_unfold. cbv zeta.
  assert (Hsweep : forall w1,
    exists evs1 w2 added,
      match respond (remote w1) (ListObjectsV2 (Name b) "mcp-data/" None) with
      | (inl resp, st2, t2) =>
          match map Key (get_default (Contents resp) []) with
          | [] =>
              preceded [Called (ListObjectsV2 (Name b) "mcp-data/" None) (inl resp) t2]
                (Cleanup.cleanup_s3_loop respond rest results (after_call w1 st2 t2))
          | k :: keys =>
              match respond st2 (DeleteObjects (Name b) (k :: keys)) with
              | (inl u, st3, t3) =>
                  preceded [Called (ListObjectsV2 (Name b) "mcp-data/" None) (inl resp) t2;
                            Called (DeleteObjects (Name b) (k :: keys)) (inl u) t3]
                    (Cleanup.cleanup_s3_loop respond rest
                       (results ++
                        [Cleanup.cleaned_record (Name b)
                           (Z.of_nat (List.length (k :: keys)))])
                       (after_call (after_call w1 st2 t2) st3 t3))
              | (inr e, st3, t3) =>
                  preceded [Called (ListObjectsV2 (Name b) "mcp-data/" None) (inl resp) t2;
                            Called (DeleteObjects (Name b) (k :: keys)) (inr e) t3]
                    (Cleanup.cleanup_s3_loop respond rest
                       (results ++ bucket_failure (Name b) e)
                       (after_call (after_call w1 st2 t2) st3 t3))
              end
          end
      | (inr e, st2, t2) =>
          preceded [Called (ListObjectsV2 (Name b) "mcp-data/" None) (inr e) t2]
            (Cleanup.cleanup_s3_loop respond rest
               (results ++ bucket_failure (Name b) e) (after_call w1 st2 t2))
      end =
      preceded evs1 (Cleanup.cleanup_s3_loop respond rest (results ++ added) w2) /\
      Forall (bucket_record_explained evs1) added /\
      deletes_listed evs1).
  { intros w1.
    destruct (respond (remote w1) (ListObjectsV2 (Name b) "mcp-data/" None))
      as [[[resp|e] st2] t2].
    - destruct (map Key (get_default (Contents resp) [])) as [|k keys] eqn:Hkeys.
      + eexists [_], _, []. rewrite app_nil_r.
        split; [reflexivity|]. split; [constructor|].
        apply quiet_deletes. repeat constructor.
      + assert (Hlisted : forall r t3,
                  deletes_listed
                    [Called (ListObjectsV2 (Name b) "mcp-data/" None) (inl resp) t2;
                     Called (DeleteObjects (Name b) (k :: keys)) r t3]).
        { intros r t3 ev b0 ks [<-|[<-|[]]] Hdel; simpl in Hdel; [discriminate|].
          inversion Hdel; subst. split; [discriminate|].
          eexists. split; [left; reflexivity|]. simpl. rewrite Hkeys.
          reflexivity. }
        destruct (respond st2 (DeleteObjects (Name b) (k :: keys)))
          as [[[u|e] st3] t3].
        * eexists [_; _], _, [_].
          split; [reflexivity|]. split; [|apply Hlisted].
          constructor; [|constructor].
          intros b0 Hname. simpl in Hname. inversion Hname; subst b0.
          left. exists (k :: keys).
          exists (Called (ListObjectsV2 (Name b) "mcp-data/" None) (inl resp) t2),
                 (Called (DeleteObjects (Name b) (k :: keys)) (inl u) t3).
          split; [left; reflexivity|]. split; [simpl; rewrite Hkeys; reflexivity|].
          split; [discriminate|]. split; [right; left; reflexivity|].
          split; reflexivity.
        * eexists [_; _], _, (bucket_failure (Name b) e).
          split; [reflexivity|]. split; [|apply Hlisted].
          eapply bucket_failure_explained; [right; left; reflexivity|reflexivity].
    - eexists [_], _, (bucket_failure (Name b) e).
      split; [reflexivity|]. split.
      + eapply bucket_failure_explained; [left; reflexivity|reflexivity].
      + apply quiet_deletes. repeat constructor. }
  assert (Hprobed : forall probe w1,
            batch_delete probe = None ->
            (exists evs1 w2 added,
               match respond (remote w1) (ListObjectsV2 (Name b) "mcp-data/" None) with
               | (inl resp, st2, t2) =>
                   match map Key (get_default (Contents resp) []) with
                   | [] =>
                       preceded [Called (ListObjectsV2 (Name b) "mcp-data/" None) (inl resp) t2]
                         (Cleanup.cleanup_s3_loop respond rest results (after_call w1 st2 t2))
                   | k :: keys =>
                       match respond st2 (DeleteObjects (Name b) (k :: keys)) with
                       | (inl u, st3, t3) =>
                           preceded [Called (ListObjectsV2 (Name b) "mcp-data/" None) (inl resp) t2;
                                     Called (DeleteObjects (Name b) (k :: keys)) (inl u) t3]
                             (Cleanup.cleanup_s3_loop respond rest
                                (results ++
                                 [Cleanup.cleaned_record (Name b)
                                    (Z.of_nat (List.length (k :: keys)))])
                                (after_call (after_call w1 st2 t2) st3 t3))
                       | (inr e, st3, t3) =>
                           preceded [Called (ListObjectsV2 (Name b) "mcp-data/" None) (inl resp) t2;
                                     Called (DeleteObjects (Name b) (k :: keys)) (inr e) t3]
                             (Cleanup.cleanup_s3_loop respond rest
                                (results ++ bucket_failure (Name b) e)
                                (after_call (after_call w1 st2 t2) st3 t3))
                       end
                   end
               | (inr e, st2, t2) =>
                   preceded [Called (ListObjectsV2 (Name b) "mcp-data/" None) (inr e) t2]
                     (Cleanup.cleanup_s3_loop respond rest
                        (results ++ bucket_failure (Name b) e) (after_call w1 st2 t2))
               end =
               preceded evs1
                 (Cleanup.cleanup_s3_loop respond rest (results ++ added) w2) /\
               Forall (bucket_record_explained evs1) added /\
               deletes_listed evs1) ->
            exists evs1 w2 added,
              preceded [probe]
                match respond (remote w1) (ListObjectsV2 (Name b) "mcp-data/" None) with
                | (inl resp, st2, t2) =>
                    match map Key (get_default (Contents resp) []) with
                    | [] =>
                        preceded [Called (ListObjectsV2 (Name b) "mcp-data/" None) (inl resp) t2]
                          (Cleanup.cleanup_s3_loop respond rest results (after_call w1 st2 t2))
                    | k :: keys =>
                        match respond st2 (DeleteObjects (Name b) (k :: keys)) with
                        | (inl u, st3, t3) =>
                            preceded [Called (ListObjectsV2 (Name b) "mcp-data/" None) (inl resp) t2;
                                      Called (DeleteObjects (Name b) (k :: keys)) (inl u) t3]
                              (Cleanup.cleanup_s3_loop respond rest
                                 (results ++
                                  [Cleanup.cleaned_record (Name b)
                                     (Z.of_nat (List.length (k :: keys)))])
                                 (after_call (after_call w1 st2 t2) st3 t3))
                        | (inr e, st3, t3) =>
                            preceded [Called (ListObjectsV2 (Name b) "mcp-data/" None) (inl resp) t2;
                                      Called (DeleteObjects (Name b) (k :: keys)) (inr e) t3]
                              (Cleanup.cleanup_s3_loop respond rest
                                 (results ++ bucket_failure (Name b) e)
                                 (after_call (after_call w1 st2 t2) st3 t3))
                        end
                    end
                | (inr e, st2, t2) =>
                    preceded [Called (ListObjectsV2 (Name b) "mcp-data/" None) (inr e) t2]
                      (Cleanup.cleanup_s3_loop respond rest
                         (results ++ bucket_failure (Name b) e) (after_call w1 st2 t2))
                end =
              preceded evs1
                (Cleanup.cleanup_s3_loop respond rest (results ++ added) w2) /\
              Forall (bucket_record_explained evs1) added /\
              deletes_listed evs1).
  { intros probe w1 Hquiet (evs1 & w2 & added & -> & Hadded & Hdel).
    exists ([probe] ++ evs1), w2, added. split; [reflexivity|]. split.
    - eapply Forall_impl; [|exact Hadded]. intros r Hr.
      rewrite <- (app_nil_r evs1). apply explained_app. exact Hr.
    - apply deletes_listed_app; [|exact Hdel].
      apply quiet_deletes. repeat constructor. exact Hquiet. }
  assert (Hskip : forall probe w1,
            batch_delete probe = None ->
            exists evs1 w2 added,
              preceded [probe]
                (Cleanup.cleanup_s3_loop respond rest results w1) =
              preceded evs1
                (Cleanup.cleanup_s3_loop respond rest (results ++ added) w2) /\
              Forall (bucket_record_explained evs1) added /\
              deletes_listed evs1).
  { intros probe w1 Hquiet. exists [probe], w1, []. rewrite app_nil_r.
    split; [reflexivity|]. split; [constructor|].
    apply quiet_deletes. repeat constructor. exact Hquiet. }
  destruct (PyStr.contains "mcp" (PyStr.lower (Name b))).
  - apply Hsweep.
  - destruct (respond (remote w) (ListObjectsV2 (Name b) "mcp-data/" (Some 1)))
      as [[[resp|e] st1] t1].
    + destruct (0 <? get_default (KeyCount resp) 0).
      * apply Hprobed; [reflexivity|apply Hsweep].
      * apply Hskip. reflexivity.
    + apply Hskip. reflexivity.
Qed.

(** The loop over the buckets returns; where its records come from,
    and what its batch deletes send. *)
Lemma s3_sweep buckets : forall results w,
  let run := Cleanup.cleanup_s3_loop respond buckets results w in
  exists added,
    outcome run = Ok (results ++ added) /\
    Forall (bucket_record_explained (events run)) added /\
    deletes_listed (events run).
Proof.
  induction buckets as [|b rest IH]; intros results w; cbv zeta.
  - exists []. simpl. unfold ret, outcome, events. simpl. rewrite app_nil_r.
    split; [reflexivity|]. split; [constructor|]. intros ev b keys [].
  - destruct (s3_step_records b rest results w)
      as (evs1 & w1 & added1 & -> & Hadded1 & Hdel1).
    destruct (IH (results ++ added1) w1) as (added2 & Hok & Hadded2 & Hdel2).
    exists (added1 ++ added2).
    rewrite outcome_preceded, !events_preceded, Hok, app_assoc.
    split; [reflexivity|]. split.
    + apply Forall_app. split.
      * eapply Forall_impl; [|exact Hadded1]. intros r Hr.
        apply (explained_app evs1 [] _ r Hr).
      * eapply Forall_impl; [|exact Hadded2]. intros r Hr.
        rewrite <- (app_nil_r (events _)).
        apply explained_app. exact Hr.
    + apply deletes_listed_app; assumption.
Qed.


Lemma selected_later pre0 pre b :
  selected_in pre b -> selected_in (pre0 ++ pre) b.
Proof.
  intros [Hname|(probe & Hin & Hhit)]; [left; exact Hname|].
  right. exists probe. split; [apply in_or_app; right; exact Hin|exact Hhit].
Qed.

Lemma bucket_failure_kept name e :
  Forall not_vanished (bucket_failure name e).
Proof.
  unfold bucket_failure.
  destruct (PyStr.contains "NoSuchBucket" (exc_msg e)) eqn:Hmsg; simpl;
    constructor; [|constructor].
  intros b msg _ Herr. simpl in Herr. inversion Herr; subst. exact Hmsg.
Qed.

(** What one bucket adds to the sweep: the calls [evs1] and the records
    [added]. *)
Lemma s3_step b rest results w :
  exists evs1 w1 added,
    Cleanup.cleanup_s3_loop respond (b :: rest) results w =
      preceded evs1 (Cleanup.cleanup_s3_loop respond rest (results ++ added) w1) /\
    Forall not_vanished added /\
    Forall (fun ev => store_call ev = true /\
                      forall p, listed_prefix ev = Some p -> p = "mcp-data/") evs1 /\
    (forall pre ev post b',
       evs1 = pre ++ ev :: post -> swept ev = Some b' ->
       b' = Name b /\ selected_in pre b').
Proof.
  rewrite s3_unfold. cbv zeta.
  assert (Hsweep : forall w1 before,
    (forall y, In y before -> swept y = None) ->
    Forall (fun ev => store_call ev = true /\
                      forall p, listed_prefix ev = Some p -> p = "mcp-data/")
           before ->
    selected_in before (Name b) ->
    exists evs1 w2 added,
      preceded before
        match respond (remote w1) (ListObjectsV2 (Name b) "mcp-data/" None) with
        | (inl resp, st2, t2) =>
            match map Key (get_default (Contents resp) []) with
            | [] =>
                preceded [Called (ListObjectsV2 (Name b) "mcp-data/" None) (inl resp) t2]
                  (Cleanup.cleanup_s3_loop respond rest results (after_call w1 st2 t2))
            | k :: keys =>
                match respond st2 (DeleteObjects (Name b) (k :: keys)) with
                | (inl u, st3, t3) =>
                    preceded [Called (ListObjectsV2 (Name b) "mcp-data/" None) (inl resp) t2;
                              Called (DeleteObjects (Name b) (k :: keys)) (inl u) t3]
                      (Cleanup.cleanup_s3_loop respond rest
                         (results ++
                          [Cleanup.cleaned_record (Name b)
                             (Z.of_nat (List.length (k :: keys)))])
                         (after_call (after_call w1 st2 t2) st3 t3))
                | (inr e, st3, t3) =>
                    preceded [Called (ListObjectsV2 (Name b) "mcp-data/" None) (inl resp) t2;
                              Called (DeleteObjects (Name b) (k :: keys)) (inr e) t3]
                      (Cleanup.cleanup_s3_loop respond rest
                         (results ++ bucket_failure (Name b) e)
                         (after_call (after_call w1 st2 t2) st3 t3))
                end
            end
        | (inr e, st2, t2) =>
            preceded [Called (ListObjectsV2 (Name b) "mcp-data/" None) (inr e) t2]
              (Cleanup.cleanup_s3_loop respond rest
                 (results ++ bucket_failure (Name b) e) (after_call w1 st2 t2))
        end =
      preceded evs1 (Cleanup.cleanup_s3_loop respond rest (results ++ added) w2) /\
      Forall not_vanished added /\
      Forall (fun ev => store_call ev = true /\
                        forall p, listed_prefix ev = Some p -> p = "mcp-data/") evs1 /\
      (forall pre ev post b',
         evs1 = pre ++ ev :: post -> swept ev = Some b' ->
         b' = Name b /\ selected_in pre b')).
  { intros w1 before Hquiet Hbefore Hsel.
    assert (Hpos : forall tail,
              (forall y, In y tail -> swept y = None \/ swept y = Some (Name b)) ->
              forall pre ev post b',
                before ++ tail = pre ++ ev :: post -> swept ev = Some b' ->
                b' = Name b /\ selected_in pre b').
    { intros tail Htail pre ev post b' Heq Hev.
      destruct (app_split _ _ _ _ _ Heq) as [(post' & Hin)|(pre' & -> & Hin)].
      - rewrite (Hquiet ev) in Hev; [discriminate|].
        rewrite Hin. apply in_or_app. right. left. reflexivity.
      - destruct (Htail ev) as [Hnone|Hsome].
        + rewrite Hin. apply in_or_app. right. left. reflexivity.
        + congruence.
        + split; [congruence|].
          assert (b' = Name b) as -> by congruence.
          rewrite <- (app_nil_r before) in Hsel.
          destruct Hsel as [Hname|(probe & Hp & Hhit)]; [left; exact Hname|].
          right. exists probe. split; [|exact Hhit].
          rewrite app_nil_r in Hp. apply in_or_app. left. exact Hp. }
    destruct (respond (remote w1) (ListObjectsV2 (Name b) "mcp-data/" None))
      as [[[resp|e] st2] t2].
    - destruct (map Key (get_default (Contents resp) [])) as [|k keys].
      + exists (before ++ [Called (ListObjectsV2 (Name b) "mcp-data/" None) (inl resp) t2]),
               (after_call w1 st2 t2), [].
        rewrite app_nil_r. split; [|split; [constructor|split]].
        * unfold preceded, outcome, final, events. simpl.
          rewrite <- app_assoc. reflexivity.
        * apply Forall_app. split; [exact Hbefore|].
          repeat constructor; simpl; congruence.
        * apply Hpos. intros y [<-|[]]. right. reflexivity.
      + destruct (respond st2 (DeleteObjects (Name b) (k :: keys)))
          as [[[u|e] st3] t3].
        * eexists (before ++ [_; _]), _, [_].
          split; [|split; [|split]].
          -- unfold preceded, outcome, final, events. simpl.
             rewrite <- app_assoc. reflexivity.
          -- constructor; [|constructor]. intros b0 msg _ Herr. discriminate.
          -- apply Forall_app. split; [exact Hbefore|].
             repeat constructor; simpl; congruence.
          -- apply Hpos. intros y [<-|[<-|[]]]; right; reflexivity.
        * eexists (before ++ [_; _]), _, (bucket_failure (Name b) e).
          split; [|split; [|split]].
          -- unfold preceded, outcome, final, events. simpl.
             rewrite <- app_assoc. reflexivity.
          -- apply bucket_failure_kept.
          -- apply Forall_app. split; [exact Hbefore|].
             repeat constructor; simpl; congruence.
          -- apply Hpos. intros y [<-|[<-|[]]]; right; reflexivity.
    - eexists (before ++ [_]), _, (bucket_failure (Name b) e).
      split; [|split; [|split]].
      + unfold preceded, outcome, final, events. simpl.
        rewrite <- app_assoc. reflexivity.
      + apply bucket_failure_kept.
      + apply Forall_app. split; [exact Hbefore|].
        repeat constructor; simpl; congruence.
      + apply Hpos. intros y [<-|[]]. right. reflexivity. }
  assert (Hskip : forall probe w1,
            swept probe = None ->
            (store_call probe = true /\
             forall p, listed_prefix probe = Some p -> p = "mcp-data/") ->
            exists evs1 w2 added,
              preceded [probe]
                (Cleanup.cleanup_s3_loop respond rest results w1) =
              preceded evs1
                (Cleanup.cleanup_s3_loop respond rest (results ++ added) w2) /\
              Forall not_vanished added /\
              Forall (fun ev => store_call ev = true /\
                        forall p, listed_prefix ev = Some p -> p = "mcp-data/")
                     evs1 /\
              (forall pre ev post b',
                 evs1 = pre ++ ev :: post -> swept ev = Some b' ->
                 b' = Name b /\ selected_in pre b')).
  { intros probe w1 Hnone Hstore.
    exists [probe], w1, []. rewrite app_nil_r.
    split; [reflexivity|]. split; [constructor|]. split; [repeat constructor; apply Hstore|].
    intros pre ev post b' Heq Hev.
    destruct pre as [|z pre]; simpl in Heq.
    - inversion Heq; subst. congruence.
    - inversion Heq. destruct pre; discriminate. }
  destruct (PyStr.contains "mcp" (PyStr.lower (Name b))) eqn:Hname.
  - destruct (Hsweep w []) as (evs1 & w2 & added & Heq & Hrest).
    + intros y [].
    + constructor.
    + left. exact Hname.
    + exists evs1, w2, added. split; [|exact Hrest].
      rewrite <- Heq. unfold preceded. simpl.
      match goal with |- ?x = _ => destruct x as [[r w3] evs3] end.
      reflexivity.
  - destruct (respond (remote w) (ListObjectsV2 (Name b) "mcp-data/" (Some 1)))
      as [[[resp|e] st1] t1].
    + destruct (0 <? get_default (KeyCount resp) 0) eqn:Hcount.
      * apply Hsweep.
        -- intros y [<-|[]]. reflexivity.
        -- repeat constructor; simpl; congruence.
        -- right. eexists. split; [left; reflexivity|].
           simpl. rewrite Hcount. reflexivity.
      * apply Hskip; [reflexivity|]. simpl. split; congruence.
    + apply Hskip; [reflexivity|]. simpl. split; congruence.
Qed.

Lemma s3_swept buckets : forall results w pre ev post b,
  events (Cleanup.cleanup_s3_loop respond buckets results w) = pre ++ ev :: post ->
  swept ev = Some b ->
  exists bk, In bk buckets /\ Name bk = b /\ selected_in pre b.
Proof.
  induction buckets as [|bk rest IH]; intros results w pre ev post b Heq Hev.
  - destruct pre; discriminate.
  - destruct (s3_step bk rest results w)
      as (evs1 & w1 & added & Hrun & _ & _ & Hpos).
    rewrite Hrun, events_preceded in Heq.
    destruct (app_split _ _ _ _ _ Heq) as [(post' & Hin)|(pre' & -> & Hin)].
    + destruct (Hpos _ _ _ _ Hin Hev) as [-> Hsel].
      exists bk. split; [left; reflexivity|]. split; [reflexivity|exact Hsel].
    + destruct (IH _ _ _ _ _ _ Hin Hev) as (bk' & Hbk & Hname & Hsel).
      exists bk'. split; [right; exact Hbk|]. split; [exact Hname|].
      apply selected_later. exact Hsel.
Qed.

Lemma s3_invariants buckets : forall results w,
  Forall not_vanished results ->
  let run := Cleanup.cleanup_s3_loop respond buckets results w in
  (exists records, outcome run = Ok records /\ Forall not_vanished records) /\
  Forall (fun ev => store_call ev = true /\
                    forall p, listed_prefix ev = Some p -> p = "mcp-data/")
         (events run).
Proof.
  induction buckets as [|bk rest IH]; intros results w Hres; cbv zeta.
  - split; [exists results; split; [reflexivity|exact Hres]|constructor].
  - destruct (s3_step bk rest results w)
      as (evs1 & w1 & added & Hrun & Hadded & Hcalls & _).
    rewrite Hrun, outcome_preceded, events_preceded.
    destruct (IH (results ++ added) w1) as [Hok Hall].
    { apply Forall_app. split; assumption. }
    split; [exact Hok|]. apply Forall_app. split; assumption.
Qed.

(** X9. [cleanup_s3_data] lists the [mcp-data/] objects of a bucket
    for deletion, or sends a batch delete to it, only if the bucket is
    one of those the listing of buckets at the start returned, and its
    name contains [mcp] in any case or an earlier probe of it reported
    at least one key. *)
Theorem swept_buckets_selected w pre ev post b :
  events (Cleanup.cleanup_s3_data respond w) = pre ++ ev :: post ->
  swept ev = Some b ->
  exists resp took pre' bk,
    pre = Called ListBuckets (inl resp) took :: pre' /\
    In bk (get_default (Buckets resp) []) /\ Name bk = b /\
    selected_in pre' b.
Proof.
  rewrite cleanup_s3_data_unfold.
  destruct (respond (remote w) ListBuckets) as [[[resp|e] st1] t1].
  - rewrite events_preceded. intros Heq Hev.
    destruct pre as [|z pre]; simpl in Heq.
    + inversion Heq; subst ev. discriminate.
    + inversion Heq; subst z.
      destruct (s3_swept _ _ _ _ _ _ _ H1 Hev) as (bk & Hbk & Hname & Hsel).
      exists resp, t1, pre, bk. auto.
  - unfold events. simpl. intros Heq Hev.
    destruct pre as [|z pre]; simpl in Heq.
    + inversion Heq; subst ev. discriminate.
    + inversion Heq. destruct pre; discriminate.
Qed.


(** X11. [cleanup_s3_data] calls nothing but the object store: it asks
    for no confirmation before a batch delete, whatever [force] is.
    Every listing of objects it makes is restricted to the prefix
    [mcp-data/]. *)
Theorem object_sweep_calls w :
  Forall (fun ev => store_call ev = true /\ prompted ev = None /\
                    forall p, listed_prefix ev = Some p -> p = "mcp-data/")
         (events (Cleanup.cleanup_s3_data respond w)).
Proof.
  assert (Hquiet : forall ev,
            store_call ev = true /\
            (forall p, listed_prefix ev = Some p -> p = "mcp-data/") ->
            store_call ev = true /\ prompted ev = None /\
            forall p, listed_prefix ev = Some p -> p = "mcp-data/").
  { intros ev [Hstore Hprefix]. repeat split; auto.
    destruct ev as [c r took|secs]; try discriminate;
      destruct c; try discriminate; reflexivity. }
  rewrite cleanup_s3_data_unfold.
  destruct (respond (remote w) ListBuckets) as [[[resp|e] st1] t1].
  - rewrite events_preceded. constructor.
    + repeat split. discriminate.
    + eapply Forall_impl; [exact Hquiet|].
      apply (s3_invariants (get_default (Buckets resp) []) [] (after_call w st1 t1)).
      constructor.
  - repeat constructor. discriminate.
Qed.

End Buckets.

(** * Adding the Lambda target *)

Section LambdaTarget.

Import Waiter WaiterFacts.

Context {St : Type}.
Variable respond : St -> forall c : call, reply c * St * N.
Variable respond_more : St -> forall c : wcall, wreply c * St * N.

(** [add_lambda_target], with the answers of the services written
    out. *)
Lemma add_lambda_target_unfold gateway_id config w :
  Targets.add_lambda_target respond respond_more gateway_id config w =
  let lookup := GetFunction (GatewayManager.lambda_function_arn config) in
  let create := CreateGatewayTarget (Targets.create_target_kwargs gateway_id config) in
  match respond_more (remote w) lookup with
  | (inr e, st1, t1) =>
      (Raised e, after_call w st1 t1, [WCalled lookup (inr e) t1])
  | (inl u, st1, t1) =>
      match respond_more st1 create with
      | (inr e, st2, t2) =>
          (Raised e, after_call (after_call w st1 t1) st2 t2,
           [WCalled lookup (inl u) t1; WCalled create (inr e) t2])
      | (inl resp, st2, t2) =>
          let wait :=
            _wait_for_active respond (OnTarget gateway_id (new_targetId resp)) 300
              (after_call (after_call w st1 t1) st2 t2) in
          (match outcome wait with
           | Ok _ => Ok (target_created resp)
           | Raised e => Raised e
           | OutOfFuel => OutOfFuel
           end, final wait,
           WCalled lookup (inl u) t1 :: WCalled create (inl resp) t2 ::
           map Narrow (events wait))
      end
  end.
Proof.
  cbv zeta.
  unfold Targets.add_lambda_target, wtry_except, wbind, wperform, wraise, wret,
    lift.
  destruct (respond_more (remote w)
              (GetFunction (GatewayManager.lambda_function_arn config)))
    as [[[u|e] st1] t1]; [|reflexivity].
  change (remote (after_call w st1 t1)) with st1.
  destruct (respond_more st1
              (CreateGatewayTarget (Targets.create_target_kwargs gateway_id config)))
    as [[[resp|e] st2] t2]; [|reflexivity].
  unfold _wait_for_active, outcome, final, events.
  destruct (GatewayManager._wait_for_target_active respond gateway_id
              (new_targetId resp) 300 _) as [[[[]|e|] w3] evs3];
    simpl; rewrite ?app_nil_r; reflexivity.
Qed.

(** An activation wait that returns ends on a fetch that saw
    [ACTIVE]. *)
Lemma active_wait_returns x max_wait w :
  outcome (_wait_for_active respond x max_wait w) = Ok tt ->
  exists pre r took,
    events (_wait_for_active respond x max_wait w) =
      pre ++ [Called (fetch_of x) r took] /\
    Waiter.fetched (status_field x) r = inl (Some "ACTIVE").
Proof.
  rewrite active_wait_shape. intros Hok.
  pose proof (loop_end respond (fetch_of x) (status_field x)
                (timeout_of x max_wait) _ _
                (active_unfold respond x max_wait)
                (wait_fuel max_wait) max_wait (clock w) w) as Hend.
  cbv zeta in Hend. rewrite Hok in Hend.
  destruct Hend as [Hend|[Hend|(pre & r & took & Hevs & Hv)]]; try discriminate.
  exists pre, r, took. split; [exact Hevs|].
  destruct r as [resp|e]; simpl in Hv |- *.
  - destruct (status_is (status_field x resp) "ACTIVE") eqn:Hactive.
    + apply status_is_true in Hactive. rewrite Hactive. reflexivity.
    + destruct (status_is (status_field x resp) "FAILED");
        [destruct (PyStr.contains "ResourceNotFound" (exc_msg (failed_of x)))|];
        discriminate.
  - destruct (PyStr.contains "ResourceNotFound" (exc_msg e)); discriminate.
Qed.

(** X12. A target creation call that [add_lambda_target] makes comes
    right after the one lookup of the Lambda function, which succeeded;
    it names the gateway and the function of the config, the function
    that was looked up.  So no target is created for a function that
    the lookup does not find, and at most one target is created. *)
Theorem target_creation_follows_lookup gateway_id config w pre ev post req :
  wevents (Targets.add_lambda_target respond respond_more gateway_id config w) =
    pre ++ ev :: post ->
  target_creation ev = Some req ->
  exists u took,
    pre = [WCalled (GetFunction (GatewayManager.lambda_function_arn config))
             (inl u) took] /\
    req = Targets.create_target_kwargs gateway_id config /\
    tgt_gatewayId req = gateway_id /\
    functionArn (lambdaConfiguration (mcp (tgt_protocolConfiguration req))) =
      GatewayManager.lambda_function_arn config.
Proof.
  rewrite add_lambda_target_unfold. cbv zeta.
  destruct (respond_more (remote w) (GetFunction _)) as [[[u|e] st1] t1].
  - assert (Hfound : forall r t2 more,
              Forall (fun y => ~ (target_creation y <> None)) more ->
              [WCalled (GetFunction (GatewayManager.lambda_function_arn config))
                 (inl u) t1] ++
              WCalled (CreateGatewayTarget
                         (Targets.create_target_kwargs gateway_id config)) r t2
                :: more = pre ++ ev :: post ->
              target_creation ev = Some req ->
              exists u0 took,
                pre = [WCalled (GetFunction
                                  (GatewayManager.lambda_function_arn config))
                         (inl u0) took] /\
                req = Targets.create_target_kwargs gateway_id config /\
                tgt_gatewayId req = gateway_id /\
                functionArn (lambdaConfiguration
                               (mcp (tgt_protocolConfiguration req))) =
                  GatewayManager.lambda_function_arn config).
    { intros r t2 more Hmore Heq Hev.
      assert (Hlookup : Forall (fun y => ~ (target_creation y <> None))
                [WCalled (GetFunction (GatewayManager.lambda_function_arn config))
                   (inl u) t1]).
      { constructor; [intros H; apply H; reflexivity|constructor]. }
      destruct (split_at_only (fun y => target_creation y <> None) _ _ _ _ _ _
                  Heq Hlookup Hmore ltac:(congruence)) as (-> & -> & ->).
      simpl in Hev. inversion Hev; subst req.
      exists u, t1. repeat split. }
    destruct (respond_more st1 (CreateGatewayTarget _)) as [[[resp|e] st2] t2];
      unfold wevents; cbn [snd]; intros Heq Hev.
    + eapply Hfound; [|exact Heq|exact Hev].
      apply Forall_forall. intros y Hy. apply in_map_iff in Hy.
      destruct Hy as (y' & <- & _). intros H. apply H. reflexivity.
    + eapply Hfound; [|exact Heq|exact Hev]. constructor.
  - unfold wevents. simpl. intros Heq Hev.
    destruct pre as [|z pre]; simpl in Heq.
    + inversion Heq; subst. discriminate.
    + inversion Heq. destruct pre; discriminate.
Qed.

(** X13. [add_lambda_target] returns only after the function lookup
    and the target creation succeeded and a status fetch of the target
    the creation assigned, on the gateway given, saw [ACTIVE]; that
    fetch is its last call.  The dict it returns carries the id and the
    ARN of the create response and the constant status ["created"]. *)
Theorem add_lambda_target_returns gateway_id config w h :
  woutcome (Targets.add_lambda_target respond respond_more gateway_id config w) =
    Ok h ->
  exists u t1 resp t2 fetches last,
    wevents (Targets.add_lambda_target respond respond_more gateway_id config w) =
      WCalled (GetFunction (GatewayManager.lambda_function_arn config)) (inl u) t1 ::
      WCalled (CreateGatewayTarget (Targets.create_target_kwargs gateway_id config))
        (inl resp) t2 ::
      map Narrow (fetches ++ [last]) /\
    target_poll last = Some (gateway_id, new_targetId resp, inl (Some "ACTIVE")) /\
    h = {| Targets.target_id := new_targetId resp;
           Targets.target_arn := targetArn resp;
           Targets.target_status := "created" |}.
Proof.
  rewrite add_lambda_target_unfold. cbv zeta.
  destruct (respond_more (remote w) (GetFunction _)) as [[[u|e] st1] t1];
    [|discriminate].
  destruct (respond_more st1 (CreateGatewayTarget _)) as [[[resp|e] st2] t2];
    [|discriminate].
  unfold woutcome, wevents. cbn [fst snd].
  destruct (outcome (_wait_for_active respond _ 300 _)) as [[]|e|] eqn:Hwait;
    try discriminate.
  intros Hok. inversion Hok; subst h.
  destruct (active_wait_returns _ _ _ Hwait) as (pre & r & took & Hevs & Hseen).
  exists u, t1, resp, t2, pre,
    (Called (GetGatewayTarget gateway_id (new_targetId resp)) r took).
  rewrite Hevs. split; [reflexivity|]. split; [|reflexivity].
  simpl. simpl in Hseen. destruct r as [tr|e]; simpl in Hseen |- *.
  - inversion Hseen as [Hs]. rewrite Hs. reflexivity.
  - discriminate.
Qed.

(** X14. [add_lambda_target] ends, by returning or by raising, and
    calls nothing but the function lookup, the target creation and
    status fetches of a target: when the wait fails or times out after
    the creation was accepted, the target is left in place. *)
Theorem add_lambda_target_steps gateway_id config w :
  woutcome (Targets.add_lambda_target respond respond_more gateway_id config w)
    <> OutOfFuel /\
  Forall (fun ev => target_step ev = true)
    (wevents (Targets.add_lambda_target respond respond_more gateway_id config w)).
Proof.
  rewrite add_lambda_target_unfold. cbv zeta.
  destruct (respond_more (remote w) (GetFunction _)) as [[[u|e] st1] t1];
    [|split; [discriminate|repeat constructor]].
  destruct (respond_more st1 (CreateGatewayTarget _)) as [[[resp|e] st2] t2];
    [|split; [discriminate|repeat constructor]].
  unfold woutcome, wevents. cbn [fst snd]. split.
  - pose proof (active_wait_fuel respond
                  (OnTarget gateway_id (new_targetId resp)) 300
                  (after_call (after_call w st1 t1) st2 t2)) as Hfuel.
    destruct (outcome (_wait_for_active respond _ 300 _)) as [[]|e|];
      congruence.
  - constructor; [reflexivity|]. constructor; [reflexivity|].
    apply Forall_forall. intros y Hy. apply in_map_iff in Hy.
    destruct Hy as (y' & <- & Hy').
    pose proof (active_wait_events respond
                  (OnTarget gateway_id (new_targetId resp)) 300
                  (after_call (after_call w st1 t1) st2 t2)
                  (fun ev => target_step (Narrow ev) = true)) as Hall.
    rewrite Forall_forall in Hall. apply Hall; auto.
Qed.

End LambdaTarget.

(** * Tearing down the stack, and the whole cleanup *)

Section StackTeardown.

Context {St : Type}.
Variable respond : St -> forall c : call, reply c * St * N.
Variable respond_more : St -> forall c : wcall, wreply c * St * N.
Variable stack_name : string.

(** [delete_cloudformation_stack], with the answers of CloudFormation
    written out. *)
Lemma delete_cloudformation_stack_unfold w :
  Teardown.delete_cloudformation_stack respond_more stack_name w =
  let describe := DescribeStacks stack_name in
  let delete := DeleteStack stack_name in
  let wait := WaitStackDeleteComplete stack_name 30 60 in
  match respond_more (remote w) describe with
  | (inr e, st1, t1) =>
      (Ok (if PyStr.contains "does not exist" (exc_msg e)
           then Teardown.stack_not_found stack_name
           else Teardown.stack_error stack_name e),
       after_call w st1 t1, [WCalled describe (inr e) t1])
  | (inl d, st1, t1) =>
      match respond_more st1 delete with
      | (inr e, st2, t2) =>
          (Ok (Teardown.stack_error stack_name e),
           after_call (after_call w st1 t1) st2 t2,
           [WCalled describe (inl d) t1; WCalled delete (inr e) t2])
      | (inl u, st2, t2) =>
          match respond_more st2 wait with
          | (r, st3, t3) =>
              (Ok match r with
                  | inl _ => Teardown.stack_deleted stack_name
                  | inr e => Teardown.stack_error stack_name e
                  end,
               after_call (after_call (after_call w st1 t1) st2 t2) st3 t3,
               [WCalled describe (inl d) t1; WCalled delete (inl u) t2;
                WCalled wait r t3])
          end
      end
  end.
Proof.
  cbv zeta.
  unfold Teardown.delete_cloudformation_stack, wtry_except, wbind, wperform,
    wraise, wret.
  destruct (respond_more (remote w) (DescribeStacks stack_name))
    as [[[d|e] st1] t1].
  - change (remote (after_call w st1 t1)) with st1.
    destruct (respond_more st1 (DeleteStack stack_name)) as [[[u|e] st2] t2];
      [|reflexivity].
    change (remote (after_call (after_call w st1 t1) st2 t2)) with st2.
    destruct (respond_more st2 (WaitStackDeleteComplete stack_name 30 60))
      as [[[u'|e] st3] t3]; reflexivity.
  - destruct (PyStr.contains "does not exist" (exc_msg e)); reflexivity.
Qed.

(** X15. [delete_cloudformation_stack] sends a delete call only for
    its own stack and only right after the stack was described
    successfully; so a stack that the describe call does not find, or
    cannot describe, is sent no delete call, and at most one delete
    call is made. *)
Theorem stack_delete_follows_describe w pre ev post n :
  wevents (Teardown.delete_cloudformation_stack respond_more stack_name w) =
    pre ++ ev :: post ->
  stack_delete ev = Some n ->
  n = stack_name /\
  exists d took, pre = [WCalled (DescribeStacks stack_name) (inl d) took].
Proof.
  rewrite delete_cloudformation_stack_unfold. cbv zeta.
  destruct (respond_more (remote w) (DescribeStacks stack_name))
    as [[[d|e] st1] t1].
  - assert (Hfound : forall r t2 more,
              Forall (fun y => ~ (stack_delete y <> None)) more ->
              [WCalled (DescribeStacks stack_name) (inl d) t1] ++
              WCalled (DeleteStack stack_name) r t2 :: more = pre ++ ev :: post ->
              stack_delete ev = Some n ->
              n = stack_name /\
              exists d0 took,
                pre = [WCalled (DescribeStacks stack_name) (inl d0) took]).
    { intros r t2 more Hmore Heq Hev.
      assert (Hfirst : Forall (fun y => ~ (stack_delete y <> None))
                [WCalled (DescribeStacks stack_name) (inl d) t1]).
      { constructor; [intros H; apply H; reflexivity|constructor]. }
      destruct (split_at_only (fun y => stack_delete y <> None) _ _ _ _ _ _
                  Heq Hfirst Hmore ltac:(congruence)) as (-> & -> & ->).
      simpl in Hev. inversion Hev; subst n.
      split; [reflexivity|]. exists d, t1. reflexivity. }
    destruct (respond_more st1 (DeleteStack stack_name)) as [[[u|e] st2] t2].
    + destruct (respond_more st2 (WaitStackDeleteComplete stack_name 30 60))
        as [[r st3] t3].
      unfold wevents; cbn [snd]; intros Heq Hev.
      eapply Hfound; [|exact Heq|exact Hev].
      constructor; [intros H; apply H; reflexivity|constructor].
    + unfold wevents; cbn [snd]; intros Heq Hev.
      eapply Hfound; [|exact Heq|exact Hev]. constructor.
  - unfold wevents. cbn [snd]. intros Heq Hev.
    destruct pre as [|z pre]; simpl in Heq.
    + inversion Heq; subst. discriminate.
    + inversion Heq. destruct pre; discriminate.
Qed.


(** The calls of [delete_cloudformation_stack] are calls to
    CloudFormation for its own stack, at least one, and it returns. *)
Lemma stack_run w :
  let run := Teardown.delete_cloudformation_stack respond_more stack_name w in
  (exists r, woutcome run = Ok r) /\
  wevents run <> [] /\
  Forall (fun ev => stack_call ev = Some stack_name /\ stack_step ev = true)
         (wevents run).
Proof.
  cbv zeta. rewrite delete_cloudformation_stack_unfold. cbv zeta.
  destruct (respond_more (remote w) (DescribeStacks stack_name))
    as [[[d|e] st1] t1].
  - destruct (respond_more st1 (DeleteStack stack_name)) as [[[u|e] st2] t2].
    + destruct (respond_more st2 (WaitStackDeleteComplete stack_name 30 60))
        as [[r st3] t3].
      split; [eexists; reflexivity|]. split; [discriminate|].
      repeat constructor.
    + split; [eexists; reflexivity|]. split; [discriminate|].
      repeat constructor.
  - split; [eexists; reflexivity|]. split; [discriminate|].
    repeat constructor.
Qed.

(** How the sweep of the gateways ends: it returns, or a prompt of an
    unforced sweep raised what is no instance of [Exception]. *)
Lemma cleanup_gateways_ends force w :
  (exists records,
     outcome (Cleanup.cleanup_gateways respond force w) = Ok records) \/
  (force = false /\
   exists pre prompt e took,
     events (Cleanup.cleanup_gateways respond force w) =
       pre ++ [Called (Input prompt) (inr e) took] /\
     is_exception e = false /\
     outcome (Cleanup.cleanup_gateways respond force w) = Raised e).
Proof.
  rewrite cleanup_gateways_unfold.
  destruct (respond (remote w) ListGateways) as [[[resp|e] st1] t1];
    [|left; eexists; reflexivity].
  cbv zeta.
  destruct (sweep_records respond force (get_default (gatewaySummaries resp) [])
              [] (after_call w st1 t1)) as (added & escaped & Hok & _).
  pose proof (sweep_escape respond force
                (get_default (gatewaySummaries resp) []) []
                (after_call w st1 t1)) as Hescape.
  unfold outcome at 1 3, events at 1. cbn [fst snd].
  rewrite Hok in Hescape |- *.
  destruct escaped as [e|]; [|left; eexists; reflexivity].
  destruct (is_exception e) eqn:Hexc; [left; eexists; reflexivity|].
  right. destruct (Hescape _ _ eq_refl) as (Hforce & pre & prompt & took & Hevs).
  split; [exact Hforce|].
  exists (Called ListGateways (inl resp) t1 :: pre), prompt, e, took.
  rewrite Hevs. auto.
Qed.

Lemma cleanup_s3_data_returns w :
  exists records, outcome (Cleanup.cleanup_s3_data respond w) = Ok records.
Proof.
  rewrite cleanup_s3_data_unfold.
  destruct (respond (remote w) ListBuckets) as [[[resp|e] st1] t1];
    [|eexists; reflexivity].
  rewrite outcome_preceded.
  destruct (s3_sweep respond (get_default (Buckets resp) []) []
              (after_call w st1 t1)) as (added & Hok & _).
  eexists. exact Hok.
Qed.

(** [cleanup_all] when the sweep of the gateways raises what its
    handler does not catch: nothing else is run. *)
Lemma cleanup_all_interrupted force w e :
  outcome (Cleanup.cleanup_gateways respond force w) = Raised e ->
  is_exception e = false ->
  Teardown.cleanup_all respond respond_more stack_name force w =
  (Raised e, final (Cleanup.cleanup_gateways respond force w),
   map Narrow (events (Cleanup.cleanup_gateways respond force w))).
Proof.
  unfold Teardown.cleanup_all. cbv zeta.
  unfold wattempt, wtry_except, wbind, lift, wret, wraise, outcome, final, events.
  destruct (Cleanup.cleanup_gateways respond force w) as [[r1 w1] evs1].
  cbn [fst snd]. intros -> ->. cbn iota beta. rewrite app_nil_r. reflexivity.
Qed.

(** [cleanup_all] when the sweep of the gateways returns: the sweep of
    the object store, then the prompt unless forced, then the teardown
    of the stack. *)
Lemma cleanup_all_run force w gateway_results s3_results :
  let swept := Cleanup.cleanup_gateways respond force w in
  let cleaned := Cleanup.cleanup_s3_data respond (final swept) in
  outcome swept = Ok gateway_results ->
  outcome cleaned = Ok s3_results ->
  Teardown.cleanup_all respond respond_more stack_name force w =
  let results :=
    Teardown.set_s3_buckets
      (Teardown.set_gateways Teardown.initial_results gateway_results)
      s3_results in
  let before := map Narrow (events swept) ++ map Narrow (events cleaned) in
  let teardown asked w1 :=
    let deleted :=
      Teardown.delete_cloudformation_stack respond_more stack_name w1 in
    (match woutcome deleted with
     | Ok stack_result =>
         Ok (Teardown.set_cloudformation_stack results stack_result)
     | Raised e =>
         if is_exception e then Ok (Teardown.cleanup_failed results e)
         else Raised e
     | OutOfFuel => OutOfFuel
     end, wfinal deleted, before ++ asked ++ wevents deleted) in
  if force then teardown [] (final cleaned)
  else
    match respond (remote (final cleaned)) (Input Teardown.stack_prompt) with
    | (inr e, st1, t1) =>
        (if is_exception e then Ok (Teardown.cleanup_failed results e)
         else Raised e,
         after_call (final cleaned) st1 t1,
         before ++ [Narrow (Called (Input Teardown.stack_prompt) (inr e) t1)])
    | (inl line, st1, t1) =>
        if Cleanup.is_yes line then
          teardown [Narrow (Called (Input Teardown.stack_prompt) (inl line) t1)]
            (after_call (final cleaned) st1 t1)
        else
          (Ok results, after_call (final cleaned) st1 t1,
           before ++ [Narrow (Called (Input Teardown.stack_prompt) (inl line) t1)])
    end.
Proof.
  cbv zeta. unfold Teardown.cleanup_all. cbv zeta.
  unfold wattempt, wtry_except, wbind, lift, wret, wraise, outcome, final, events.
  destruct (Cleanup.cleanup_gateways respond force w) as [[r1 w1] evs1].
  cbn [fst snd]. intros ->.
  destruct (Cleanup.cleanup_s3_data respond w1) as [[r2 w2] evs2].
  cbn [fst snd]. intros ->. cbn iota beta.
  destruct force.
  - cbn iota beta. unfold woutcome, wfinal, wevents.
    destruct (Teardown.delete_cloudformation_stack respond_more stack_name w2)
      as [[[r3|e3|] w3] evs3]; cbn [fst snd];
      try destruct (is_exception e3); cbn iota beta;
      rewrite ?app_nil_r, ?app_assoc; reflexivity.
  - unfold Cleanup._confirm_action, bind, perform, ret.
    change ("Delete CloudFormation stack?" +++ " (y/N): ")
      with Teardown.stack_prompt.
    destruct (respond (remote w2) (Input Teardown.stack_prompt))
      as [[[line|e] st1] t1]; cbn iota beta.
    + fold (after_call w2 st1 t1).
      destruct (Cleanup.is_yes line); cbn iota beta.
      * unfold woutcome, wfinal, wevents.
        destruct (Teardown.delete_cloudformation_stack respond_more stack_name _)
          as [[[r3|e3|] w3] evs3]; cbn [fst snd];
          try destruct (is_exception e3); cbn iota beta;
          rewrite ?app_nil_r, <- ?app_assoc; reflexivity.
      * rewrite ?app_nil_r, <- ?app_assoc. reflexivity.
    + fold (after_call w2 st1 t1).
      destruct (is_exception e); cbn iota beta;
        rewrite ?app_nil_r, <- ?app_assoc; reflexivity.
Qed.

Lemma narrow_no_stack_call evs :
  Forall (fun y => stack_call y = None) (map Narrow evs).
Proof.
  apply Forall_forall. intros y Hy. apply in_map_iff in Hy.
  destruct Hy as (y' & <- & _). reflexivity.
Qed.


(** X18. [cleanup_all] calls CloudFormation only for its own stack,
    and, unless it is forced, only after the prompt for the stack was
    answered with yes. *)
Theorem stack_needs_consent force w pre ev post n :
  wevents (Teardown.cleanup_all respond respond_more stack_name force w) =
    pre ++ ev :: post ->
  stack_call ev = Some n ->
  n = stack_name /\
  (force = true \/
   exists line took,
     In (Narrow (Called (Input Teardown.stack_prompt) (inl line) took)) pre /\
     Cleanup.is_yes line = true).
Proof.
  destruct (cleanup_gateways_ends force w)
    as [(gr & Hgr)|(Hforce & pre0 & prompt & e & took & Hevs & Hexc & Hout)].
  2: { rewrite (cleanup_all_interrupted force w e Hout Hexc).
       unfold wevents. cbn [snd]. intros Heq Hev. exfalso.
       pose proof (narrow_no_stack_call
                     (events (Cleanup.cleanup_gateways respond force w))) as Hall.
       rewrite Forall_forall in Hall. rewrite (Hall ev) in Hev; [discriminate|].
       rewrite Heq. apply in_or_app. right. left. reflexivity. }
  destruct (cleanup_s3_data_returns
              (final (Cleanup.cleanup_gateways respond force w)))
    as (sr & Hsr).
  rewrite (cleanup_all_run force w gr sr Hgr Hsr). cbv zeta.
  set (before := map Narrow (events (Cleanup.cleanup_gateways respond force w)) ++
                 map Narrow (events (Cleanup.cleanup_s3_data respond
                   (final (Cleanup.cleanup_gateways respond force w))))).
  assert (Hbefore : Forall (fun y => ~ (stack_call y <> None)) before).
  { apply Forall_app. split; apply Forall_forall; intros y Hy;
      apply in_map_iff in Hy; destruct Hy as (y' & <- & _);
      intros H; apply H; reflexivity. }
  assert (Hteardown : forall asked w1,
    Forall (fun y => ~ (stack_call y <> None)) asked ->
    before ++ asked ++
      wevents (Teardown.delete_cloudformation_stack respond_more stack_name w1) =
      pre ++ ev :: post ->
    stack_call ev = Some n ->
    n = stack_name /\ exists pre', pre = (before ++ asked) ++ pre').
  { intros asked w1 Hasked Heq Hev. rewrite app_assoc in Heq.
    destruct (split_past (fun y => stack_call y <> None) _ _ _ _ _ Heq
                ltac:(apply Forall_app; split; assumption)
                ltac:(congruence)) as (pre' & -> & Hin).
    split; [|exists pre'; reflexivity].
    destruct (stack_run w1) as (_ & _ & Hcalls). cbv zeta in Hcalls.
    rewrite Forall_forall in Hcalls.
    destruct (Hcalls ev) as [Hown _].
    { rewrite Hin. apply in_or_app. right. left. reflexivity. }
    congruence. }
  assert (Hnone : forall asked,
            Forall (fun y => ~ (stack_call y <> None)) asked ->
            before ++ asked = pre ++ ev :: post ->
            stack_call ev = Some n -> False).
  { intros asked Hasked Heq Hev.
    assert (Hall : Forall (fun y => ~ (stack_call y <> None)) (before ++ asked))
      by (apply Forall_app; split; assumption).
    rewrite Forall_forall in Hall. apply (Hall ev); [|congruence].
    rewrite Heq. apply in_or_app. right. left. reflexivity. }
  destruct force.
  - unfold wevents. cbn [snd]. intros Heq Hev.
    destruct (Hteardown [] _ ltac:(constructor) Heq Hev) as [Hn _].
    split; [exact Hn|left; reflexivity].
  - destruct (respond _ (Input Teardown.stack_prompt)) as [[[line|e] st1] t1].
    + destruct (Cleanup.is_yes line) eqn:Hline.
      * unfold wevents. cbn [snd]. intros Heq Hev.
        assert (Hasked : Forall (fun y => ~ (stack_call y <> None))
                  [Narrow (Called (Input Teardown.stack_prompt) (inl line) t1)]).
        { constructor; [intros H; apply H; reflexivity|constructor]. }
        destruct (Hteardown _ _ Hasked Heq Hev) as [Hn (pre' & ->)].
        split; [exact Hn|]. right. exists line, t1. split; [|exact Hline].
        apply in_or_app. left. apply in_or_app. right. left. reflexivity.
      * unfold wevents. cbn [snd]. intros Heq Hev. exfalso.
        eapply Hnone; [|exact Heq|exact Hev].
        constructor; [intros H; apply H; reflexivity|constructor].
    + unfold wevents. cbn [snd]. intros Heq Hev. exfalso.
      eapply Hnone; [|exact Heq|exact Hev].
      constructor; [intros H; apply H; reflexivity|constructor].
Qed.


End StackTeardown.

(** * The further properties on the doubles *)

(** X1 on a control plane whose fetches take two seconds and never see
    [ACTIVE]: the wait for a target is over within 312 seconds. *)
Lemma activation_wait_duration_witness :
  let wait := _wait_for_active (Scripted.respond Scripted.slow)
                (OnTarget "gw-1" "t-1") 300 (at_start []) in
  clock (final wait) - clock (at_start ([] : list Scripted.answer))
    <= 300 * ms_per_second + 2000 + 10 * ms_per_second.
Proof.
  cbv zeta.
  assert (Hlat : within 2000
                   (events (_wait_for_active (Scripted.respond Scripted.slow)
                              (OnTarget "gw-1" "t-1") 300 (at_start []))) = true)
    by (vm_compute; reflexivity).
  exact (activation_wait_duration (Scripted.respond Scripted.slow)
           (OnTarget "gw-1" "t-1") 300 (at_start []) 2000
           ltac:(lia) ltac:(lia) (within_sound _ _ Hlat)).
Defined.

(** X2 on a control plane that keeps the gateway. *)
Lemma deletion_wait_duration_witness :
  let wait := _wait_for_deleted (Scripted.respond Scripted.slow)
                (OnGateway "gw-1") 300 (at_start []) in
  clock (final wait) - clock (at_start ([] : list Scripted.answer))
    <= 300 * ms_per_second + 2000 + 10 * ms_per_second.
Proof.
  cbv zeta.
  assert (Hlat : within 2000
                   (events (_wait_for_deleted (Scripted.respond Scripted.slow)
                              (OnGateway "gw-1") 300 (at_start []))) = true)
    by (vm_compute; reflexivity).
  exact (deletion_wait_duration (Scripted.respond Scripted.slow)
           (OnGateway "gw-1") 300 (at_start []) 2000
           ltac:(lia) ltac:(lia) (within_sound _ _ Hlat)).
Defined.

(** X3 on a control plane that keeps the gateway: the wait gives up
    after at most 30 fetches. *)
Lemma deletion_wait_times_out_witness :
  let wait := _wait_for_deleted (Scripted.respond Scripted.steady)
                (OnGateway "gw-1") 300 (at_start []) in
  outcome wait = Raised (gateway_undeleted "gw-1" 300) /\
  Z.of_nat (status_fetches (events wait)) <= (300 + 9) / 10.
Proof.
  cbv zeta.
  assert (Hans : all_answered
                   (events (_wait_for_deleted (Scripted.respond Scripted.steady)
                              (OnGateway "gw-1") 300 (at_start []))) = true)
    by (vm_compute; reflexivity).
  exact (deletion_wait_times_out (Scripted.respond Scripted.steady)
           (OnGateway "gw-1") 300 (at_start [])
           ltac:(lia) (all_answered_sound _ Hans)).
Defined.

(** X4 on the fleet: [gw-1] is deleted. *)
Lemma delete_gateway_returns_witness :
  let run := GatewayManager.delete_gateway Plane.respond "gw-1"
               (at_start Plane.fleet) in
  exists before u took fetches last e,
    events run =
      before ++ Called (DeleteGateway "gw-1") (inl u) took :: fetches ++ [last] /\
    gateway_poll last = Some ("gw-1", inr e) /\
    PyStr.contains "ResourceNotFound" (exc_msg e) = true.
Proof.
  cbv zeta.
  assert (Hok : outcome (GatewayManager.delete_gateway Plane.respond "gw-1"
                           (at_start Plane.fleet)) =
                Ok {| GatewayManager.deletion_status := "deleted" |})
    by (vm_compute; reflexivity).
  exact (proj2 (delete_gateway_returns Plane.respond "gw-1"
                  (at_start Plane.fleet) _ Hok)).
Defined.

(** X5 on the fleet: the locked [gw-3] refuses its delete call. *)
Lemma refused_call_ends_deletion_witness :
  outcome (GatewayManager.delete_gateway Plane.respond "gw-3"
             (at_start Plane.fleet)) =
  Raised (client_error "AccessDeniedException" "DeleteGateway").
Proof.
  assert (Hsplit :
            events (GatewayManager.delete_gateway Plane.respond "gw-3"
                      (at_start Plane.fleet)) =
            firstn 3 (events (GatewayManager.delete_gateway Plane.respond "gw-3"
                                (at_start Plane.fleet))) ++
            Called (DeleteGateway "gw-3")
              (inr (client_error "AccessDeniedException" "DeleteGateway")) 0%N
            :: [])
    by (vm_compute; reflexivity).
  exact (proj2 (refused_call_ends_deletion Plane.respond "gw-3"
                  (at_start Plane.fleet) _ _ _ _ Hsplit eq_refl)).
Defined.

(** X7 on a control plane whose first status fetch sees [ACTIVE]. *)
Lemma create_call_follows_lookup_witness :
  let req := GatewayManager.create_gateway_kwargs Scripted.demo_config
               "123456789012" in
  exists ident took,
    [Called GetCallerIdentity (inl {| Account := "123456789012" |}) 0%N] =
      [Called GetCallerIdentity (inl ident) took] /\
    req = GatewayManager.create_gateway_kwargs Scripted.demo_config
            (Account ident) /\
    req_roleArn req =
      "arn:aws:iam::" +++ Account ident +++ ":role/BedrockAgentCoreGatewayRole".
Proof.
  cbv zeta.
  assert (Hsplit :
            events (GatewayManager.create_gateway
                      (Scripted.respond Scripted.steady) Scripted.demo_config
                      (at_start [inl (Some "ACTIVE")])) =
            [Called GetCallerIdentity (inl {| Account := "123456789012" |}) 0%N] ++
            Scripted.create_event Scripted.steady ::
            skipn 2 (events (GatewayManager.create_gateway
                               (Scripted.respond Scripted.steady)
                               Scripted.demo_config
                               (at_start [inl (Some "ACTIVE")]))))
    by (vm_compute; reflexivity).
  exact (create_call_follows_lookup (Scripted.respond Scripted.steady)
           Scripted.demo_config (at_start [inl (Some "ACTIVE")])
           _ _ _ _ Hsplit eq_refl).
Defined.

(** X8 on the fleet, with an operator who declines [gw-1] and agrees to
    [gw-3]: the delete call for the target of [gw-3]. *)
Lemma sweep_deletes_approved_witness :
  let run := Cleanup.cleanup_gateways Plane.respond false
               (at_start Plane.fleet) in
  exists resp took pre',
    firstn 4 (events run) = Called ListGateways (inl resp) took :: pre' /\
    approved false (get_default (gatewaySummaries resp) []) pre' "gw-3".
Proof.
  cbv zeta.
  assert (Hsplit :
            events (Cleanup.cleanup_gateways Plane.respond false
                      (at_start Plane.fleet)) =
            firstn 4 (events (Cleanup.cleanup_gateways Plane.respond false
                                (at_start Plane.fleet))) ++
            Called (DeleteGatewayTarget "gw-3" "t-3") (inl tt) 0%N ::
            skipn 5 (events (Cleanup.cleanup_gateways Plane.respond false
                               (at_start Plane.fleet))))
    by (vm_compute; reflexivity).
  exact (sweep_deletes_approved Plane.respond false (at_start Plane.fleet)
           _ _ _ "gw-3" Hsplit eq_refl).
Defined.

(** X9 on the shelves: the batch delete for [team-archive], a bucket
    that a probe selected. *)
Lemma swept_buckets_selected_witness :
  let run := Cleanup.cleanup_s3_data Store.respond (at_start Store.shelves) in
  exists resp took pre' bk,
    firstn 4 (events run) = Called ListBuckets (inl resp) took :: pre' /\
    In bk (get_default (Buckets resp) []) /\ Name bk = "team-archive" /\
    selected_in pre' "team-archive".
Proof.
  cbv zeta.
  assert (Hsplit :
            events (Cleanup.cleanup_s3_data Store.respond
                      (at_start Store.shelves)) =
            firstn 4 (events (Cleanup.cleanup_s3_data Store.respond
                                (at_start Store.shelves))) ++
            Called (DeleteObjects "team-archive"
                      ["mcp-data/1.json"; "mcp-data/2.json"; "mcp-data/3.json"])
              (inl tt) 0%N ::
            skipn 5 (events (Cleanup.cleanup_s3_data Store.respond
                               (at_start Store.shelves))))
    by (vm_compute; reflexivity).
  exact (swept_buckets_selected Store.respond (at_start Store.shelves)
           _ _ _ "team-archive" Hsplit eq_refl).
Defined.

(** X12 on the demo account. *)
Lemma target_creation_follows_lookup_witness :
  let run := Targets.add_lambda_target Account.respond Account.respond_more
               "gw-1" Scripted.demo_config (at_start Account.demo) in
  let req := Targets.create_target_kwargs "gw-1" Scripted.demo_config in
  exists u took,
    firstn 1 (wevents run) =
      [WCalled (GetFunction
                  (GatewayManager.lambda_function_arn Scripted.demo_config))
         (inl u) took] /\
    req = Targets.create_target_kwargs "gw-1" Scripted.demo_config /\
    tgt_gatewayId req = "gw-1" /\
    functionArn (lambdaConfiguration (mcp (tgt_protocolConfiguration req))) =
      GatewayManager.lambda_function_arn Scripted.demo_config.
Proof.
  cbv zeta.
  assert (Hsplit :
            wevents (Targets.add_lambda_target Account.respond
                       Account.respond_more "gw-1" Scripted.demo_config
                       (at_start Account.demo)) =
            firstn 1 (wevents (Targets.add_lambda_target Account.respond
                                 Account.respond_more "gw-1"
                                 Scripted.demo_config (at_start Account.demo))) ++
            WCalled (CreateGatewayTarget
                       (Targets.create_target_kwargs "gw-1" Scripted.demo_config))
              (inl {| new_targetId := "t-new";
                      targetArn := "arn:aws:bedrock-agentcore:us-west-2:123456789012:gateway/gw-1/target/t-new" |})
              0%N ::
            skipn 2 (wevents (Targets.add_lambda_target Account.respond
                                Account.respond_more "gw-1"
                                Scripted.demo_config (at_start Account.demo))))
    by (vm_compute; reflexivity).
  exact (target_creation_follows_lookup Account.respond Account.respond_more
           "gw-1" Scripted.demo_config (at_start Account.demo)
           _ _ _ _ Hsplit eq_refl).
Defined.

(** X13 on the demo account: the new target of [gw-1] is active at
    once. *)
Lemma add_lambda_target_returns_witness :
  let run := Targets.add_lambda_target Account.respond Account.respond_more
               "gw-1" Scripted.demo_config (at_start Account.demo) in
  exists u t1 resp t2 fetches last,
    wevents run =
      WCalled (GetFunction
                 (GatewayManager.lambda_function_arn Scripted.demo_config))
        (inl u) t1 ::
      WCalled (CreateGatewayTarget
                 (Targets.create_target_kwargs "gw-1" Scripted.demo_config))
        (inl resp) t2 ::
      map Narrow (fetches ++ [last]) /\
    target_poll last = Some ("gw-1", new_targetId resp, inl (Some "ACTIVE")) /\
    new_targetId resp = "t-new".
Proof.
  cbv zeta.
  assert (Hok :
            woutcome (Targets.add_lambda_target Account.respond
                        Account.respond_more "gw-1" Scripted.demo_config
                        (at_start Account.demo)) =
            Ok {| Targets.target_id := "t-new";
                  Targets.target_arn := "arn:aws:bedrock-agentcore:us-west-2:123456789012:gateway/gw-1/target/t-new";
                  Targets.target_status := "created" |})
    by (vm_compute; reflexivity).
  destruct (add_lambda_target_returns Account.respond Account.respond_more
              "gw-1" Scripted.demo_config (at_start Account.demo) _ Hok)
    as (u & t1 & resp & t2 & fetches & last & Hevs & Hlast & Hh).
  exists u, t1, resp, t2, fetches, last.
  split; [exact Hevs|]. split; [exact Hlast|].
  inversion Hh. reflexivity.
Defined.

(** X15 on the demo account. *)
Lemma stack_delete_follows_describe_witness :
  let run := Teardown.delete_cloudformation_stack Account.respond_more
               "mcp-demo-stack" (at_start Account.demo) in
  "mcp-demo-stack" = "mcp-demo-stack" /\
  exists d took,
    firstn 1 (wevents run) =
      [WCalled (DescribeStacks "mcp-demo-stack") (inl d) took].
Proof.
  cbv zeta.
  assert (Hsplit :
            wevents (Teardown.delete_cloudformation_stack Account.respond_more
                       "mcp-demo-stack" (at_start Account.demo)) =
            firstn 1 (wevents (Teardown.delete_cloudformation_stack
                                 Account.respond_more "mcp-demo-stack"
                                 (at_start Account.demo))) ++
            WCalled (DeleteStack "mcp-demo-stack") (inl tt) 0%N ::
            skipn 2 (wevents (Teardown.delete_cloudformation_stack
                                Account.respond_more "mcp-demo-stack"
                                (at_start Account.demo))))
    by (vm_compute; reflexivity).
  exact (stack_delete_follows_describe Account.respond_more "mcp-demo-stack"
           (at_start Account.demo) _ _ _ _ Hsplit eq_refl).
Defined.

(** X18 on the demo account with an operator who agrees to the stack
    only: the delete call for the stack. *)
Lemma stack_needs_consent_witness :
  let run := Teardown.cleanup_all Account.respond Account.respond_more
               "mcp-demo-stack" false (at_start Account.attended) in
  "mcp-demo-stack" = "mcp-demo-stack" /\
  (false = true \/
   exists line took,
     In (Narrow (Called (Input Teardown.stack_prompt) (inl line) took))
        (firstn 11 (wevents run)) /\
     Cleanup.is_yes line = true).
Proof.
  cbv zeta.
  assert (Hsplit :
            wevents (Teardown.cleanup_all Account.respond Account.respond_more
                       "mcp-demo-stack" false (at_start Account.attended)) =
            firstn 11 (wevents (Teardown.cleanup_all Account.respond
                                  Account.respond_more "mcp-demo-stack" false
                                  (at_start Account.attended))) ++
            WCalled (DeleteStack "mcp-demo-stack") (inl tt) 0%N ::
            skipn 12 (wevents (Teardown.cleanup_all Account.respond
                                 Account.respond_more "mcp-demo-stack" false
                                 (at_start Account.attended))))
    by (vm_compute; reflexivity).
  exact (stack_needs_consent Account.respond Account.respond_more
           "mcp-demo-stack" false (at_start Account.attended)
           _ _ _ _ Hsplit eq_refl).
Defined.



(** C8 with an operator who agrees to [gw-1] and presses Ctrl-C at
    the prompt for [gw-3]: [gw-1] is deleted, and the sweep raises the
    [KeyboardInterrupt] instead of returning a report. *)
Lemma interrupted_sweep_raises :
  let run := Cleanup.cleanup_gateways Impatient.respond false
               (at_start Impatient.hurried) in
  outcome run = Raised Impatient.keyboard_interrupt /\
  is_exception Impatient.keyboard_interrupt = false /\
  In (Called (DeleteGateway "gw-1") (inl tt) 0%N) (events run) /\
  skipn 9 (events run) =
    [Called (Input (delete_prompt "Bedrock-Tools" "gw-3"))
       (inr Impatient.keyboard_interrupt) 0%N].
Proof. vm_compute. repeat split. do 7 right. left. reflexivity. Qed.

(** X17 with the same operator: [cleanup_all] raises the
    [KeyboardInterrupt] of the sweep of the gateways, and calls nothing
    after it.  With an operator who declines both gateways and presses
    Ctrl-C at the prompt for the stack, both sweeps are run, and
    [cleanup_all] raises again. *)
Lemma interrupted_cleanup_stops :
  let run := Teardown.cleanup_all Impatient.respond Impatient.respond_more
               "mcp-demo-stack" false (at_start Impatient.hurried) in
  let later := Teardown.cleanup_all Impatient.respond Impatient.respond_more
                 "mcp-demo-stack" false (at_start Impatient.wary) in
  woutcome run = Raised Impatient.keyboard_interrupt /\
  wevents run =
    map Narrow (events (Cleanup.cleanup_gateways Impatient.respond false
                          (at_start Impatient.hurried))) /\
  woutcome later = Raised Impatient.keyboard_interrupt /\
  skipn 3 (wevents later) =
    [Narrow (Called ListBuckets (inr unsupported) 0%N);
     Narrow (Called (Input Teardown.stack_prompt)
               (inr Impatient.keyboard_interrupt) 0%N)].
Proof. vm_compute. repeat split. Qed.
